(** * tls_client/update_shared_libraries.py: a shallow embedding

    The updater checks a release feed, downloads the shared library that
    matches the host platform and swaps it into place, keeping a small
    line-oriented record file ([version.txt]) next to it.

    Modelling conventions.
    - A Python [str] is a [string]; every [ascii] stands for the code point
      of the same number (0..255).  Code points above 255 are outside the
      model.
    - A Python value that is either [None] or a [str] is an [option string];
      a [dict] with string keys is a [gmap string (option string)].
    - The file system is a finite map from paths to the contents of regular
      files (POSIX conventions: [os.path.join] of [posixpath], no newline
      translation on output).  Directories are not part of the map:
      [os.makedirs] changes nothing the map records, but it can fail, and
      then raises where the program calls it.
    - A copy or a move that fails may already have written to its target:
      the environment says how many bytes got through.
    - Everything the program obtains from outside (environment variable,
      clock, HTTP answers, I/O failures) is read from an [env]; what the
      program does to the outside (requests, printed lines) is appended to
      the [trace] of the [world].
    - Exceptions are the [Raise] outcome of the monad [M]. *)

From Stdlib Require Import ZArith Lia Ascii String.
From stdpp Require Import gmap strings list fin_maps.

Open Scope Z_scope.

(** ** Strings *)

Definition LF : ascii := "010"%char.
Definition CR : ascii := "013"%char.

(** [str.lower] on the code points of the model: the capitals are A to Z
    (65 to 90) and, in the upper half, 192 to 222 without the
    multiplication sign 215; each has its small letter 32 places further
    on.  Every other code point below 256 is its own lower case. *)
Definition lower_char (c : ascii) : ascii :=
  let n := nat_of_ascii c in
  if ((65 <=? n)%nat && (n <=? 90)%nat)
     || ((192 <=? n)%nat && (n <=? 222)%nat && negb (n =? 215)%nat)
  then ascii_of_nat (n + 32) else c.

Fixpoint lower (s : string) : string :=
  match s with
  | EmptyString => EmptyString
  | String c s' => String (lower_char c) (lower s')
  end.

(** [x in [a, b, ...]] for strings. *)
Definition str_in (x : string) (l : list string) : bool :=
  existsb (String.eqb x) l.
Arguments str_in : simpl never.

(** [s.startswith(p)] *)
Definition startswith (s p : string) : bool := String.prefix p s.

(** [s.endswith(p)] for a one-character [p]. *)
Fixpoint endswith_char (s : string) (c : ascii) : bool :=
  match s with
  | EmptyString => false
  | String a EmptyString => Ascii.eqb a c
  | String _ s' => endswith_char s' c
  end.

(** [s.rsplit(".", 1)[0]]: what precedes the last dot, or all of [s] when it
    has no dot. *)
Fixpoint before_last_dot (s : string) : option string :=
  match s with
  | EmptyString => None
  | String c s' =>
      match before_last_dot s' with
      | Some p => Some (String c p)
      | None => if Ascii.eqb c "."%char then Some EmptyString else None
      end
  end.

Definition rsplit_dot_head (s : string) : string :=
  default s (before_last_dot s).

(** The line boundaries of [str.splitlines] among the code points of the
    model: LF, VT, FF, CR, FS, GS, RS and NEL (U+2028 and U+2029 lie above
    255). *)
Definition is_linebreak (c : ascii) : bool :=
  str_in (String c EmptyString)
    [String "010" ""; String "011" ""; String "012" ""; String "013" "";
     String "028" ""; String "029" ""; String "030" ""; String "133" ""].

(** [s.splitlines(False)]: a CR LF pair is one boundary, and a boundary at
    the very end does not open a last empty line. *)
Fixpoint splitlines (s : string) : list string :=
  match s with
  | EmptyString => []
  | String c s' =>
      if is_linebreak c then
        EmptyString ::
          match s' with
          | String c' s'' =>
              if Ascii.eqb c CR && Ascii.eqb c' LF then splitlines s''
              else splitlines s'
          | EmptyString => []
          end
      else
        match splitlines s' with
        | [] => [String c EmptyString]
        | l :: ls => String c l :: ls
        end
  end.

(** What a text-mode [read()] does to line ends (universal newlines): CR LF
    and a lone CR both become LF. *)
Fixpoint translate_newlines (s : string) : string :=
  match s with
  | EmptyString => EmptyString
  | String c s' =>
      if Ascii.eqb c CR then
        String LF
          match s' with
          | String c' s'' =>
              if Ascii.eqb c' LF then translate_newlines s''
              else translate_newlines s'
          | EmptyString => EmptyString
          end
      else String c (translate_newlines s')
  end.

(** The first [n] code points of [s], all of [s] when it has no more. *)
Fixpoint str_take (n : nat) (s : string) : string :=
  match n, s with
  | S n', String c s' => String c (str_take n' s')
  | _, _ => EmptyString
  end.

(** [os.path.join(a, b)] of [posixpath]. *)
Definition os_path_join (a b : string) : string :=
  if startswith b "/" then b
  else if String.eqb a "" || endswith_char a "/" then a +:+ b
  else a +:+ "/" +:+ b.

(** Truth value of an optional string: [None] and [""] are false. *)
Definition truthy (o : option string) : bool :=
  match o with
  | Some s => negb (String.eqb s "")
  | None => false
  end.

(** The text [save_local_version] writes: [f"{version}\n{last_modified}\n{now}"]
    and then, when [etag] is true, [f"\n{etag}"]. *)
Definition record_text (version last_modified now : string) (etag : option string)
  : string :=
  version +:+ String LF "" +:+ last_modified +:+ String LF "" +:+ now
  +:+ (if truthy etag then String LF "" +:+ default "" etag else "").

(** A string without any line boundary. *)
Fixpoint single_line (s : string) : bool :=
  match s with
  | EmptyString => true
  | String c s' => negb (is_linebreak c) && single_line s'
  end.

(** ** Exceptions and outcomes *)

Inductive exn :=
  | ValueError (msg : string)
  | TypeError
  | KeyError
  | OSError
  | RequestException.

Inductive outcome (A : Type) :=
  | Ok (a : A)
  | Raise (e : exn).
Arguments Ok {A} a.
Arguments Raise {A} e.

(** ** Platform resolver *)

(** [get_dependency_filename], as a function of what [platform.system()] and
    [platform.machine()] return. *)
Definition get_dependency_filename (platform_system platform_machine : string)
  : outcome string :=
  let system := lower platform_system in
  let machine := lower platform_machine in
  if String.eqb system "windows" then
    if str_in machine ["amd64"; "x86_64"] then Ok "tls-client-windows-amd64.dll"
    else if str_in machine ["x86"; "i386"] then Ok "tls-client-windows-386.dll"
    else Ok "tls-client-windows-amd64.dll"
  else if String.eqb system "linux" then
    if str_in machine ["amd64"; "x86_64"] then Ok "tls-client-linux-amd64.so"
    else if str_in machine ["arm64"; "aarch64"] then Ok "tls-client-linux-arm64.so"
    else Ok "tls-client-linux-amd64.so"
  else if String.eqb system "darwin" then
    if str_in machine ["arm64"; "aarch64"] then Ok "tls-client-darwin-arm64.dylib"
    else Ok "tls-client-darwin-amd64.dylib"
  else Raise (ValueError ("Unsupported platform: " +:+ system)).

(** ** Dates and times

    A [datetime] carries its calendar fields; [tzinfo] is [None] for a naive
    value and otherwise the UTC offset in minutes.  Offsets with a seconds
    part are outside the model. *)

Record datetime := mkdatetime {
  year : Z; month : Z; day : Z;
  hour : Z; minute : Z; second : Z; microsecond : Z;
  tzinfo : option Z
}.

Definition _is_leap (y : Z) : bool :=
  (y mod 4 =? 0) && (negb (y mod 100 =? 0) || (y mod 400 =? 0)).

Definition _days_before_year (y : Z) : Z :=
  let y' := y - 1 in y' * 365 + y' / 4 - y' / 100 + y' / 400.

Definition _days_in_month (y m : Z) : Z :=
  if (m =? 2) && _is_leap y then 29
  else nth (Z.to_nat m) [0; 31; 28; 31; 30; 31; 30; 31; 31; 30; 31; 30; 31] 0.

Definition _days_before_month (y m : Z) : Z :=
  nth (Z.to_nat m) [0; 0; 31; 59; 90; 120; 151; 181; 212; 243; 273; 304; 334] 0
  + (if (2 <? m) && _is_leap y then 1 else 0).

Definition _ymd2ord (y m d : Z) : Z :=
  _days_before_year y + _days_before_month y m + d.

Definition toordinal (d : datetime) : Z := _ymd2ord (year d) (month d) (day d).

(** The range checks of the [datetime] constructor. *)
Definition datetime_valid (d : datetime) : bool :=
  (1 <=? year d) && (year d <=? 9999) &&
  (1 <=? month d) && (month d <=? 12) &&
  (1 <=? day d) && (day d <=? _days_in_month (year d) (month d)) &&
  (0 <=? hour d) && (hour d <=? 23) &&
  (0 <=? minute d) && (minute d <=? 59) &&
  (0 <=? second d) && (second d <=? 59) &&
  (0 <=? microsecond d) && (microsecond d <=? 999999) &&
  match tzinfo d with
  | Some off => (-1440 <? off) && (off <? 1440)
  | None => true
  end.

(** What [datetime.now(timezone.utc)] can return. *)
Definition is_utc_now (d : datetime) : bool :=
  datetime_valid d && bool_decide (tzinfo d = Some 0).

(** A [timedelta] is its length in microseconds. *)
Definition timedelta_hours (h : Z) : Z := h * 3600 * 1000000.

(** [a - b] of two datetimes: mixing a naive and an aware value is a
    [TypeError]. *)
Definition datetime_sub (a b : datetime) : outcome Z :=
  let secs (d : datetime) := second d + minute d * 60 + hour d * 3600 in
  let base :=
    ((toordinal a - toordinal b) * 86400 + (secs a - secs b)) * 1000000
    + (microsecond a - microsecond b) in
  match tzinfo a, tzinfo b with
  | None, None => Ok base
  | Some myoff, Some otoff => Ok (base + (otoff - myoff) * 60 * 1000000)
  | _, _ => Raise TypeError
  end.

Definition digit_char (n : Z) : ascii := ascii_of_nat (48 + Z.to_nat (n mod 10)).
Arguments digit_char : simpl never.

(** ["%02d" % n], ["%04d" % n] and ["%06d" % n] for a non-negative [n] that
    fits the width, as the fields of a valid [datetime] do. *)
Definition fmt2 (n : Z) : string :=
  String (digit_char (n / 10)) (String (digit_char n) "").
Definition fmt4 (n : Z) : string :=
  String (digit_char (n / 1000)) (String (digit_char (n / 100)) (fmt2 n)).
Definition fmt6 (n : Z) : string :=
  String (digit_char (n / 100000)) (String (digit_char (n / 10000)) (fmt4 n)).

(** [d.isoformat()] *)
Definition isoformat (d : datetime) : string :=
  fmt4 (year d) +:+ "-" +:+ fmt2 (month d) +:+ "-" +:+ fmt2 (day d) +:+ "T"
  +:+ fmt2 (hour d) +:+ ":" +:+ fmt2 (minute d) +:+ ":" +:+ fmt2 (second d)
  +:+ (if microsecond d =? 0 then "" else "." +:+ fmt6 (microsecond d))
  +:+ match tzinfo d with
      | None => ""
      | Some off =>
          (if off <? 0 then "-" else "+")
          +:+ fmt2 (Z.abs off / 60) +:+ ":" +:+ fmt2 (Z.abs off mod 60)
      end.

(** *** A reference parser

    [datetime.fromisoformat] accepts more or fewer spellings depending on
    the interpreter version.  The program is therefore modelled over an
    arbitrary parser (the section variable [fromisoformat] below).
    [fromisoformat_ref] is the part common to all versions that the examples
    need: the full form [YYYY-MM-DD?HH:MM:SS], an optional [.ffffff] and an
    optional [+HH:MM] or [-HH:MM], with every field in range. *)

Definition digit_val (c : ascii) : option Z :=
  let n := nat_of_ascii c in
  if (48 <=? n)%nat && (n <=? 57)%nat then Some (Z.of_nat n - 48) else None.

Fixpoint take_digits (n : nat) (acc : Z) (s : string) : option (Z * string) :=
  match n with
  | O => Some (acc, s)
  | S n' =>
      match s with
      | String c s' => d ← digit_val c; take_digits n' (10 * acc + d) s'
      | EmptyString => None
      end
  end.

Definition expect (c : ascii) (s : string) : option string :=
  match s with
  | String c' s' => if Ascii.eqb c c' then Some s' else None
  | EmptyString => None
  end.

Definition skip_char (s : string) : option string :=
  match s with
  | String _ s' => Some s'
  | EmptyString => None
  end.

Definition parse_fraction (s : string) : option (Z * string) :=
  match s with
  | String "." s' => take_digits 6 0 s'
  | _ => Some (0, s)
  end.

Definition parse_offset (s : string) : option (option Z) :=
  match s with
  | EmptyString => Some None
  | String c s' =>
      sign ← (if Ascii.eqb c "+" then Some 1
              else if Ascii.eqb c "-" then Some (-1) else None);
      '(oh, s1) ← take_digits 2 0 s';
      s2 ← expect ":" s1;
      '(om, s3) ← take_digits 2 0 s2;
      if String.eqb s3 "" && (om <=? 59) then Some (Some (sign * (oh * 60 + om)))
      else None
  end.

Definition fromisoformat_ref (s : string) : option datetime :=
  '(y, s) ← take_digits 4 0 s;
  s ← expect "-" s;
  '(m, s) ← take_digits 2 0 s;
  s ← expect "-" s;
  '(d, s) ← take_digits 2 0 s;
  s ← skip_char s;
  '(hh, s) ← take_digits 2 0 s;
  s ← expect ":" s;
  '(mi, s) ← take_digits 2 0 s;
  s ← expect ":" s;
  '(ss, s) ← take_digits 2 0 s;
  '(us, s) ← parse_fraction s;
  tz ← parse_offset s;
  let dt := mkdatetime y m d hh mi ss us tz in
  if datetime_valid dt then Some dt else None.

(** ** The outside world *)

(** A release asset and the release description of the feed, with the
    fields the program reads from the decoded JSON object.  [published_at]
    is [None] when the key is absent.  A body that is no JSON object, or
    that lacks ["tag_name"], an asset's ["name"] or its
    ["browser_download_url"], or whose ["published_at"] is [null], is
    outside the model: the [KeyError] or [TypeError] that [update_lib]
    lets escape on such a body is not among the outcomes below, and
    nothing here says that [update_lib] returns on every answer. *)
Record asset := mkasset {
  name : string;
  browser_download_url : string
}.

Record release := mkrelease {
  tag_name : string;
  published_at : option string;
  assets : list asset
}.

(** An HTTP response: [json] is what [response.json()] returns,
    [header_Etag] is [response.headers.get('Etag')], [content_chunks] are
    the chunks [iter_content] delivers, and [content_error] tells whether
    the stream breaks after the last of them. *)
Record response := mkresponse {
  status_code : Z;
  json : release;
  header_Etag : option string;
  content_chunks : list string;
  content_error : bool
}.

(** The lines the program prints, by call site. *)
Inductive message :=
  | MsgNoAssets
  | MsgErrorFetching (e : exn)
  | MsgErrorReading (e : exn)
  | MsgErrorSaving (e : exn)
  | MsgErrorDownloading (e : exn)
  | MsgNoUpdate
  | MsgNewVersion (version : string)
  | MsgDownloading (filename url : string)
  | MsgDownloaded (filename : string)
  | MsgUpdated (version : string)
  | MsgDownloadFailed (filename : string)
  | MsgNoAssetFor (filename : string)
  | MsgAvailableAssets (names : list string).

Inductive event :=
  | EvGet (url : string) (headers : gmap string (option string)) (stream : bool)
  | EvPrint (m : message).

(** The file operations that can fail, by call site.  [MakeDirs] stands for
    both calls of [os.makedirs(DEPENDENCIES_DIR, exist_ok=True)]: they
    create the same directory. *)
Inductive io_site :=
  | MakeDirs
  | ReadVersion
  | WriteVersion
  | CopyBackup
  | OpenTemp
  | MoveTemp
  | RemoveBackup
  | RestoreBackup.

(** [http_get url headers] is the answer to a GET request, or [None] when
    the request fails with a [requests.RequestException] (time-out,
    connection error); [io_fault site] tells whether the file operation at
    [site] fails with an [OSError].  For a copy or a move that fails,
    [io_written site] tells what it has done to its target by then:
    [None] when the target was not opened, [Some n] when the target was
    opened and the first [n] bytes of the source were written to it (all
    of them when the source has no more: the failure came after the last
    write). *)
Record env := mkenv {
  getenv_GITHUB_TOKEN : option string;
  utcnow : nat -> datetime;
  http_get : string -> gmap string (option string) -> option response;
  io_fault : io_site -> bool;
  io_written : io_site -> option nat
}.

Record world := mkworld {
  fs : gmap string string;
  clock : nat;
  trace : list event
}.

Definition set_fs (f : gmap string string) (w : world) : world :=
  {| fs := f; clock := clock w; trace := trace w |}.

Definition log (ev : event) (w : world) : world :=
  {| fs := fs w; clock := clock w; trace := trace w ++ [ev] |}.

Definition tick (w : world) : world :=
  {| fs := fs w; clock := S (clock w); trace := trace w |}.

(** The requests of a trace, in order. *)
Definition requests (t : list event) : list (string * gmap string (option string) * bool) :=
  omap (fun ev => match ev with
                  | EvGet u h s => Some (u, h, s)
                  | EvPrint _ => None
                  end) t.

(** The printed lines of a trace, in order. *)
Definition printed (t : list event) : list message :=
  omap (fun ev => match ev with
                  | EvPrint m => Some m
                  | EvGet _ _ _ => None
                  end) t.

(** The streamed requests of a trace: the downloads. *)
Definition downloads (t : list event) : list (string * gmap string (option string) * bool) :=
  filter (fun r => r.2 = true) (requests t).

(** ** A state and exception monad *)

Definition M (A : Type) : Type := world -> outcome A * world.

Definition ret {A} (a : A) : M A := fun w => (Ok a, w).

Definition raise {A} (e : exn) : M A := fun w => (Raise e, w).

Definition bind {A B} (m : M A) (k : A -> M B) : M B :=
  fun w =>
    match m w with
    | (Ok a, w') => k a w'
    | (Raise e, w') => (Raise e, w')
    end.

(** [try: m except <the exceptions that catches accepts> as e: h e] *)
Definition try_except {A} (m : M A) (catches : exn -> bool) (h : exn -> M A) : M A :=
  fun w =>
    match m w with
    | (Ok a, w') => (Ok a, w')
    | (Raise e, w') => if catches e then h e w' else (Raise e, w')
    end.

Definition lift {A} (o : outcome A) : M A := fun w => (o, w).

Declare Scope monad_scope.
Delimit Scope monad_scope with monad.
Notation "x <- m ;; k" := (bind m (fun x => k))
  (at level 100, m at next level, right associativity) : monad_scope.
Notation "m ;; k" := (bind m (fun _ => k))
  (at level 100, right associativity) : monad_scope.
Open Scope monad_scope.

(** [except Exception] *)
Definition any_exception (e : exn) : bool := true.

(** [except requests.RequestException] *)
Definition is_RequestException (e : exn) : bool :=
  match e with
  | RequestException => true
  | _ => false
  end.

(** An action that neither prints, nor sends a request, nor reads the
    clock. *)
Definition keeps_trace {A} (m : M A) : Prop :=
  ∀ w, trace (snd (m w)) = trace w ∧ clock (snd (m w)) = clock w.

Definition GITHUB_API_URL : string :=
  "https://api.github.com/repos/bogdanfinn/tls-client/releases/latest".

Definition CHECK_INTERVAL : Z := timedelta_hours 24.

Section Updater.

(** [datetime.fromisoformat]: [None] stands for the [ValueError]. *)
Variable fromisoformat : string -> option datetime.
Variable E : env.
(** The directory of the installed [tls_client] package and the file name
    computed once by [get_dependency_filename()] when the module loads. *)
Variable TLS_CLIENT_PATH : string.
Variable CURRENT_DEPENDENCY_FILENAME : string.

Definition DEPENDENCIES_DIR : string := os_path_join TLS_CLIENT_PATH "dependencies".
Definition LOCAL_VERSION_FILE : string := os_path_join DEPENDENCIES_DIR "version.txt".

(** *** Primitive operations *)

Definition print (m : message) : M unit := fun w => (Ok tt, log (EvPrint m) w).

(** [datetime.now(timezone.utc)] *)
Definition datetime_now : M datetime :=
  fun w => (Ok (utcnow E (clock w)), tick w).

(** [session.get(url, headers=headers, stream=stream)] *)
Definition session_get (url : string) (headers : gmap string (option string))
    (stream : bool) : M response :=
  fun w =>
    (match http_get E url headers with
     | Some r => Ok r
     | None => Raise RequestException
     end, log (EvGet url headers stream) w).

(** [response.raise_for_status()] *)
Definition raise_for_status (r : response) : M unit :=
  if (400 <=? status_code r) && (status_code r <? 600)
  then raise RequestException else ret tt.

Definition os_path_exists (p : string) : M bool :=
  fun w => (Ok (bool_decide (is_Some (fs w !! p))), w).

Definition io (site : io_site) : M unit :=
  if io_fault E site then raise OSError else ret tt.

(** [open(p, "r")] followed by [f.read()] *)
Definition read_text (site : io_site) (p : string) : M string :=
  io site ;;
  fun w =>
    match fs w !! p with
    | Some c => (Ok (translate_newlines c), w)
    | None => (Raise OSError, w)
    end.

(** [open(p, "w")], the writes of [text] and the close.  The failure at
    [site] is that of [open]: nothing has been written then. *)
Definition write_text (site : io_site) (p text : string) : M unit :=
  io site ;;
  fun w => (Ok tt, set_fs (<[p := text]> (fs w)) w).

(** The file system after a copy of the content [c] onto [dst] that failed
    at [site]. *)
Definition partly_written (site : io_site) (dst c : string)
    (f : gmap string string) : gmap string string :=
  match io_written E site with
  | Some n => <[dst := str_take n c]> f
  | None => f
  end.

(** [shutil.copy2(src, dst)]: the source is opened first, then the target
    is opened and written.  A copy that fails leaves the target as
    [io_written] says. *)
Definition shutil_copy2 (site : io_site) (src dst : string) : M unit :=
  fun w =>
    match fs w !! src with
    | Some c =>
        if io_fault E site
        then (Raise OSError, set_fs (partly_written site dst c (fs w)) w)
        else (Ok tt, set_fs (<[dst := c]> (fs w)) w)
    | None => (Raise OSError, w)
    end.

(** [shutil.move(src, dst)] of a regular file: [os.rename], and when that
    fails a [copy2] onto [dst] followed by [os.unlink(src)].  A move that
    fails has not removed the source, and its copy leaves the target as
    [io_written] says. *)
Definition shutil_move (site : io_site) (src dst : string) : M unit :=
  fun w =>
    match fs w !! src with
    | Some c =>
        if io_fault E site
        then (Raise OSError, set_fs (partly_written site dst c (fs w)) w)
        else (Ok tt, set_fs (<[dst := c]> (delete src (fs w))) w)
    | None => (Raise OSError, w)
    end.

(** [os.makedirs(p, exist_ok=True)]: a call that succeeds changes no
    regular file; it fails (a regular file in the way, a missing
    permission, a read-only volume) when the environment says so. *)
Definition os_makedirs (p : string) : M unit := io MakeDirs.

(** [os.remove(p)] *)
Definition os_remove (site : io_site) (p : string) : M unit :=
  io site ;;
  fun w =>
    match fs w !! p with
    | Some _ => (Ok tt, set_fs (delete p (fs w)) w)
    | None => (Raise OSError, w)
    end.

(** [open(p, "wb")] *)
Definition open_wb (site : io_site) (p : string) : M unit :=
  io site ;;
  fun w => (Ok tt, set_fs (<[p := ""]> (fs w)) w).

(** [f.write(chunk)] on a file opened by [open_wb] *)
Definition write_chunk (p chunk : string) : M unit :=
  fun w => (Ok tt, set_fs (<[p := default "" (fs w !! p) +:+ chunk]> (fs w)) w).

(** [for chunk in response.iter_content(...): f.write(chunk)] *)
Fixpoint write_chunks (p : string) (chunks : list string) (broken : bool) : M unit :=
  match chunks with
  | [] => if broken then raise RequestException else ret tt
  | chunk :: rest => write_chunk p chunk ;; write_chunks p rest broken
  end.

(** *** Version store *)

(** A non-empty dict is true; [None] and the empty dict are false. *)
Definition dict_truthy (o : option (gmap string (option string))) : bool :=
  match o with
  | Some d => negb (bool_decide (d = ∅))
  | None => false
  end.

(** The dict literal of [read_local_version]. *)
Definition record_of_lines (lines : list string) : gmap string (option string) :=
  <["version" := Some (nth 0 lines "")]>
  (<["last_modified" := Some (nth 1 lines "")]>
  (<["last_check" := Some (nth 2 lines "")]>
  (<["Etag" := if (4 <=? length lines)%nat
               then Some (nth 3 lines "") else None]> ∅))).

Definition read_local_version : M (option (gmap string (option string))) :=
  file_exists <- os_path_exists LOCAL_VERSION_FILE ;;
  if file_exists then
    try_except
      (text <- read_text ReadVersion LOCAL_VERSION_FILE ;;
       let lines := splitlines text in
       if (3 <=? length lines)%nat then
         ret (Some (record_of_lines lines))
       else ret None)
      any_exception
      (fun e => print (MsgErrorReading e) ;; ret None)
  else ret None.

Definition save_local_version (version last_modified : string)
    (etag : option string) : M unit :=
  os_makedirs DEPENDENCIES_DIR ;;
  now <- datetime_now ;;
  let now := isoformat now in
  try_except
    (write_text WriteVersion LOCAL_VERSION_FILE
       (record_text version last_modified now etag))
    any_exception
    (fun e => print (MsgErrorSaving e)).

(** The record a file system holds, as [read_local_version] finds it. *)
Definition stored_record (f : gmap string string)
  : option (gmap string (option string)) :=
  match f !! LOCAL_VERSION_FILE with
  | Some c =>
      if io_fault E ReadVersion then None
      else
        let lines := splitlines (translate_newlines c) in
        if (3 <=? length lines)%nat then Some (record_of_lines lines) else None
  | None => None
  end.

(** *** Artifact installer *)

Definition download_file (url dest_path : string) : M bool :=
  try_except
    (response <- session_get url ∅ true ;;
     raise_for_status response ;;
     dest_exists <- os_path_exists dest_path ;;
     (if dest_exists
      then shutil_copy2 CopyBackup dest_path (dest_path +:+ ".backup")
      else ret tt) ;;
     let temp_path := dest_path +:+ ".tmp" in
     open_wb OpenTemp temp_path ;;
     write_chunks temp_path (content_chunks response) (content_error response) ;;
     shutil_move MoveTemp temp_path dest_path ;;
     let backup_path := dest_path +:+ ".backup" in
     backup_exists <- os_path_exists backup_path ;;
     (if backup_exists then os_remove RemoveBackup backup_path else ret tt) ;;
     ret true)
    any_exception
    (fun e =>
       print (MsgErrorDownloading e) ;;
       let backup_path := dest_path +:+ ".backup" in
       backup_exists <- os_path_exists backup_path ;;
       (if backup_exists
        then shutil_move RestoreBackup backup_path dest_path
        else ret tt) ;;
       ret false).

(** *** Throttle *)

Definition should_check_update : M bool :=
  local_version_info <- read_local_version ;;
  match local_version_info with
  | Some d =>
      if negb (dict_truthy local_version_info)
         || negb (bool_decide (is_Some (d !! "last_check")))
      then ret true
      else
        try_except
          (text <- lift (match d !! "last_check" with
                         | Some (Some s) => Ok s
                         | Some None => Raise TypeError
                         | None => Raise KeyError
                         end) ;;
           last_check <- lift (match fromisoformat text with
                               | Some t => Ok t
                               | None => Raise (ValueError "Invalid isoformat string")
                               end) ;;
           now <- datetime_now ;;
           elapsed <- lift (datetime_sub now last_check) ;;
           ret (CHECK_INTERVAL <? elapsed))
          any_exception
          (fun _ => ret true)
  | None => ret true
  end.

(** Whether a check is due for a stored record at the time [now]. *)
Definition check_due (r : option (gmap string (option string))) (now : datetime)
  : bool :=
  match r with
  | Some d =>
      match d !! "last_check" with
      | Some (Some s) =>
          match fromisoformat s with
          | Some t =>
              match datetime_sub now t with
              | Ok elapsed => CHECK_INTERVAL <? elapsed
              | Raise _ => true
              end
          | None => true
          end
      | _ => true
      end
  | None => true
  end.

(** *** Release fetcher *)

Definition get_latest_release : M (option (release * option string)) :=
  let headers : gmap string (option string) := ∅ in
  let github_token := getenv_GITHUB_TOKEN E in
  let headers :=
    if truthy github_token
    then <["Authorization" := Some ("Bearer " +:+ default "" github_token)]> headers
    else headers in
  local_version_info <- read_local_version ;;
  let headers :=
    match local_version_info with
    | Some d =>
        match d !! "Etag" with
        | Some v =>
            if dict_truthy local_version_info
            then <["If-None-Match" := v]> headers else headers
        | None => headers
        end
    | None => headers
    end in
  try_except
    (response <- session_get GITHUB_API_URL headers false ;;
     if status_code response =? 304 then ret None
     else
       raise_for_status response ;;
       let latest_release := json response in
       if (length (assets latest_release) =? 0)%nat then
         print MsgNoAssets ;; ret None
       else ret (Some (latest_release, header_Etag response)))
    is_RequestException
    (fun e => print (MsgErrorFetching e) ;; ret None).

(** The request headers [get_latest_release] builds for a stored record. *)
Definition request_headers (local_version_info : option (gmap string (option string)))
  : gmap string (option string) :=
  let headers : gmap string (option string) :=
    if truthy (getenv_GITHUB_TOKEN E)
    then {[ "Authorization" := Some ("Bearer " +:+ default "" (getenv_GITHUB_TOKEN E)) ]}
    else ∅ in
  match local_version_info with
  | Some d =>
      match d !! "Etag" with
      | Some v => if dict_truthy local_version_info
                  then <["If-None-Match" := v]> headers else headers
      | None => headers
      end
  | None => headers
  end.

(** What [get_latest_release] makes of the answer to its request. *)
Definition fetched (answer : option response) : option (release * option string) :=
  match answer with
  | Some r =>
      if status_code r =? 304 then None
      else if (400 <=? status_code r) && (status_code r <? 600) then None
      else if (length (assets (json r)) =? 0)%nat then None
      else Some (json r, header_Etag r)
  | None => None
  end.

(** *** Orchestrator *)

(** The [for asset in assets] loop of [update_lib] together with the code
    after it; [all_assets] is the whole list, for the last message. *)
Fixpoint update_lib_assets (latest_version last_modified : string)
    (etag : option string) (all_assets remaining : list asset) : M bool :=
  let dependency_base := rsplit_dot_head CURRENT_DEPENDENCY_FILENAME in
  match remaining with
  | [] =>
      print (MsgNoAssetFor CURRENT_DEPENDENCY_FILENAME) ;;
      print (MsgAvailableAssets (map name all_assets)) ;;
      ret false
  | a :: rest =>
      if startswith (name a) dependency_base then
        let download_url := browser_download_url a in
        let dest_path := os_path_join DEPENDENCIES_DIR CURRENT_DEPENDENCY_FILENAME in
        print (MsgDownloading CURRENT_DEPENDENCY_FILENAME download_url) ;;
        ok <- download_file download_url dest_path ;;
        if ok then
          print (MsgDownloaded CURRENT_DEPENDENCY_FILENAME) ;;
          save_local_version latest_version last_modified etag ;;
          print (MsgUpdated latest_version) ;;
          ret true
        else
          print (MsgDownloadFailed CURRENT_DEPENDENCY_FILENAME) ;;
          ret false
      else update_lib_assets latest_version last_modified etag all_assets rest
  end.

Definition update_lib (force : bool) : M bool :=
  throttled <- (if force then ret false
                else due <- should_check_update ;; ret (negb due)) ;;
  if throttled then ret true
  else
    os_makedirs DEPENDENCIES_DIR ;;
    result <- get_latest_release ;;
    match result with
    | None =>
        (if force then print MsgNoUpdate else ret tt) ;;
        ret true
    | Some (latest_release, etag) =>
        let latest_version := tag_name latest_release in
        now <- datetime_now ;;
        let last_modified := default (isoformat now) (published_at latest_release) in
        local_version_info <- read_local_version ;;
        if negb force && dict_truthy local_version_info
           && bool_decide (Some latest_version
                           = default None (d ← local_version_info; d !! "version"))
        then
          save_local_version latest_version last_modified etag ;;
          ret true
        else
          print (MsgNewVersion latest_version) ;;
          update_lib_assets latest_version last_modified etag
            (assets latest_release) (assets latest_release)
    end.

End Updater.


(** ** The script entry point *)

Section Main.

Variable fromisoformat : string -> option datetime.
Variable E : env.
Variable TLS_CLIENT_PATH : string.
Variable CURRENT_DEPENDENCY_FILENAME : string.

(** The [__main__] block for a parsed [--force] flag:
    [success = update_lib(force=args.force)] and then
    [sys.exit(0 if success else 1)].  An exception that escapes ends the
    interpreter with status 1 as well. *)
Definition main (force : bool) (w : world) : Z * world :=
  match update_lib fromisoformat E TLS_CLIENT_PATH CURRENT_DEPENDENCY_FILENAME force w with
  | (Ok success, w') => (if success then 0 else 1, w')
  | (Raise _, w') => (1, w')
  end.

End Main.

(** ** Notions used to state what the program does to files *)

(** The bytes of a body delivered in chunks. *)
Definition concat_chunks (chunks : list string) : string :=
  foldr String.append "" chunks.

(** An action that leaves every file outside [paths] as it is. *)
Definition touches_only {A} (paths : list string) (m : M A) : Prop :=
  ∀ w q, q ∉ paths → fs (m w).2 !! q = fs w !! q.

(** A request that does not deliver a body: it fails, or it is answered
    with a 4xx or 5xx status. *)
Definition request_fails (answer : option response) : Prop :=
  match answer with
  | Some r => (400 <=? status_code r) && (status_code r <? 600) = true
  | None => True
  end.

(** ** Concrete hosts, record files and remote answers

    Used to run the program on explicit inputs. *)

Definition site : string := "/srv/site-packages/tls_client".
Definition target : string := "tls-client-linux-amd64.so".
Definition version_path : string := LOCAL_VERSION_FILE site.
Definition target_path : string := os_path_join (DEPENDENCIES_DIR site) target.

(** 2024-05-01 12:00:00 UTC *)
Definition noon : datetime := mkdatetime 2024 5 1 12 0 0 0 (Some 0).

(** An environment whose clock always shows [noon], without credential
    and without I/O failures, that answers every request with [answer]. *)
Definition env_answering (answer : option response) : env :=
  mkenv None (fun _ => noon) (fun _ _ => answer) (fun _ => false) (fun _ => None).

(** A world that holds only a record file with the given text. *)
Definition world_with_record (text : string) : world :=
  mkworld {[ version_path := text ]} 0 [].

(** A record checked one hour before [noon], with and without UTC offset,
    and one checked two days before. *)
Definition record_fresh : string :=
  record_text "v2.1.0" "2024-04-30T10:00:00Z" "2024-05-01T11:00:00+00:00" (Some "W/abc").
Definition record_naive : string :=
  record_text "v2.1.0" "2024-04-30T10:00:00Z" "2024-05-01T11:00:00" None.
Definition record_stale : string :=
  record_text "v2.1.0" "2024-04-30T10:00:00Z" "2024-04-29T12:00:00+00:00" (Some "W/abc").

(** A world that holds only the destination binary. *)
Definition world_with_target (content : string) : world :=
  mkworld {[ target_path := content ]} 0 [].

(** A release with three assets, two of which start with the stem of
    [target], and a release without assets. *)
Definition release_v210 : release :=
  mkrelease "v2.1.0" (Some "2024-04-30T10:00:00Z")
    [mkasset "tls-client-darwin-arm64-2.1.0.dylib" "https://dl.invalid/darwin-arm64";
     mkasset "tls-client-linux-amd64-2.1.0.so" "https://dl.invalid/linux-amd64";
     mkasset "tls-client-linux-amd64-debug-2.1.0.so" "https://dl.invalid/linux-amd64-debug"].

Definition release_without_assets : release :=
  mkrelease "v2.2.0" (Some "2024-05-01T09:00:00Z") [].

(** 304 Not Modified; 200 with a release that lists no asset; 200 with
    [release_v210] and a body of two chunks; the same with a body that
    breaks after its first chunk. *)
Definition resp_304 : response :=
  mkresponse 304 release_without_assets None [] false.
Definition resp_no_assets : response :=
  mkresponse 200 release_without_assets (Some "W/def") [] false.
Definition resp_release : response :=
  mkresponse 200 release_v210 (Some "W/abc") ["NEW-"; "BINARY"] false.
Definition resp_broken : response :=
  mkresponse 200 release_v210 (Some "W/abc") ["NEW-"] true.

(** 503 Service Unavailable. *)
Definition resp_503 : response :=
  mkresponse 503 release_without_assets None [] false.

(** Like [env_answering], with the file operations that fail given by
    [faults]; a copy or a move that fails has not touched its target. *)
Definition env_with_faults (answer : option response) (faults : io_site -> bool)
  : env :=
  mkenv None (fun _ => noon) (fun _ _ => answer) faults (fun _ => None).

(** Like [env_with_faults], but a copy or a move that fails has written
    the first [written] bytes to its target. *)
Definition env_with_partial_copies (answer : option response)
    (faults : io_site -> bool) (written : nat) : env :=
  mkenv None (fun _ => noon) (fun _ _ => answer) faults (fun _ => Some written).

(** 2024-05-01 11:00:00 UTC, the last check of [record_fresh]. *)
Definition eleven : datetime := mkdatetime 2024 5 1 11 0 0 0 (Some 0).

(** A world that holds the destination binary and a backup file left by an
    earlier run. *)
Definition world_with_stale_backup (content backup : string) : world :=
  mkworld (<[ target_path +:+ ".backup" := backup ]> {[ target_path := content ]}) 0 [].

(** A record file with CR LF line ends. *)
Definition record_crlf : string :=
  "v2.1.0" +:+ String CR (String LF
    ("2024-04-30T10:00:00Z" +:+ String CR (String LF
      ("2024-04-29T12:00:00+00:00" +:+ String CR (String LF ""))))).

(** * Properties *)

(** ** Strings *)

Lemma append_nil (b : string) : "" +:+ b = b.
Proof. reflexivity. Qed.

Lemma append_cons (x : ascii) (a b : string) : String x a +:+ b = String x (a +:+ b).
Proof. reflexivity. Qed.

Ltac app_simpl := rewrite ?append_cons, ?append_nil.

Lemma append_assoc (a b c : string) : (a +:+ b) +:+ c = a +:+ (b +:+ c).
Proof. induction a as [|x a IH]; app_simpl; [reflexivity | now rewrite IH]. Qed.

Lemma append_empty_r (a : string) : a +:+ "" = a.
Proof. induction a as [|x a IH]; app_simpl; [reflexivity | now rewrite IH]. Qed.

Lemma length_append (a b : string) :
  String.length (a +:+ b) = (String.length a + String.length b)%nat.
Proof. induction a as [|x a IH]; app_simpl; simpl; [reflexivity | now rewrite IH]. Qed.

Lemma append_ne_self (a b : string) : b ≠ "" → a +:+ b ≠ a.
Proof.
  intros Hb Heq. apply (f_equal String.length) in Heq.
  rewrite length_append in Heq. destruct b; [congruence | simpl in Heq; lia].
Qed.

Lemma str_in_spec (x : string) (l : list string) : str_in x l = true ↔ x ∈ l.
Proof.
  unfold str_in. rewrite existsb_exists, list_elem_of_In. split.
  - intros (y & Hy & Heq). apply String.eqb_eq in Heq. now subst.
  - intros H. exists x. split; [assumption | apply String.eqb_refl].
Qed.

Lemma str_in_false (x : string) (l : list string) : str_in x l = false ↔ x ∉ l.
Proof.
  rewrite <- str_in_spec. destruct (str_in x l); split; intros H; congruence.
Qed.

(** [lower] on capitals of both halves of the code points, and on the
    multiplication sign between them. *)
Example lower_capitals :
  lower ("AZ" +:+ String "192" (String "215" (String "222" "")))
  = "az" +:+ String "224" (String "215" (String "254" "")).
Proof. reflexivity. Qed.

(** ** Platform resolver *)

(** [x] is outside a list of names because it is outside a longer one
    ([Hm]), or because it is in a list that shares no name with it. *)
Ltac sub_names :=
  let Hin := fresh in
  intros Hin;
  match goal with H : _ ∉ _ |- _ => apply H end; set_unfold; tauto.
Ltac disjoint_names :=
  let Hin := fresh in
  intros Hin; set_unfold;
  repeat match goal with
         | H : _ ∨ _ |- _ => destruct H
         | H : False |- _ => destruct H
         end; congruence.

(** C4: for the lowered OS and architecture names, [get_dependency_filename]
    returns the documented file name of every row of the mapping table, and
    for every other OS it raises the unsupported-platform [ValueError].  As a
    function of its two inputs it is deterministic and has no effect. *)
Theorem get_dependency_filename_table (platform_system platform_machine : string) :
  let system := lower platform_system in
  let machine := lower platform_machine in
  let result := get_dependency_filename platform_system platform_machine in
  (system = "windows" →
     (machine ∈ ["amd64"; "x86_64"] → result = Ok "tls-client-windows-amd64.dll")
     ∧ (machine ∈ ["x86"; "i386"] → result = Ok "tls-client-windows-386.dll")
     ∧ (machine ∉ ["amd64"; "x86_64"; "x86"; "i386"] →
          result = Ok "tls-client-windows-amd64.dll"))
  ∧ (system = "linux" →
     (machine ∈ ["amd64"; "x86_64"] → result = Ok "tls-client-linux-amd64.so")
     ∧ (machine ∈ ["arm64"; "aarch64"] → result = Ok "tls-client-linux-arm64.so")
     ∧ (machine ∉ ["amd64"; "x86_64"; "arm64"; "aarch64"] →
          result = Ok "tls-client-linux-amd64.so"))
  ∧ (system = "darwin" →
     (machine ∈ ["arm64"; "aarch64"] → result = Ok "tls-client-darwin-arm64.dylib")
     ∧ (machine ∉ ["arm64"; "aarch64"] → result = Ok "tls-client-darwin-amd64.dylib"))
  ∧ (system ∉ ["windows"; "linux"; "darwin"] →
     result = Raise (ValueError ("Unsupported platform: " +:+ system))).
Proof.
  intros system machine result. subst result. unfold get_dependency_filename.
  fold system machine. clearbody system machine.
  split; [|split; [|split]].
  - intros ->. simpl. repeat split; intros Hm.
    + apply str_in_spec in Hm. now rewrite Hm.
    + assert (Hn : machine ∉ ["amd64"; "x86_64"]) by disjoint_names.
      apply str_in_false in Hn. apply str_in_spec in Hm. now rewrite Hn, Hm.
    + assert (H1 : machine ∉ ["amd64"; "x86_64"]) by sub_names.
      assert (H2 : machine ∉ ["x86"; "i386"]) by sub_names.
      apply str_in_false in H1, H2. now rewrite H1, H2.
  - intros ->. simpl. repeat split; intros Hm.
    + apply str_in_spec in Hm. now rewrite Hm.
    + assert (Hn : machine ∉ ["amd64"; "x86_64"]) by disjoint_names.
      apply str_in_false in Hn. apply str_in_spec in Hm. now rewrite Hn, Hm.
    + assert (H1 : machine ∉ ["amd64"; "x86_64"]) by sub_names.
      assert (H2 : machine ∉ ["arm64"; "aarch64"]) by sub_names.
      apply str_in_false in H1, H2. now rewrite H1, H2.
  - intros ->. simpl. split; intros Hm.
    + apply str_in_spec in Hm. now rewrite Hm.
    + apply str_in_false in Hm. now rewrite Hm.
  - intros Hm.
    assert (H1 : system ≠ "windows") by sub_names.
    assert (H2 : system ≠ "linux") by sub_names.
    assert (H3 : system ≠ "darwin") by sub_names.
    apply String.eqb_neq in H1, H2, H3. now rewrite H1, H2, H3.
Qed.

(** What the resolver returns on the values the standard library reports on
    common hosts. *)
Example get_dependency_filename_hosts :
  get_dependency_filename "Windows" "AMD64" = Ok "tls-client-windows-amd64.dll"
  ∧ get_dependency_filename "Windows" "x86" = Ok "tls-client-windows-386.dll"
  ∧ get_dependency_filename "Linux" "x86_64" = Ok "tls-client-linux-amd64.so"
  ∧ get_dependency_filename "Linux" "aarch64" = Ok "tls-client-linux-arm64.so"
  ∧ get_dependency_filename "Darwin" "arm64" = Ok "tls-client-darwin-arm64.dylib"
  ∧ get_dependency_filename "Darwin" "x86_64" = Ok "tls-client-darwin-amd64.dylib"
  ∧ get_dependency_filename "FreeBSD" "amd64"
    = Raise (ValueError "Unsupported platform: freebsd").
Proof. repeat split; reflexivity. Qed.

(** ** Running the monad *)

Ltac unfold_monad :=
  unfold read_text, write_text, shutil_copy2, shutil_move, os_remove, open_wb,
    os_makedirs, write_chunk, session_get, raise_for_status, datetime_now, print,
    os_path_exists, io, lift, try_except, bind, ret, raise.

Ltac msimpl :=
  cbn -[Nat.leb Z.leb Z.ltb Z.eqb String.eqb String.append splitlines
        translate_newlines isoformat record_text record_of_lines
        datetime_sub CHECK_INTERVAL GITHUB_API_URL
        LOCAL_VERSION_FILE DEPENDENCIES_DIR os_path_join] in *.

Lemma bind_Ok {A B} (m : M A) (k : A → M B) (w w1 : world) (a : A) :
  m w = (Ok a, w1) → bind m k w = k a w1.
Proof. intros H. unfold bind. now rewrite H. Qed.

Lemma bind_Raise {A B} (m : M A) (k : A → M B) (w w1 : world) (e : exn) :
  m w = (Raise e, w1) → bind m k w = (Raise e, w1).
Proof. intros H. unfold bind. now rewrite H. Qed.

Lemma try_except_Ok {A} (m : M A) catches h (w w1 : world) (a : A) :
  m w = (Ok a, w1) → try_except m catches h w = (Ok a, w1).
Proof. intros H. unfold try_except. now rewrite H. Qed.

Lemma try_except_Raise {A} (m : M A) catches h (w w1 : world) (e : exn) :
  m w = (Raise e, w1) → catches e = true → try_except m catches h w = h e w1.
Proof. intros H Hc. unfold try_except. now rewrite H, Hc. Qed.

(** ** Runs of the version store and of the throttle *)

Section UpdaterFacts.

Variable fromisoformat : string -> option datetime.
Variable E : env.
Variable TLS_CLIENT_PATH : string.
Variable CURRENT_DEPENDENCY_FILENAME : string.


Lemma requests_log_print (t : list event) (m : message) :
  requests (t ++ [EvPrint m]) = requests t.
Proof. unfold requests. rewrite omap_app. simpl. apply app_nil_r. Qed.

Lemma requests_log_get (t : list event) u h s :
  requests (t ++ [EvGet u h s]) = requests t ++ [(u, h, s)].
Proof. unfold requests. now rewrite omap_app. Qed.

Lemma world_eta (w : world) : {| fs := fs w; clock := clock w; trace := trace w |} = w.
Proof. now destruct w. Qed.

(** [read_local_version] returns the stored record; it changes no file, does
    not read the clock and sends nothing; when it finds a record it prints
    nothing either. *)
Lemma read_local_version_run (w : world) :
  ∃ w', read_local_version E TLS_CLIENT_PATH w = (Ok (stored_record E TLS_CLIENT_PATH (fs w)), w')
        ∧ fs w' = fs w ∧ clock w' = clock w
        ∧ requests (trace w') = requests (trace w)
        ∧ (is_Some (stored_record E TLS_CLIENT_PATH (fs w)) → w' = w).
Proof.
  unfold read_local_version, stored_record.
  unfold_monad.
  destruct (fs w !! LOCAL_VERSION_FILE TLS_CLIENT_PATH) as [c|] eqn:Hc; msimpl.
  - destruct (io_fault E ReadVersion) eqn:Hf; msimpl.
    + eexists. split; [reflexivity|]. msimpl. rewrite requests_log_print.
      repeat split; try reflexivity. intros [? ?]. discriminate.
    + rewrite Hc.
      destruct (3 <=? length (splitlines (translate_newlines c)))%nat eqn:Hlen;
        msimpl; exists w; repeat split; auto.
  - exists w. repeat split; auto.
Qed.

Lemma os_makedirs_ok (p : string) (w : world) :
  io_fault E MakeDirs = false → os_makedirs E p w = (Ok tt, w).
Proof. intros Hf. unfold os_makedirs, io. now rewrite Hf. Qed.

Lemma os_makedirs_fault (p : string) (w : world) :
  io_fault E MakeDirs = true → os_makedirs E p w = (Raise OSError, w).
Proof. intros Hf. unfold os_makedirs, io. now rewrite Hf. Qed.

(** When its directory is there, [save_local_version] overwrites the record
    file with [record_text] at the current clock reading, unless the file
    cannot be opened. *)
Lemma save_local_version_run (version last_modified : string)
    (etag : option string) (w : world) :
  io_fault E MakeDirs = false →
  ∃ w', save_local_version E TLS_CLIENT_PATH version last_modified etag w = (Ok tt, w')
        ∧ clock w' = S (clock w)
        ∧ requests (trace w') = requests (trace w)
        ∧ fs w' =
            if io_fault E WriteVersion then fs w
            else <[LOCAL_VERSION_FILE TLS_CLIENT_PATH := record_text version last_modified
                            (isoformat (utcnow E (clock w))) etag]> (fs w).
Proof.
  intros Hdirs. unfold save_local_version.
  erewrite bind_Ok; [|now apply os_makedirs_ok].
  unfold_monad. msimpl.
  destruct (io_fault E WriteVersion); msimpl.
  - eexists. split; [reflexivity|]. msimpl. rewrite requests_log_print. auto.
  - eexists. split; [reflexivity|]. msimpl. auto.
Qed.

(** When its directory cannot be created, [save_local_version] raises at
    once. *)
Lemma save_local_version_no_directory (version last_modified : string)
    (etag : option string) (w : world) :
  io_fault E MakeDirs = true →
  save_local_version E TLS_CLIENT_PATH version last_modified etag w = (Raise OSError, w).
Proof.
  intros Hdirs. unfold save_local_version.
  erewrite bind_Raise; [reflexivity | now apply os_makedirs_fault].
Qed.

(** Either way [save_local_version] sends nothing. *)
Lemma save_local_version_requests (version last_modified : string)
    (etag : option string) (w : world) :
  requests (trace (save_local_version E TLS_CLIENT_PATH version last_modified etag w).2)
  = requests (trace w).
Proof.
  destruct (io_fault E MakeDirs) eqn:Hdirs.
  - now rewrite save_local_version_no_directory.
  - destruct (save_local_version_run version last_modified etag w Hdirs)
      as (w' & -> & _ & Hreq & _). exact Hreq.
Qed.

(** [should_check_update] always returns, with the value of [check_due] on
    the stored record; it changes no file and sends nothing, and when the
    answer is [False] it prints nothing. *)
Lemma should_check_update_run (w : world) :
  ∃ w', should_check_update fromisoformat E TLS_CLIENT_PATH w
        = (Ok (check_due fromisoformat (stored_record E TLS_CLIENT_PATH (fs w))
                 (utcnow E (clock w))), w')
        ∧ fs w' = fs w
        ∧ (clock w <= clock w')%nat
        ∧ requests (trace w') = requests (trace w)
        ∧ (check_due fromisoformat (stored_record E TLS_CLIENT_PATH (fs w))
             (utcnow E (clock w)) = false →
           trace w' = trace w).
Proof.
  unfold should_check_update.
  destruct (read_local_version_run w) as (w1 & Hr & Hfs & Hck & Hreq & Hsome).
  unfold bind at 1. rewrite Hr.
  destruct (stored_record E TLS_CLIENT_PATH (fs w)) as [d|] eqn:Hd; unfold check_due.
  - rewrite (Hsome (ltac:(eauto))). clear Hr Hfs Hck Hreq Hsome w1.
    unfold dict_truthy.
    destruct (bool_decide (d = ∅)) eqn:Hempty; msimpl.
    { apply bool_decide_eq_true in Hempty. subst d. rewrite lookup_empty.
      unfold_monad. exists w. repeat split; auto; try discriminate. }
    destruct (d !! "last_check") as [[s|]|] eqn:Hlc; msimpl; unfold_monad; msimpl.
    + destruct (fromisoformat s) as [t|]; msimpl.
      * destruct (datetime_sub (utcnow E (clock w)) t) as [elapsed|e]; msimpl.
        -- eexists. split; [reflexivity|]. msimpl. repeat split; auto.
        -- eexists. split; [reflexivity|]. msimpl. repeat split; auto; try discriminate.
      * exists w. repeat split; auto; try discriminate.
    + exists w. repeat split; auto; try discriminate.
    + exists w. repeat split; auto; try discriminate.
  - unfold_monad. exists w1. repeat split; auto; try lia; try discriminate.
Qed.

Lemma record_of_lines_last_check (lines : list string) :
  record_of_lines lines !! "last_check" = Some (Some (nth 2 lines "")).
Proof.
  unfold record_of_lines.
  rewrite !lookup_insert_ne by discriminate. apply lookup_insert_eq.
Qed.

Lemma record_of_lines_version (lines : list string) :
  record_of_lines lines !! "version" = Some (Some (nth 0 lines "")).
Proof. unfold record_of_lines. apply lookup_insert_eq. Qed.

Lemma record_of_lines_Etag (lines : list string) :
  record_of_lines lines !! "Etag"
  = Some (if (4 <=? length lines)%nat then Some (nth 3 lines "") else None).
Proof.
  unfold record_of_lines.
  rewrite !lookup_insert_ne by discriminate. apply lookup_insert_eq.
Qed.

Lemma stored_record_lines (f : gmap string string) d :
  stored_record E TLS_CLIENT_PATH f = Some d →
  ∃ c, f !! LOCAL_VERSION_FILE TLS_CLIENT_PATH = Some c ∧ io_fault E ReadVersion = false
       ∧ (3 <= length (splitlines (translate_newlines c)))%nat
       ∧ d = record_of_lines (splitlines (translate_newlines c)).
Proof.
  unfold stored_record.
  destruct (f !! LOCAL_VERSION_FILE TLS_CLIENT_PATH) as [c|]; [|discriminate].
  destruct (io_fault E ReadVersion); [discriminate|].
  cbv zeta.
  destruct (3 <=? length (splitlines (translate_newlines c)))%nat eqn:Hlen;
    [|discriminate].
  intros [= <-]. exists c. apply Nat.leb_le in Hlen. auto.
Qed.

Lemma read_local_version_fst (w : world) :
  fst (read_local_version E TLS_CLIENT_PATH w) = Ok (stored_record E TLS_CLIENT_PATH (fs w)).
Proof. destruct (read_local_version_run w) as (w' & -> & _). reflexivity. Qed.

(** C6, as the code has it: [should_check_update] always returns, and it
    returns [True] exactly when no record is read (the file is absent,
    unreadable or shorter than three lines), or the [last_check] line does
    not parse, or it parses to a value that cannot be subtracted from the
    current time (a naive timestamp against the aware [now] is a
    [TypeError], swallowed by the handler), or more than 24 hours have
    elapsed since it. *)
Theorem should_check_update_true_iff (w : world) :
  let now := utcnow E (clock w) in
  ∃ b, fst (should_check_update fromisoformat E TLS_CLIENT_PATH w) = Ok b
       ∧ (b = true ↔
          fst (read_local_version E TLS_CLIENT_PATH w) = Ok None
          ∨ ∃ d s, fst (read_local_version E TLS_CLIENT_PATH w) = Ok (Some d)
                   ∧ d !! "last_check" = Some (Some s)
                   ∧ (fromisoformat s = None
                      ∨ ∃ t, fromisoformat s = Some t
                             ∧ ((∃ e, datetime_sub now t = Raise e)
                                ∨ ∃ elapsed, datetime_sub now t = Ok elapsed
                                             ∧ CHECK_INTERVAL < elapsed))).
Proof.
  intros now.
  destruct (should_check_update_run w) as (w' & Hrun & _).
  rewrite Hrun, read_local_version_fst. fold now.
  exists (check_due fromisoformat (stored_record E TLS_CLIENT_PATH (fs w)) now).
  split; [reflexivity|].
  destruct (stored_record E TLS_CLIENT_PATH (fs w)) as [d|] eqn:Hd; [|simpl; tauto].
  destruct (stored_record_lines _ _ Hd) as (c & _ & _ & _ & ->).
  set (lines := splitlines (translate_newlines c)) in *.
  unfold check_due. rewrite record_of_lines_last_check.
  split.
  - intros Hdue. right. exists (record_of_lines lines), (nth 2 lines "").
    split; [reflexivity|]. split; [apply record_of_lines_last_check|].
    destruct (fromisoformat (nth 2 lines "")) as [t|]; [|now left].
    right. exists t. split; [reflexivity|].
    destruct (datetime_sub now t) as [elapsed|e]; [|left; eauto].
    right. exists elapsed. split; [reflexivity|]. now apply Z.ltb_lt.
  - intros [Hnone | (d & s & Hrec & Hs & Hcond)]; [discriminate|].
    injection Hrec as <-. rewrite record_of_lines_last_check in Hs.
    injection Hs as <-.
    destruct Hcond as [-> | (t & -> & [[e ->] | (elapsed & -> & Hlt)])];
      try reflexivity.
    now apply Z.ltb_lt.
Qed.

(** A naive timestamp cannot be subtracted from an aware one, and only a
    naive one cannot. *)
Lemma datetime_sub_aware (now t : datetime) :
  is_Some (tzinfo now) →
  (∃ e, datetime_sub now t = Raise e) ↔ tzinfo t = None.
Proof.
  intros [off Hoff]. unfold datetime_sub. rewrite Hoff.
  destruct (tzinfo t); split; intros H; try discriminate; eauto.
  destruct H as [e H]. discriminate.
Qed.

(** C7: without [force], when [should_check_update] answers [False] the
    orchestrator returns [True], with the same files and the same trace: no
    request was sent and nothing was printed. *)
Theorem update_lib_throttled (w : world) :
  fst (should_check_update fromisoformat E TLS_CLIENT_PATH w) = Ok false →
  ∃ w', update_lib fromisoformat E TLS_CLIENT_PATH CURRENT_DEPENDENCY_FILENAME false w
        = (Ok true, w')
        ∧ fs w' = fs w ∧ trace w' = trace w.
Proof.
  destruct (should_check_update_run w) as (w' & Hrun & Hfs & _ & _ & Htrace).
  rewrite Hrun. simpl. intros [= Hdue].
  exists w'. unfold update_lib. unfold bind at 1. unfold bind at 1.
  rewrite Hrun, Hdue. unfold_monad. simpl. auto.
Qed.

(** ** Runs of the release fetcher *)


(** [get_latest_release] always returns; it sends exactly one request, to
    the release feed, with the headers built from the stored record, and
    changes no file. *)
Lemma get_latest_release_run (w : world) :
  let headers := request_headers E (stored_record E TLS_CLIENT_PATH (fs w)) in
  ∃ w', get_latest_release E TLS_CLIENT_PATH w
        = (Ok (fetched (http_get E GITHUB_API_URL headers)), w')
        ∧ fs w' = fs w ∧ clock w' = clock w
        ∧ requests (trace w')
          = requests (trace w) ++ [(GITHUB_API_URL, headers, false)].
Proof.
  intros headers. unfold get_latest_release.
  destruct (read_local_version_run w) as (w1 & Hr & Hfs & Hck & Hreq & _).
  unfold bind at 1. rewrite Hr.
  match goal with
  | |- context [session_get E GITHUB_API_URL ?h false] =>
      replace h with headers
  end.
  2:{ subst headers. unfold request_headers.
      destruct (truthy (getenv_GITHUB_TOKEN E)); reflexivity. }
  clearbody headers. unfold fetched. unfold_monad. msimpl.
  destruct (http_get E GITHUB_API_URL headers) as [r|]; msimpl.
  - destruct (status_code r =? 304); msimpl.
    { eexists. split; [reflexivity|]. msimpl.
      rewrite requests_log_get, Hreq. auto. }
    destruct ((400 <=? status_code r) && (status_code r <? 600)); msimpl.
    { eexists. split; [reflexivity|]. msimpl.
      rewrite requests_log_print, requests_log_get, Hreq. auto. }
    destruct (length (assets (json r)) =? 0)%nat; msimpl.
    { eexists. split; [reflexivity|]. msimpl.
      rewrite requests_log_print, requests_log_get, Hreq. auto. }
    eexists. split; [reflexivity|]. msimpl.
    rewrite requests_log_get, Hreq. auto.
  - eexists. split; [reflexivity|]. msimpl.
    rewrite requests_log_print, requests_log_get, Hreq. auto.
Qed.

(** ** Runs of the artifact installer *)

Lemma bind_print {B} (msg : message) (k : unit → M B) (w : world) :
  bind (print msg) k w = k tt (log (EvPrint msg) w).
Proof. reflexivity. Qed.

Lemma keeps_ret {A} (a : A) : keeps_trace (ret a).
Proof. intros w. auto. Qed.

Lemma keeps_raise {A} (e : exn) : keeps_trace (@raise A e).
Proof. intros w. auto. Qed.

Lemma keeps_bind {A B} (m : M A) (k : A → M B) :
  keeps_trace m → (∀ a, keeps_trace (k a)) → keeps_trace (bind m k).
Proof.
  intros Hm Hk w. unfold bind. specialize (Hm w).
  destruct (m w) as [[a|e] w1]; simpl in *; [|assumption].
  destruct (Hk a w1) as [-> ->]. assumption.
Qed.

Lemma keeps_if {A} (b : bool) (m1 m2 : M A) :
  keeps_trace m1 → keeps_trace m2 → keeps_trace (if b then m1 else m2).
Proof. now destruct b. Qed.

Lemma keeps_os_path_exists p : keeps_trace (os_path_exists p).
Proof. intros w. auto. Qed.

Lemma keeps_io site : keeps_trace (io E site).
Proof. unfold io. apply keeps_if; [apply keeps_raise | apply keeps_ret]. Qed.

Lemma keeps_fs_step {A} (f : world → outcome A * gmap string string) :
  keeps_trace (fun w => ((f w).1, set_fs (f w).2 w)).
Proof. intros w. auto. Qed.

Lemma keeps_shutil_copy2 site src dst : keeps_trace (shutil_copy2 E site src dst).
Proof.
  intros w. unfold shutil_copy2.
  destruct (fs w !! src); [|auto]. now destruct (io_fault E site).
Qed.

Lemma keeps_shutil_move site src dst : keeps_trace (shutil_move E site src dst).
Proof.
  intros w. unfold shutil_move.
  destruct (fs w !! src); [|auto]. now destruct (io_fault E site).
Qed.

Lemma keeps_os_remove site p : keeps_trace (os_remove E site p).
Proof.
  apply keeps_bind; [apply keeps_io | intros _ w]. now destruct (fs w !! p).
Qed.

Lemma keeps_open_wb site p : keeps_trace (open_wb E site p).
Proof. apply keeps_bind; [apply keeps_io | intros _ w]. auto. Qed.

Lemma keeps_write_chunks p chunks broken : keeps_trace (write_chunks p chunks broken).
Proof.
  induction chunks as [|chunk rest IH]; simpl.
  - apply keeps_if; [apply keeps_raise | apply keeps_ret].
  - apply keeps_bind; [intros w; auto | intros _; apply IH].
Qed.

Lemma keeps_raise_for_status r : keeps_trace (raise_for_status r).
Proof. unfold raise_for_status. apply keeps_if; [apply keeps_raise | apply keeps_ret]. Qed.

Ltac keeps :=
  repeat first
    [ apply keeps_ret | apply keeps_raise | apply keeps_os_path_exists
    | apply keeps_raise_for_status | apply keeps_shutil_copy2
    | apply keeps_shutil_move | apply keeps_os_remove | apply keeps_open_wb
    | apply keeps_write_chunks | apply keeps_io
    | apply keeps_if | apply keeps_bind | intro ].

(** [download_file] sends exactly one request, the streamed download of
    [url], whatever happens afterwards. *)
Lemma download_file_requests (url dest_path : string) (w : world) :
  requests (trace (snd (download_file E url dest_path w)))
  = requests (trace w) ++ [(url, ∅, true)]
  ∧ clock (snd (download_file E url dest_path w)) = clock w.
Proof.
  unfold download_file.
  match goal with
  | |- context [try_except (bind ?g ?k) ?c ?handler] =>
      set (rest := k); set (h := handler)
  end.
  assert (Hrest : ∀ r, keeps_trace (rest r)) by (intros r; subst rest; keeps).
  assert (Hh : ∀ e w0, requests (trace (snd (h e w0))) = requests (trace w0)
                       ∧ clock (snd (h e w0)) = clock w0).
  { intros e w0. subst h. cbv beta. rewrite bind_print.
    match goal with
    | |- context [?m (log ?ev w0)] =>
        assert (Hk : keeps_trace m) by keeps; destruct (Hk (log ev w0)) as [-> ->]
    end.
    simpl. now rewrite requests_log_print. }
  clearbody rest h.
  unfold try_except, bind, session_get.
  destruct (http_get E url ∅) as [r|].
  - specialize (Hrest r (log (EvGet url ∅ true) w)).
    destruct (rest r (log (EvGet url ∅ true) w)) as [[b|e] w1];
      simpl in *; destruct Hrest as [Ht Hc].
    + now rewrite Ht, Hc, requests_log_get.
    + destruct (Hh e w1) as [-> ->]. now rewrite Ht, Hc, requests_log_get.
  - simpl. destruct (Hh RequestException (log (EvGet url ∅ true) w)) as [-> ->].
    simpl. now rewrite requests_log_get.
Qed.

Lemma backup_ne_temp (d : string) : d +:+ ".backup" ≠ d +:+ ".tmp".
Proof. intros H. apply (inj (String.append d)) in H. discriminate. Qed.

Lemma temp_ne_dest (d : string) : d +:+ ".tmp" ≠ d.
Proof. apply append_ne_self. discriminate. Qed.

Lemma backup_ne_dest (d : string) : d +:+ ".backup" ≠ d.
Proof. apply append_ne_self. discriminate. Qed.

Lemma shutil_copy2_ok site src dst c (w : world) :
  io_fault E site = false → fs w !! src = Some c →
  shutil_copy2 E site src dst w = (Ok tt, set_fs (<[dst := c]> (fs w)) w).
Proof. intros Hf Hc. unfold shutil_copy2. now rewrite Hc, Hf. Qed.

Lemma shutil_move_ok site src dst c (w : world) :
  io_fault E site = false → fs w !! src = Some c →
  shutil_move E site src dst w
  = (Ok tt, set_fs (<[dst := c]> (delete src (fs w))) w).
Proof. intros Hf Hc. unfold shutil_move. now rewrite Hc, Hf. Qed.

(** A move that fails raises, and whatever it has written it has written
    to its target. *)
Lemma shutil_move_fault site src dst (w : world) :
  io_fault E site = true →
  ∃ w', shutil_move E site src dst w = (Raise OSError, w')
        ∧ ∀ q, q ≠ dst → fs w' !! q = fs w !! q.
Proof.
  intros Hf. unfold shutil_move, partly_written.
  destruct (fs w !! src) as [c|]; [|eauto]. rewrite Hf.
  eexists. split; [reflexivity|]. intros q Hq. simpl.
  destruct (io_written E site); [now apply lookup_insert_ne | reflexivity].
Qed.

Lemma open_wb_ok site p (w : world) :
  io_fault E site = false →
  open_wb E site p w = (Ok tt, set_fs (<[p := ""]> (fs w)) w).
Proof. intros Hf. unfold open_wb, io, bind. now rewrite Hf. Qed.

Lemma open_wb_fault site p (w : world) :
  io_fault E site = true → open_wb E site p w = (Raise OSError, w).
Proof. intros Hf. unfold open_wb, io, bind. now rewrite Hf. Qed.

(** Writing the chunks touches the open file only, and fails exactly when
    the stream breaks. *)
Lemma write_chunks_run p chunks broken (w : world) :
  ∃ w', write_chunks p chunks broken w
        = (if broken then Raise RequestException else Ok tt, w')
        ∧ ∀ q, q ≠ p → fs w' !! q = fs w !! q.
Proof.
  revert w. induction chunks as [|chunk rest IH]; intros w; simpl.
  - exists w. split; [now destruct broken | auto].
  - unfold bind, write_chunk.
    destruct (IH (set_fs (<[p:=default "" (fs w !! p) +:+ chunk]> (fs w)) w))
      as (w' & -> & Hframe).
    exists w'. split; [now destruct broken|].
    intros q Hq. rewrite (Hframe q Hq). simpl. now apply lookup_insert_ne.
Qed.

(** Once the request has been answered and the backup copy made, a
    failure in what follows is undone: when the temporary file cannot be
    opened, or the body breaks off, or the move into place fails (having
    overwritten the destination with part of the new file, or not), and
    the restoring move of the handler goes through, [download_file] returns
    [False], the destination holds again the content [c] it had before the
    call and the backup file is gone. *)
Theorem download_file_restores (url dest_path c : string) (resp : response)
    (w : world) :
  fs w !! dest_path = Some c →
  http_get E url ∅ = Some resp →
  (400 <=? status_code resp) && (status_code resp <? 600) = false →
  io_fault E CopyBackup = false →
  (io_fault E OpenTemp = true ∨ content_error resp = true
   ∨ io_fault E MoveTemp = true) →
  io_fault E RestoreBackup = false →
  ∃ w', download_file E url dest_path w = (Ok false, w')
        ∧ fs w' !! dest_path = Some c
        ∧ fs w' !! (dest_path +:+ ".backup") = None.
Proof.
  intros Hdest Hget Hstatus Hcopy Hfail Hrestore.
  unfold download_file.
  set (backup := dest_path +:+ ".backup").
  set (temp := dest_path +:+ ".tmp").
  match goal with
  | |- context [try_except ?m _ _] =>
      assert (Hbody : ∃ e wf, m w = (Raise e, wf) ∧ fs wf !! backup = Some c)
  end.
  { set (w0 := log (EvGet url ∅ true) w).
    set (w1 := set_fs (<[backup := c]> (fs w0)) w0).
    assert (Hb1 : fs w1 !! backup = Some c) by apply lookup_insert_eq.
    erewrite bind_Ok; [|unfold session_get; rewrite Hget; reflexivity].
    erewrite bind_Ok; [|unfold raise_for_status; rewrite Hstatus; reflexivity].
    erewrite bind_Ok; [|reflexivity].
    rewrite bool_decide_eq_true_2 by (simpl; eauto).
    erewrite bind_Ok; [|apply (shutil_copy2_ok _ _ _ c); [assumption | exact Hdest]].
    fold w0 w1.
    destruct (io_fault E OpenTemp) eqn:Hopen.
    { erewrite bind_Raise; [|now apply open_wb_fault]. eauto. }
    erewrite bind_Ok; [|now apply open_wb_ok].
    set (w2 := set_fs (<[temp := ""]> (fs w1)) w1).
    destruct (write_chunks_run temp (content_chunks resp) (content_error resp) w2)
      as (w3 & Hw & Hframe).
    assert (Hb3 : fs w3 !! backup = Some c).
    { rewrite Hframe by apply backup_ne_temp. subst w2. simpl.
      rewrite lookup_insert_ne by (apply not_eq_sym, backup_ne_temp).
      apply lookup_insert_eq. }
    destruct (content_error resp) eqn:Hbroken.
    { erewrite bind_Raise; [|exact Hw]. eauto. }
    erewrite bind_Ok; [|exact Hw].
    destruct Hfail as [Hf | [Hf | Hf]]; try discriminate.
    destruct (shutil_move_fault MoveTemp temp dest_path w3 Hf) as (w4 & Hmove & Hkeep).
    erewrite bind_Raise; [|exact Hmove].
    exists OSError, w4. split; [reflexivity|].
    rewrite Hkeep by apply backup_ne_dest. exact Hb3. }
  destruct Hbody as (e & wf & Hbody & Hbackup).
  erewrite try_except_Raise; [|exact Hbody|reflexivity].
  rewrite bind_print.
  erewrite bind_Ok; [|reflexivity].
  rewrite bool_decide_eq_true_2 by (simpl; eauto).
  erewrite bind_Ok; [|apply (shutil_move_ok _ _ _ c); [assumption | exact Hbackup]].
  eexists. split; [reflexivity|]. simpl. split.
  - apply lookup_insert_eq.
  - rewrite lookup_insert_ne by (apply not_eq_sym, backup_ne_dest).
    apply lookup_delete_eq.
Qed.

(** ** Runs of the orchestrator *)


Lemma downloads_snoc_stream (t t' : list event) u h :
  requests t' = requests t ++ [(u, h, true)] →
  downloads t' = downloads t ++ [(u, h, true)].
Proof. unfold downloads. intros ->. now rewrite filter_app. Qed.

Lemma downloads_snoc_plain (t t' : list event) u h :
  requests t' = requests t ++ [(u, h, false)] →
  downloads t' = downloads t.
Proof.
  unfold downloads. intros ->. rewrite filter_app.
  rewrite filter_cons_False by (simpl; discriminate).
  rewrite filter_nil. apply app_nil_r.
Qed.

Lemma downloads_same (t t' : list event) :
  requests t' = requests t → downloads t' = downloads t.
Proof. unfold downloads. now intros ->. Qed.

(** The throttle test at the head of [update_lib]. *)
Lemma throttle_run (force : bool) (w : world) :
  ∃ w1, (if force then ret false
         else due <- should_check_update fromisoformat E TLS_CLIENT_PATH ;; ret (negb due)) w
        = (Ok (if force then false
               else negb (check_due fromisoformat
                            (stored_record E TLS_CLIENT_PATH (fs w))
                            (utcnow E (clock w)))), w1)
        ∧ fs w1 = fs w
        ∧ (clock w <= clock w1)%nat
        ∧ requests (trace w1) = requests (trace w).
Proof.
  destruct force.
  - exists w. auto.
  - destruct (should_check_update_run w) as (w1 & Hrun & Hfs & Hck & Hreq & _).
    exists w1. erewrite bind_Ok; [|exact Hrun]. auto.
Qed.

(** When its directory is there and the fetcher has nothing to return, the
    orchestrator returns [True] and has neither written a file nor started
    a download. *)
Lemma update_lib_nothing_fetched (force : bool) (w : world) :
  io_fault E MakeDirs = false →
  fetched (http_get E GITHUB_API_URL
             (request_headers E (stored_record E TLS_CLIENT_PATH (fs w)))) = None →
  ∃ w', update_lib fromisoformat E TLS_CLIENT_PATH CURRENT_DEPENDENCY_FILENAME force w
        = (Ok true, w')
        ∧ fs w' = fs w
        ∧ downloads (trace w') = downloads (trace w).
Proof.
  intros Hdirs Hnone. unfold update_lib.
  destruct (throttle_run force w) as (w1 & Hthr & Hfs1 & _ & Hreq1).
  erewrite bind_Ok; [|exact Hthr].
  match goal with |- context [if ?b then ret true else _] => destruct b end.
  { exists w1. split; [reflexivity|]. split; [assumption|].
    now apply downloads_same. }
  erewrite bind_Ok; [|now apply os_makedirs_ok].
  destruct (get_latest_release_run w1) as (w2 & Hget & Hfs2 & _ & Hreq2).
  cbv zeta in Hget, Hreq2. rewrite Hfs1 in Hget, Hreq2. rewrite Hnone in Hget.
  erewrite bind_Ok; [|exact Hget].
  assert (Hd : downloads (trace w2) = downloads (trace w)).
  { rewrite (downloads_snoc_plain _ _ _ _ Hreq2). now apply downloads_same. }
  destruct force.
  - rewrite bind_print. eexists. split; [reflexivity|]. simpl.
    split; [congruence|].
    rewrite <- Hd. apply downloads_same, requests_log_print.
  - exists w2. split; [reflexivity|]. split; [congruence | assumption].
Qed.

(** What the code does with a 304 Not Modified answer: the fetcher returns
    [None], and the orchestrator (its directory being there) returns [True]
    without writing anything.  The stored record keeps its version and its
    last-modified line, and its last-check line as well: the time of this
    check is not recorded.  No download is started. *)
Theorem update_lib_not_modified (force : bool) (w : world) (resp : response) :
  http_get E GITHUB_API_URL
    (request_headers E (stored_record E TLS_CLIENT_PATH (fs w))) = Some resp →
  status_code resp = 304 →
  io_fault E MakeDirs = false →
  fst (get_latest_release E TLS_CLIENT_PATH w) = Ok None
  ∧ ∃ w', update_lib fromisoformat E TLS_CLIENT_PATH CURRENT_DEPENDENCY_FILENAME force w
          = (Ok true, w')
          ∧ fs w' = fs w
          ∧ fst (read_local_version E TLS_CLIENT_PATH w')
            = fst (read_local_version E TLS_CLIENT_PATH w)
          ∧ downloads (trace w') = downloads (trace w).
Proof.
  intros Hget Hstatus Hdirs.
  assert (Hnone : fetched (http_get E GITHUB_API_URL
                    (request_headers E (stored_record E TLS_CLIENT_PATH (fs w)))) = None).
  { rewrite Hget. unfold fetched. now rewrite Hstatus. }
  split.
  - destruct (get_latest_release_run w) as (w1 & Hrun & _).
    cbv zeta in Hrun. now rewrite Hrun, Hnone.
  - destruct (update_lib_nothing_fetched force w Hdirs Hnone) as (w' & Hrun & Hfs & Hd).
    exists w'. rewrite !read_local_version_fst, Hfs. auto.
Qed.

Lemma record_of_lines_nonempty (lines : list string) : record_of_lines lines ≠ ∅.
Proof. unfold record_of_lines. apply insert_non_empty. Qed.

Lemma stored_record_of_text (f : gmap string string) (text : string) :
  f !! LOCAL_VERSION_FILE TLS_CLIENT_PATH = Some text → io_fault E ReadVersion = false →
  (3 <= length (splitlines (translate_newlines text)))%nat →
  stored_record E TLS_CLIENT_PATH f = Some (record_of_lines (splitlines (translate_newlines text))).
Proof.
  intros Hf Hio Hlen. unfold stored_record. rewrite Hf, Hio. cbv zeta.
  apply Nat.leb_le in Hlen. now rewrite Hlen.
Qed.

(** C10: a readable record file of at least three lines always yields a
    record with an ['Etag'] entry, whose value is [None] when the file has
    no fourth line; [get_latest_release] therefore always puts an
    ['If-None-Match'] entry into the headers of its request, with that value,
    hence with [None] when no token was stored. *)
Theorem read_local_version_defines_Etag (w : world) (text : string) :
  fs w !! LOCAL_VERSION_FILE TLS_CLIENT_PATH = Some text →
  io_fault E ReadVersion = false →
  (3 <= length (splitlines (translate_newlines text)))%nat →
  ∃ d, fst (read_local_version E TLS_CLIENT_PATH w) = Ok (Some d)
       ∧ is_Some (d !! "Etag")
       ∧ ((length (splitlines (translate_newlines text)) < 4)%nat →
          d !! "Etag" = Some None)
       ∧ ∃ headers,
           requests (trace (snd (get_latest_release E TLS_CLIENT_PATH w)))
           = requests (trace w) ++ [(GITHUB_API_URL, headers, false)]
           ∧ headers !! "If-None-Match" = d !! "Etag".
Proof.
  intros Hf Hio Hlen.
  set (lines := splitlines (translate_newlines text)) in *.
  exists (record_of_lines lines).
  pose proof (stored_record_of_text _ _ Hf Hio Hlen) as Hrec. fold lines in Hrec.
  rewrite read_local_version_fst, Hrec, record_of_lines_Etag.
  split; [reflexivity|]. split; [eauto|]. split.
  - intros Hlt. apply Nat.leb_gt in Hlt. now rewrite Hlt.
  - destruct (get_latest_release_run w) as (w' & Hrun & _ & _ & Hreq).
    cbv zeta in Hrun, Hreq. rewrite Hrun. simpl.
    eexists. split; [exact Hreq|].
    rewrite Hrec. unfold request_headers.
    rewrite record_of_lines_Etag. unfold dict_truthy.
    rewrite bool_decide_eq_false_2 by apply record_of_lines_nonempty.
    simpl. apply lookup_insert_eq.
Qed.

End UpdaterFacts.

(** ** Lines *)

Lemma is_linebreak_CR (c : ascii) : Ascii.eqb c CR = true → is_linebreak c = true.
Proof. intros H. apply Ascii.eqb_eq in H. now subst c. Qed.

Lemma not_linebreak_not_CR (c : ascii) : is_linebreak c = false → Ascii.eqb c CR = false.
Proof.
  intros H. destruct (Ascii.eqb c CR) eqn:Hc; [|reflexivity].
  apply is_linebreak_CR in Hc. congruence.
Qed.

Lemma single_line_cons (c : ascii) (s : string) :
  single_line (String c s) = true ↔ is_linebreak c = false ∧ single_line s = true.
Proof.
  simpl. rewrite andb_true_iff, negb_true_iff. reflexivity.
Qed.

Lemma single_line_app (a b : string) :
  single_line (a +:+ b) = single_line a && single_line b.
Proof.
  induction a as [|c a IH]; app_simpl; [reflexivity|].
  simpl. rewrite IH. now rewrite andb_assoc.
Qed.

(** Reading leaves a line without boundary as it is. *)
Lemma translate_newlines_line (s r : string) :
  single_line s = true →
  translate_newlines (s +:+ r) = s +:+ translate_newlines r.
Proof.
  induction s as [|c s IH]; app_simpl; [reflexivity|].
  intros [Hc Hs]%single_line_cons. apply not_linebreak_not_CR in Hc.
  simpl. rewrite Hc. now rewrite IH.
Qed.

Lemma translate_newlines_LF (r : string) :
  translate_newlines (String LF r) = String LF (translate_newlines r).
Proof. reflexivity. Qed.

Lemma translate_newlines_single (s : string) :
  single_line s = true → translate_newlines s = s.
Proof.
  intros Hs. rewrite <- (append_empty_r s) at 1.
  rewrite translate_newlines_line by assumption. simpl. apply append_empty_r.
Qed.

(** A line followed by a line feed is the first line. *)
Lemma splitlines_line (s r : string) :
  single_line s = true →
  splitlines (s +:+ String LF r) = s :: splitlines r.
Proof.
  induction s as [|c s IH]; app_simpl.
  - intros _. destruct r; reflexivity.
  - intros [Hc Hs]%single_line_cons.
    change (splitlines (String c (s +:+ String LF r)))
      with (if is_linebreak c
            then EmptyString ::
                   match s +:+ String LF r with
                   | String c' s'' =>
                       if Ascii.eqb c CR && Ascii.eqb c' LF then splitlines s''
                       else splitlines (s +:+ String LF r)
                   | EmptyString => []
                   end
            else match splitlines (s +:+ String LF r) with
                 | [] => [String c EmptyString]
                 | l :: ls => String c l :: ls
                 end).
    rewrite Hc, IH by assumption. reflexivity.
Qed.

Lemma splitlines_single (s : string) :
  single_line s = true → s ≠ "" → splitlines s = [s].
Proof.
  induction s as [|c s IH]; [congruence|].
  intros [Hc Hs]%single_line_cons _.
  change (splitlines (String c s))
    with (if is_linebreak c
          then EmptyString ::
                 match s with
                 | String c' s'' =>
                     if Ascii.eqb c CR && Ascii.eqb c' LF then splitlines s''
                     else splitlines s
                 | EmptyString => []
                 end
          else match splitlines s with
               | [] => [String c EmptyString]
               | l :: ls => String c l :: ls
               end).
  rewrite Hc. destruct s as [|c' s]; [reflexivity|].
  rewrite IH by (assumption || discriminate). reflexivity.
Qed.

Lemma digit_char_not_linebreak (n : Z) : is_linebreak (digit_char n) = false.
Proof.
  unfold digit_char.
  assert (H : (Z.to_nat (n mod 10) < 10)%nat) by (pose proof (Z.mod_pos_bound n 10); lia).
  remember (Z.to_nat (n mod 10)) as k eqn:Hk. clear Hk.
  do 10 (destruct k as [|k]; [reflexivity|]). lia.
Qed.

Lemma single_line_digit (n : Z) (s : string) :
  single_line s = true → single_line (String (digit_char n) s) = true.
Proof.
  intros Hs. apply single_line_cons. split; [apply digit_char_not_linebreak | exact Hs].
Qed.

Lemma single_line_fmt2 (n : Z) : single_line (fmt2 n) = true.
Proof. unfold fmt2. do 2 apply single_line_digit. reflexivity. Qed.

Lemma single_line_fmt4 (n : Z) : single_line (fmt4 n) = true.
Proof. unfold fmt4. do 2 apply single_line_digit. apply single_line_fmt2. Qed.

Lemma single_line_fmt6 (n : Z) : single_line (fmt6 n) = true.
Proof. unfold fmt6. do 2 apply single_line_digit. apply single_line_fmt4. Qed.

(** A timestamp printed by [isoformat] is one non-empty line. *)
Lemma single_line_isoformat (d : datetime) : single_line (isoformat d) = true.
Proof.
  unfold isoformat.
  rewrite !single_line_app, !single_line_fmt4, !single_line_fmt2.
  destruct (microsecond d =? 0), (tzinfo d) as [off|];
    try destruct (off <? 0);
    rewrite ?single_line_app, ?single_line_fmt6, ?single_line_fmt2; reflexivity.
Qed.

Lemma isoformat_nonempty (d : datetime) : isoformat d ≠ "".
Proof. unfold isoformat, fmt4. app_simpl. discriminate. Qed.

(** The record text written for single-line fields reads back as these
    fields, one per line. *)
Lemma record_text_lines (version last_modified now : string) (etag : option string) :
  single_line version = true → single_line last_modified = true →
  single_line now = true → now ≠ "" →
  (etag = None ∨ ∃ t, etag = Some t ∧ t ≠ "" ∧ single_line t = true) →
  splitlines (translate_newlines (record_text version last_modified now etag))
  = [version; last_modified; now] ++ (if truthy etag then [default "" etag] else []).
Proof.
  intros Hv Hm Hn Hne Hetag. unfold record_text. app_simpl.
  rewrite (translate_newlines_line version), translate_newlines_LF by assumption.
  rewrite (translate_newlines_line last_modified), translate_newlines_LF by assumption.
  rewrite (translate_newlines_line now) by assumption.
  rewrite (splitlines_line version), (splitlines_line last_modified) by assumption.
  destruct Hetag as [-> | (t & -> & Ht & Hts)]; simpl truthy.
  - simpl translate_newlines. rewrite append_empty_r.
    now rewrite splitlines_single.
  - apply String.eqb_neq in Ht. rewrite Ht. simpl negb. cbv iota.
    change (default "" (Some t)) with t. app_simpl.
    rewrite translate_newlines_LF, (translate_newlines_single t) by assumption.
    rewrite (splitlines_line now) by assumption.
    apply String.eqb_neq in Ht. now rewrite splitlines_single.
Qed.

Section RecordFacts.

Variable fromisoformat : string -> option datetime.
Variable E : env.
Variable TLS_CLIENT_PATH : string.
Variable CURRENT_DEPENDENCY_FILENAME : string.


(** The record found after [save_local_version] has written single-line
    fields. *)
Lemma stored_record_after_save (f : gmap string string)
    (version last_modified now : string) (etag : option string) :
  io_fault E ReadVersion = false →
  single_line version = true → single_line last_modified = true →
  single_line now = true → now ≠ "" →
  (etag = None ∨ ∃ t, etag = Some t ∧ t ≠ "" ∧ single_line t = true) →
  stored_record E TLS_CLIENT_PATH
    (<[LOCAL_VERSION_FILE TLS_CLIENT_PATH := record_text version last_modified now etag]> f)
  = Some (<["version" := Some version]>
         (<["last_modified" := Some last_modified]>
         (<["last_check" := Some now]>
         (<["Etag" := etag]> ∅)))).
Proof.
  intros Hio Hv Hm Hn Hne Hetag. unfold stored_record.
  rewrite lookup_insert_eq, Hio. cbv zeta.
  rewrite record_text_lines by assumption.
  destruct Hetag as [-> | (t & -> & Ht & Hts)]; simpl truthy.
  - reflexivity.
  - apply String.eqb_neq in Ht. rewrite Ht. reflexivity.
Qed.

Abbreviation matches_target :=
  (fun a : asset => startswith (name a) (rsplit_dot_head CURRENT_DEPENDENCY_FILENAME)).

(** The asset loop downloads the first asset in listed order whose name
    starts with the stem of the target file name, and nothing else; without
    such an asset it prints its two messages and returns [False]. *)
Lemma update_lib_assets_run (latest_version last_modified : string)
    (etag : option string) (all_assets remaining : list asset) (w : world) :
  let run := update_lib_assets E TLS_CLIENT_PATH CURRENT_DEPENDENCY_FILENAME
               latest_version last_modified
               etag all_assets remaining w in
  match List.find matches_target remaining with
  | Some a =>
      requests (trace run.2)
      = requests (trace w) ++ [(browser_download_url a, ∅, true)]
  | None =>
      run = (Ok false,
             log (EvPrint (MsgAvailableAssets (map name all_assets)))
               (log (EvPrint (MsgNoAssetFor CURRENT_DEPENDENCY_FILENAME)) w))
  end.
Proof.
  induction remaining as [|a rest IH]; [reflexivity|].
  cbn [List.find update_lib_assets]. cbv zeta.
  destruct (startswith (name a) (rsplit_dot_head CURRENT_DEPENDENCY_FILENAME)); [|exact IH].
  rewrite bind_print.
  set (dest := os_path_join (DEPENDENCIES_DIR TLS_CLIENT_PATH) CURRENT_DEPENDENCY_FILENAME).
  set (w1 := log (EvPrint (MsgDownloading CURRENT_DEPENDENCY_FILENAME (browser_download_url a))) w).
  destruct (download_file_requests E (browser_download_url a) dest w1) as [Hreq _].
  subst w1. simpl trace in Hreq at 2. rewrite requests_log_print in Hreq.
  unfold bind at 1.
  destruct (download_file E (browser_download_url a) dest _) as [[[|]|e] w2];
    simpl in Hreq; [| |exact Hreq].
  - rewrite bind_print.
    pose proof (save_local_version_requests E TLS_CLIENT_PATH latest_version
                  last_modified etag
                  (log (EvPrint (MsgDownloaded CURRENT_DEPENDENCY_FILENAME)) w2))
      as Hreq3.
    simpl in Hreq3. rewrite requests_log_print in Hreq3.
    unfold bind at 1.
    destruct (save_local_version E TLS_CLIENT_PATH latest_version last_modified etag _)
      as [[[]|e] w3]; simpl in Hreq3.
    + rewrite bind_print. simpl. now rewrite requests_log_print, Hreq3.
    + simpl. now rewrite Hreq3.
  - rewrite bind_print. simpl. now rewrite requests_log_print.
Qed.

End RecordFacts.

(** ** The reference parser reads what [isoformat] prints *)

Lemma digit_val_digit_char (n : Z) : digit_val (digit_char n) = Some (n mod 10).
Proof.
  unfold digit_val, digit_char.
  pose proof (Z.mod_pos_bound n 10 ltac:(lia)) as Hb.
  rewrite nat_ascii_embedding by lia.
  replace ((48 <=? 48 + Z.to_nat (n mod 10))%nat && (48 + Z.to_nat (n mod 10) <=? 57)%nat)
    with true.
  - f_equal. lia.
  - symmetry. apply andb_true_iff. split; apply Nat.leb_le; lia.
Qed.

Lemma take_digits_digit (n : nat) (acc k : Z) (s : string) :
  take_digits (S n) acc (String (digit_char k) s)
  = take_digits n (10 * acc + k mod 10) s.
Proof.
  change (take_digits (S n) acc (String (digit_char k) s))
    with (d ← digit_val (digit_char k); take_digits n (10 * acc + d) s).
  now rewrite digit_val_digit_char.
Qed.

Lemma take_digits_fmt2 (acc n : Z) (r : string) :
  take_digits 2 acc (fmt2 n +:+ r)
  = Some (10 * (10 * acc + (n / 10) mod 10) + n mod 10, r).
Proof. unfold fmt2. app_simpl. now rewrite !take_digits_digit. Qed.

Lemma take_digits_fmt4 (acc n : Z) (r : string) :
  take_digits 4 acc (fmt4 n +:+ r)
  = Some (10 * (10 * (10 * (10 * acc + (n / 1000) mod 10) + (n / 100) mod 10)
                + (n / 10) mod 10) + n mod 10, r).
Proof.
  unfold fmt4. app_simpl. rewrite !take_digits_digit. apply take_digits_fmt2.
Qed.

Lemma take_digits_fmt6 (acc n : Z) (r : string) :
  take_digits 6 acc (fmt6 n +:+ r)
  = Some (10 * (10 * (10 * (10 * (10 * (10 * acc + (n / 100000) mod 10)
                                  + (n / 10000) mod 10)
                            + (n / 1000) mod 10) + (n / 100) mod 10)
                + (n / 10) mod 10) + n mod 10, r).
Proof.
  unfold fmt6. app_simpl. rewrite !take_digits_digit. apply take_digits_fmt4.
Qed.

Lemma digits2_value (n : Z) :
  0 <= n < 100 → 10 * (10 * 0 + (n / 10) mod 10) + n mod 10 = n.
Proof. intros H. Z.to_euclidean_division_equations. lia. Qed.

Lemma digits4_value (n : Z) :
  0 <= n < 10000 →
  10 * (10 * (10 * (10 * 0 + (n / 1000) mod 10) + (n / 100) mod 10)
        + (n / 10) mod 10) + n mod 10 = n.
Proof. intros H. Z.to_euclidean_division_equations. lia. Qed.

Lemma digits6_value (n : Z) :
  0 <= n < 1000000 →
  10 * (10 * (10 * (10 * (10 * (10 * 0 + (n / 100000) mod 10)
                          + (n / 10000) mod 10)
                    + (n / 1000) mod 10) + (n / 100) mod 10)
        + (n / 10) mod 10) + n mod 10 = n.
Proof. intros H. Z.to_euclidean_division_equations. lia. Qed.

Lemma days_in_month_le (y m : Z) : _days_in_month y m <= 31.
Proof.
  unfold _days_in_month. destruct ((m =? 2) && _is_leap y); [lia|].
  remember (Z.to_nat m) as k eqn:Hk. clear Hk.
  do 13 (destruct k as [|k]; [simpl; lia|]). destruct k; simpl; lia.
Qed.

Lemma expect_head (c : ascii) (r : string) : expect c (String c r) = Some r.
Proof. unfold expect. now rewrite Ascii.eqb_refl. Qed.

(** Parsing the text of a clock reading gives the reading back. *)
Lemma fromisoformat_ref_isoformat (d : datetime) :
  is_utc_now d = true → fromisoformat_ref (isoformat d) = Some d.
Proof.
  destruct d as [y mo da hh mi ss us tz]. unfold is_utc_now. simpl tzinfo.
  intros [Hvalid Htz]%andb_true_iff. apply bool_decide_eq_true in Htz. subst tz.
  pose proof Hvalid as Hv. unfold datetime_valid in Hv. simpl in Hv.
  repeat (apply andb_true_iff in Hv; destruct Hv as [Hv ?]).
  repeat match goal with
         | H : (_ <=? _) = true |- _ => apply Z.leb_le in H
         end.
  pose proof (days_in_month_le y mo).
  unfold isoformat, fromisoformat_ref.
  cbn [year month day hour minute second microsecond tzinfo].
  replace (0 <? 0) with false by reflexivity.
  change (Z.abs 0 / 60) with 0. change (Z.abs 0 mod 60) with 0.
  rewrite take_digits_fmt4, digits4_value by lia. cbn [mbind option_bind]. app_simpl.
  rewrite expect_head. cbn [mbind option_bind].
  rewrite take_digits_fmt2, digits2_value by lia. cbn [mbind option_bind]. app_simpl.
  rewrite expect_head. cbn [mbind option_bind].
  rewrite take_digits_fmt2, digits2_value by lia. cbn [mbind option_bind]. app_simpl.
  cbn [skip_char mbind option_bind].
  rewrite take_digits_fmt2, digits2_value by lia. cbn [mbind option_bind]. app_simpl.
  rewrite expect_head. cbn [mbind option_bind].
  rewrite take_digits_fmt2, digits2_value by lia. cbn [mbind option_bind]. app_simpl.
  rewrite expect_head. cbn [mbind option_bind].
  rewrite take_digits_fmt2, digits2_value by lia. cbn [mbind option_bind].
  assert (Htail : parse_offset ("+" +:+ fmt2 0 +:+ ":" +:+ fmt2 0) = Some (Some 0))
    by reflexivity.
  destruct (us =? 0) eqn:Hus.
  - apply Z.eqb_eq in Hus. subst us. app_simpl.
    change (parse_fraction (String "+" (fmt2 0 +:+ String ":" (fmt2 0))))
      with (Some (0, "+" +:+ fmt2 0 +:+ ":" +:+ fmt2 0)).
    cbn [mbind option_bind]. rewrite Htail. cbn [mbind option_bind].
    now rewrite Hvalid.
  - app_simpl.
    change (parse_fraction (String "." (fmt6 us +:+ String "+" (fmt2 0 +:+ String ":" (fmt2 0)))))
      with (take_digits 6 0 (fmt6 us +:+ "+" +:+ fmt2 0 +:+ ":" +:+ fmt2 0)).
    rewrite take_digits_fmt6, digits6_value by lia.
    cbn [mbind option_bind]. rewrite Htail. cbn [mbind option_bind].
    now rewrite Hvalid.
Qed.

(** ** Record round trip and the two outcomes of a successful fetch *)

Section OrchestratorFacts.

Variable fromisoformat : string -> option datetime.
Variable E : env.
Variable TLS_CLIENT_PATH : string.
Variable CURRENT_DEPENDENCY_FILENAME : string.


(** C5, as the code has it: for single-line [version] and [last_modified]
    and a cache token that is either absent or a non-empty single line,
    when the record file can be written (its directory is there and it can
    be opened) and read and the clock shows a valid UTC time,
    [save_local_version] followed by [read_local_version] yields a record
    with exactly these three values, whose [last_check] is the text of the
    clock reading taken by the write and parses back to it. *)
Theorem save_then_read (version last_modified : string) (etag : option string)
    (w : world) :
  io_fault E MakeDirs = false →
  io_fault E WriteVersion = false →
  io_fault E ReadVersion = false →
  is_utc_now (utcnow E (clock w)) = true →
  single_line version = true →
  single_line last_modified = true →
  (etag = None ∨ ∃ t, etag = Some t ∧ t ≠ "" ∧ single_line t = true) →
  let now := utcnow E (clock w) in
  ∃ w' d,
    save_local_version E TLS_CLIENT_PATH version last_modified etag w = (Ok tt, w')
    ∧ fst (read_local_version E TLS_CLIENT_PATH w') = Ok (Some d)
    ∧ d !! "version" = Some (Some version)
    ∧ d !! "last_modified" = Some (Some last_modified)
    ∧ d !! "Etag" = Some etag
    ∧ d !! "last_check" = Some (Some (isoformat now))
    ∧ fromisoformat_ref (isoformat now) = Some now.
Proof.
  intros Hdirs Hwrite Hread Hnow Hv Hm Hetag now.
  destruct (save_local_version_run E TLS_CLIENT_PATH version last_modified etag w Hdirs)
    as (w' & Hsave & _ & _ & Hfs).
  rewrite Hwrite in Hfs. fold now in Hfs.
  exists w'. eexists. split; [exact Hsave|].
  rewrite read_local_version_fst, Hfs.
  rewrite stored_record_after_save;
    auto using single_line_isoformat, isoformat_nonempty.
  split; [reflexivity|].
  split; [apply lookup_insert_eq|].
  split; [rewrite lookup_insert_ne by discriminate; apply lookup_insert_eq|].
  split; [rewrite !lookup_insert_ne by discriminate; apply lookup_insert_eq|].
  split; [rewrite !lookup_insert_ne by discriminate; apply lookup_insert_eq|].
  now apply fromisoformat_ref_isoformat.
Qed.

(** After a fetch that returned a release, [update_lib] has read the clock
    once more and re-read the record, and stands before its version test. *)
Lemma update_lib_fetched (force : bool) (w : world) (rel : release)
    (etag : option string) :
  io_fault E MakeDirs = false →
  (if force then true
   else check_due fromisoformat (stored_record E TLS_CLIENT_PATH (fs w))
          (utcnow E (clock w)))
  = true →
  fetched (http_get E GITHUB_API_URL (request_headers E (stored_record E TLS_CLIENT_PATH (fs w))))
  = Some (rel, etag) →
  ∃ n w3,
    (clock w <= n)%nat ∧ clock w3 = S n ∧ fs w3 = fs w
    ∧ downloads (trace w3) = downloads (trace w)
    ∧ let last_modified := default (isoformat (utcnow E n)) (published_at rel) in
      update_lib fromisoformat E TLS_CLIENT_PATH CURRENT_DEPENDENCY_FILENAME force w
      = (if negb force && dict_truthy (stored_record E TLS_CLIENT_PATH (fs w))
            && bool_decide (Some (tag_name rel)
                            = default None (d ← stored_record E TLS_CLIENT_PATH (fs w);
                                            d !! "version"))
         then save_local_version E TLS_CLIENT_PATH (tag_name rel) last_modified etag ;;
              ret true
         else print (MsgNewVersion (tag_name rel)) ;;
              update_lib_assets E TLS_CLIENT_PATH CURRENT_DEPENDENCY_FILENAME
                (tag_name rel) last_modified etag (assets rel) (assets rel)) w3.
Proof.
  intros Hdirs Hdue Hfetched. unfold update_lib.
  destruct (throttle_run fromisoformat E TLS_CLIENT_PATH force w)
    as (w1 & Hthr & Hfs1 & Hck1 & Hreq1).
  erewrite bind_Ok; [|exact Hthr].
  replace (if force then false
           else negb (check_due fromisoformat (stored_record E TLS_CLIENT_PATH (fs w))
                        (utcnow E (clock w))))
    with false by (destruct force; [reflexivity | now rewrite Hdue]).
  erewrite bind_Ok; [|now apply os_makedirs_ok].
  destruct (get_latest_release_run E TLS_CLIENT_PATH w1) as (w2 & Hget & Hfs2 & Hck2 & Hreq2).
  cbv zeta in Hget, Hreq2. rewrite Hfs1 in Hget, Hreq2. rewrite Hfetched in Hget.
  erewrite bind_Ok; [|exact Hget]. cbv beta iota zeta.
  erewrite bind_Ok; [|reflexivity].
  destruct (read_local_version_run E TLS_CLIENT_PATH (tick w2))
    as (w3 & Hread & Hfs3 & Hck3 & Hreq3 & _).
  simpl in Hfs3, Hck3, Hreq3. rewrite Hfs2, Hfs1 in Hfs3.
  change (fs (tick w2)) with (fs w2) in Hread. rewrite Hfs2, Hfs1 in Hread.
  erewrite bind_Ok; [|exact Hread].
  exists (clock w2), w3. split; [lia|]. split; [assumption|]. split; [assumption|].
  split; [|reflexivity].
  rewrite (downloads_same _ _ Hreq3), (downloads_snoc_plain _ _ _ _ Hreq2).
  now apply downloads_same.
Qed.

Lemma fetched_release (resp : response) :
  status_code resp ≠ 304 →
  (400 <=? status_code resp) && (status_code resp <? 600) = false →
  assets (json resp) ≠ [] →
  fetched (Some resp) = Some (json resp, header_Etag resp).
Proof.
  intros H304 Herr Hassets. unfold fetched.
  apply Z.eqb_neq in H304. rewrite H304, Herr.
  destruct (assets (json resp)); [congruence | reflexivity].
Qed.

Lemma should_check_update_fst (w : world) :
  fst (should_check_update fromisoformat E TLS_CLIENT_PATH w)
  = Ok (check_due fromisoformat (stored_record E TLS_CLIENT_PATH (fs w)) (utcnow E (clock w))).
Proof.
  destruct (should_check_update_run fromisoformat E TLS_CLIENT_PATH w) as (w' & -> & _).
  reflexivity.
Qed.

(** Every line [splitlines] returns is free of line boundaries. *)
Lemma splitlines_single_lines (s : string) :
  Forall (fun l => single_line l = true) (splitlines s).
Proof.
  remember (String.length s) as n eqn:Hn.
  assert (Hlen : (String.length s <= n)%nat) by lia. clear Hn.
  revert s Hlen. induction n as [|n IH]; intros [|c s] Hlen;
    try (simpl in Hlen; lia); try constructor.
  simpl in Hlen.
  change (splitlines (String c s))
    with (if is_linebreak c
          then EmptyString ::
                 match s with
                 | String c' s'' =>
                     if Ascii.eqb c CR && Ascii.eqb c' LF then splitlines s''
                     else splitlines s
                 | EmptyString => []
                 end
          else match splitlines s with
               | [] => [String c EmptyString]
               | l :: ls => String c l :: ls
               end).
  destruct (is_linebreak c) eqn:Hc.
  - constructor; [reflexivity|].
    destruct s as [|c' s'']; [constructor|].
    destruct (Ascii.eqb c CR && Ascii.eqb c' LF); apply IH; simpl in *; lia.
  - pose proof (IH s ltac:(lia)) as Hs.
    destruct (splitlines s) as [|l ls].
    + constructor; [|constructor]. apply single_line_cons. auto.
    + inversion Hs; subst. constructor; [|assumption]. apply single_line_cons. auto.
Qed.

Lemma stored_version_single_line (f : gmap string string) d v :
  stored_record E TLS_CLIENT_PATH f = Some d → d !! "version" = Some (Some v) →
  single_line v = true.
Proof.
  intros Hrec Hv.
  destruct (stored_record_lines _ _ _ _ Hrec) as (c & _ & _ & Hlen & ->).
  rewrite record_of_lines_version in Hv. injection Hv as <-.
  pose proof (splitlines_single_lines (translate_newlines c)) as Hall.
  destruct (splitlines (translate_newlines c)) as [|l ls]; [simpl in Hlen; lia|].
  now inversion Hall.
Qed.

(** C8: without [force], when a check is due, the feed returns a release and
    its tag equals the stored version, [update_lib] returns [True], starts no
    download and overwrites the record file (when its directory is there
    and it can be opened) with the same version, the release's publication
    time, the current clock reading as last check and the cache token of the
    response; every other file is untouched.  When the publication time and
    the token are single lines, the record read back has exactly these
    fields. *)
Theorem update_lib_same_version (w : world) (resp : response)
    (d : gmap string (option string)) :
  fst (should_check_update fromisoformat E TLS_CLIENT_PATH w) = Ok true →
  http_get E GITHUB_API_URL
    (request_headers E (stored_record E TLS_CLIENT_PATH (fs w))) = Some resp →
  status_code resp ≠ 304 →
  (400 <=? status_code resp) && (status_code resp <? 600) = false →
  assets (json resp) ≠ [] →
  fst (read_local_version E TLS_CLIENT_PATH w) = Ok (Some d) →
  d !! "version" = Some (Some (tag_name (json resp))) →
  io_fault E MakeDirs = false →
  io_fault E WriteVersion = false →
  ∃ n w',
    let version := tag_name (json resp) in
    let last_modified := default (isoformat (utcnow E n)) (published_at (json resp)) in
    let last_check := isoformat (utcnow E (S n)) in
    let etag := header_Etag resp in
    update_lib fromisoformat E TLS_CLIENT_PATH CURRENT_DEPENDENCY_FILENAME false w = (Ok true, w')
    ∧ downloads (trace w') = downloads (trace w)
    ∧ (clock w <= n)%nat
    ∧ fs w' = <[LOCAL_VERSION_FILE TLS_CLIENT_PATH :=
                  record_text version last_modified last_check etag]> (fs w)
    ∧ (single_line last_modified = true →
       (etag = None ∨ ∃ t, etag = Some t ∧ t ≠ "" ∧ single_line t = true) →
       ∃ d', fst (read_local_version E TLS_CLIENT_PATH w') = Ok (Some d')
             ∧ d' !! "version" = Some (Some version)
             ∧ d' !! "last_modified" = Some (Some last_modified)
             ∧ d' !! "last_check" = Some (Some last_check)
             ∧ d' !! "Etag" = Some etag).
Proof.
  intros Hdue Hget H304 Herr Hassets Hread Hversion Hdirs Hwrite.
  rewrite should_check_update_fst in Hdue. injection Hdue as Hdue.
  rewrite read_local_version_fst in Hread. injection Hread as Hrec.
  destruct (update_lib_fetched false w (json resp) (header_Etag resp))
    as (n & w3 & Hn & Hck3 & Hfs3 & Hd3 & Hrun).
  { exact Hdirs. }
  { exact Hdue. }
  { rewrite Hget. now apply fetched_release. }
  cbv zeta in Hrun. rewrite Hrun, Hrec. clear Hrun.
  assert (Htest : negb false && dict_truthy (Some d)
            && bool_decide (Some (tag_name (json resp))
                            = default None (d0 ← Some d; d0 !! "version")) = true).
  { assert (Hne : d ≠ ∅).
    { intros ->. rewrite lookup_empty in Hversion. discriminate. }
    unfold dict_truthy. rewrite (bool_decide_eq_false_2 _ Hne).
    simpl. rewrite Hversion. simpl. now apply bool_decide_eq_true_2. }
  rewrite Htest.
  destruct (save_local_version_run E TLS_CLIENT_PATH (tag_name (json resp))
              (default (isoformat (utcnow E n)) (published_at (json resp)))
              (header_Etag resp) w3 Hdirs) as (w' & Hsave & _ & Hreq & Hfs).
  rewrite Hwrite, Hck3, Hfs3 in Hfs.
  exists n, w'. cbv zeta.
  erewrite bind_Ok; [|exact Hsave].
  split; [reflexivity|].
  split; [rewrite <- Hd3; now apply downloads_same|].
  split; [assumption|]. split; [assumption|].
  intros Hlm Hetag.
  assert (Hio : io_fault E ReadVersion = false).
  { destruct (stored_record_lines _ _ _ _ Hrec) as (c & _ & Hio & _). exact Hio. }
  eexists. rewrite read_local_version_fst, Hfs.
  rewrite stored_record_after_save
    by eauto using single_line_isoformat, isoformat_nonempty, stored_version_single_line.
  split; [reflexivity|].
  split; [apply lookup_insert_eq|].
  split; [rewrite lookup_insert_ne by discriminate; apply lookup_insert_eq|].
  split; rewrite !lookup_insert_ne by discriminate; apply lookup_insert_eq.
Qed.

(** C9: when an update is attempted (the run got to its fetch, a release
    was fetched and either [force] is set or no stored record carries its
    tag), [update_lib] downloads the first asset in listed order whose name starts with the
    target file name stripped of its extension, and that one only; when no
    asset name starts with that stem it returns [False] after printing the
    names of the available assets, and downloads nothing. *)
Theorem update_lib_first_matching_asset (force : bool) (w : world)
    (resp : response) :
  (force = true
   ∨ fst (should_check_update fromisoformat E TLS_CLIENT_PATH w) = Ok true) →
  http_get E GITHUB_API_URL
    (request_headers E (stored_record E TLS_CLIENT_PATH (fs w))) = Some resp →
  status_code resp ≠ 304 →
  (400 <=? status_code resp) && (status_code resp <? 600) = false →
  assets (json resp) ≠ [] →
  (force = true
   ∨ ∀ d, fst (read_local_version E TLS_CLIENT_PATH w) = Ok (Some d) →
          d !! "version" ≠ Some (Some (tag_name (json resp)))) →
  io_fault E MakeDirs = false →
  let stem := rsplit_dot_head CURRENT_DEPENDENCY_FILENAME in
  let run := update_lib fromisoformat E TLS_CLIENT_PATH CURRENT_DEPENDENCY_FILENAME force w in
  match List.find (fun a => startswith (name a) stem) (assets (json resp)) with
  | Some a =>
      downloads (trace run.2)
      = downloads (trace w) ++ [(browser_download_url a, ∅, true)]
  | None =>
      run.1 = Ok false
      ∧ downloads (trace run.2) = downloads (trace w)
      ∧ last (printed (trace run.2))
        = Some (MsgAvailableAssets (map name (assets (json resp))))
  end.
Proof.
  intros Hdue Hget H304 Herr Hassets Hattempt Hdirs stem run.
  rewrite should_check_update_fst in Hdue.
  rewrite read_local_version_fst in Hattempt.
  destruct (update_lib_fetched force w (json resp) (header_Etag resp))
    as (n & w3 & Hn & Hck3 & Hfs3 & Hd3 & Hrun).
  { exact Hdirs. }
  { destruct force; [reflexivity|]. destruct Hdue as [|[= ->]]; congruence. }
  { rewrite Hget. now apply fetched_release. }
  cbv zeta in Hrun. subst run. rewrite Hrun. clear Hrun.
  assert (Htest : negb force && dict_truthy (stored_record E TLS_CLIENT_PATH (fs w))
            && bool_decide (Some (tag_name (json resp))
                            = default None (d0 ← stored_record E TLS_CLIENT_PATH (fs w);
                                            d0 !! "version"))
            = false).
  { destruct Hattempt as [-> | Hdiff]; [reflexivity|].
    destruct (stored_record E TLS_CLIENT_PATH (fs w)) as [d|]; [|now rewrite andb_false_r].
    specialize (Hdiff d eq_refl). apply andb_false_iff. right.
    apply bool_decide_eq_false_2. simpl.
    destruct (d !! "version") as [[v|]|]; simpl; congruence. }
  rewrite Htest. rewrite bind_print.
  set (w4 := log (EvPrint (MsgNewVersion (tag_name (json resp)))) w3).
  assert (Hd4 : downloads (trace w4) = downloads (trace w)).
  { rewrite <- Hd3. apply downloads_same, requests_log_print. }
  pose proof (update_lib_assets_run E TLS_CLIENT_PATH CURRENT_DEPENDENCY_FILENAME
                (tag_name (json resp))
                (default (isoformat (utcnow E n)) (published_at (json resp)))
                (header_Etag resp) (assets (json resp)) (assets (json resp)) w4)
    as Hloop.
  cbv zeta in Hloop. fold stem in Hloop.
  destruct (List.find (fun a => startswith (name a) stem) (assets (json resp))) as [a|].
  - rewrite (downloads_snoc_stream _ _ _ _ Hloop). now rewrite Hd4.
  - rewrite Hloop. split; [reflexivity|]. simpl. split.
    + rewrite <- Hd4. apply downloads_same. subst w4. simpl.
      now rewrite !requests_log_print.
    + unfold printed. rewrite omap_app. simpl. apply last_snoc.
Qed.

End OrchestratorFacts.

(** ** Zero assets *)

(** C3, as the code has it: when the answer of the feed lists no asset the
    fetcher returns [None], which is also what it returns for a 304 answer,
    and the orchestrator (which gets to its fetch when its directory is
    there) returns [True] without writing anything (version, last-modified
    and last-check lines all stay) and without starting a download. *)
Theorem update_lib_zero_assets (fromisoformat : string → option datetime)
    (E : env) (TLS_CLIENT_PATH CURRENT_DEPENDENCY_FILENAME : string)
    (force : bool) (w : world) (resp : response) :
  http_get E GITHUB_API_URL
    (request_headers E (stored_record E TLS_CLIENT_PATH (fs w))) = Some resp →
  assets (json resp) = [] →
  fst (get_latest_release E TLS_CLIENT_PATH w) = Ok None
  ∧ (∀ (E304 : env) (r304 : response),
       http_get E304 GITHUB_API_URL
         (request_headers E304 (stored_record E304 TLS_CLIENT_PATH (fs w)))
       = Some r304 →
       status_code r304 = 304 →
       fst (get_latest_release E304 TLS_CLIENT_PATH w)
       = fst (get_latest_release E TLS_CLIENT_PATH w))
  ∧ (io_fault E MakeDirs = false →
     ∃ w', update_lib fromisoformat E TLS_CLIENT_PATH CURRENT_DEPENDENCY_FILENAME
             force w = (Ok true, w')
           ∧ fs w' = fs w
           ∧ fst (read_local_version E TLS_CLIENT_PATH w')
             = fst (read_local_version E TLS_CLIENT_PATH w)
           ∧ downloads (trace w') = downloads (trace w)).
Proof.
  intros Hget Hassets.
  assert (Hnone : fetched (http_get E GITHUB_API_URL
                    (request_headers E (stored_record E TLS_CLIENT_PATH (fs w)))) = None).
  { rewrite Hget. unfold fetched. rewrite Hassets. simpl.
    destruct (status_code resp =? 304); [reflexivity|].
    now destruct ((400 <=? status_code resp) && (status_code resp <? 600)). }
  assert (Hfetch : fst (get_latest_release E TLS_CLIENT_PATH w) = Ok None).
  { destruct (get_latest_release_run E TLS_CLIENT_PATH w) as (w1 & Hrun & _).
    cbv zeta in Hrun. rewrite Hrun, Hnone. reflexivity. }
  split; [exact Hfetch|]. split.
  - intros E304 r304 Hget304 H304. rewrite Hfetch.
    destruct (get_latest_release_run E304 TLS_CLIENT_PATH w) as (w1 & Hrun & _).
    cbv zeta in Hrun. rewrite Hrun, Hget304. unfold fetched. now rewrite H304.
  - intros Hdirs.
    destruct (update_lib_nothing_fetched fromisoformat E TLS_CLIENT_PATH
                CURRENT_DEPENDENCY_FILENAME force w Hdirs Hnone)
      as (w' & Hrun & Hfs & Hd).
    exists w'. rewrite !read_local_version_fst, Hfs. auto.
Qed.

(** ** The program on explicit inputs *)

(** C1 fails on the code: the destination holds ["CURRENT"], a backup file
    with the content ["STALE"] is left from an earlier run, and the download
    fails at its request (no connection, or a 503 answer).  The installer
    answers [False], but its handler has moved the old backup over the
    destination, which now holds ["STALE"] and not what it held before the
    call: the request is sent before the backup of this call is made, and
    the handler restores whatever backup file it finds. *)
Theorem download_file_restores_stale_backup :
  let w := world_with_stale_backup "CURRENT" "STALE" in
  let refused := download_file (env_answering None)
                   "https://dl.invalid/linux-amd64" target_path w in
  let unavailable := download_file (env_answering (Some resp_503))
                       "https://dl.invalid/linux-amd64" target_path w in
  fs w !! target_path = Some "CURRENT"
  ∧ refused.1 = Ok false
  ∧ fs refused.2 !! target_path = Some "STALE"
  ∧ unavailable.1 = Ok false
  ∧ fs unavailable.2 !! target_path = Some "STALE"
  ∧ fs refused.2 !! target_path ≠ fs w !! target_path.
Proof.
  cbv zeta. repeat split; try (vm_compute; reflexivity).
  vm_compute. discriminate.
Qed.

(** C2 fails on the code: a record checked two days ago, a feed that
    answers 304 Not Modified.  The run succeeds and has sent its conditional
    request, but the record read afterwards still carries the old last-check
    line, not the text of the clock: the check is not recorded.  The next
    run is therefore not throttled and sends the request again.  When the
    feed answers 200 with the stored version instead, the sibling branch
    writes the record and the next run is throttled. *)
Theorem update_lib_not_modified_keeps_last_check :
  let w := world_with_record record_stale in
  let E := env_answering (Some resp_304) in
  let run := update_lib fromisoformat_ref E site target false w in
  let again := update_lib fromisoformat_ref E site target false run.2 in
  let E200 := env_answering (Some resp_release) in
  let run200 := update_lib fromisoformat_ref E200 site target false w in
  let again200 := update_lib fromisoformat_ref E200 site target false run200.2 in
  run.1 = Ok true
  ∧ requests (trace run.2)
    = [(GITHUB_API_URL, {[ "If-None-Match" := Some "W/abc" ]}, false)]
  ∧ (∃ d, fst (read_local_version E site run.2) = Ok (Some d)
          ∧ d !! "last_check" = Some (Some "2024-04-29T12:00:00+00:00")
          ∧ d !! "last_check" ≠ Some (Some (isoformat (utcnow E 0))))
  ∧ again.1 = Ok true
  ∧ length (requests (trace again.2)) = 2%nat
  ∧ run200.1 = Ok true
  ∧ (∃ d, fst (read_local_version E200 site run200.2) = Ok (Some d)
          ∧ d !! "last_check" = Some (Some (isoformat (utcnow E200 1))))
  ∧ again200.1 = Ok true
  ∧ length (requests (trace again200.2)) = 1%nat.
Proof.
  cbv zeta. split; [vm_compute; reflexivity|]. split; [vm_compute; reflexivity|].
  split.
  { eexists. split; [vm_compute; reflexivity|].
    split; [vm_compute; reflexivity|].
    vm_compute. discriminate. }
  split; [vm_compute; reflexivity|]. split; [vm_compute; reflexivity|].
  split; [vm_compute; reflexivity|].
  split.
  { eexists. split; vm_compute; reflexivity. }
  split; vm_compute; reflexivity.
Qed.

(** C3 as stated fails: the caller gets the same value for a release
    without assets and for a 304 answer. *)
Lemma get_latest_release_zero_assets_same_as_304 :
  let w := world_with_record record_stale in
  fst (get_latest_release (env_answering (Some resp_no_assets)) site w) = Ok None
  ∧ fst (get_latest_release (env_answering (Some resp_304)) site w) = Ok None
  ∧ ¬ (fst (get_latest_release (env_answering (Some resp_no_assets)) site w)
       ≠ fst (get_latest_release (env_answering (Some resp_304)) site w)).
Proof.
  cbv zeta.
  assert (H1 : fst (get_latest_release (env_answering (Some resp_no_assets)) site
                      (world_with_record record_stale)) = Ok None)
    by (vm_compute; reflexivity).
  assert (H2 : fst (get_latest_release (env_answering (Some resp_304)) site
                      (world_with_record record_stale)) = Ok None)
    by (vm_compute; reflexivity).
  rewrite H1, H2. split; [reflexivity|]. split; [reflexivity|]. intros H. now apply H.
Qed.

(** C3, as the code has it, at that input. *)
Lemma update_lib_zero_assets_witness :
  let E := env_answering (Some resp_no_assets) in
  let w := world_with_record record_stale in
  fst (get_latest_release E site w) = Ok None
  ∧ ∃ w', update_lib fromisoformat_ref E site target false w = (Ok true, w')
          ∧ fs w' = fs w
          ∧ downloads (trace w') = downloads (trace w).
Proof.
  cbv zeta.
  destruct (update_lib_zero_assets fromisoformat_ref
              (env_answering (Some resp_no_assets)) site target false
              (world_with_record record_stale) resp_no_assets eq_refl eq_refl)
    as (Hfetch & _ & Hrun).
  destruct (Hrun eq_refl) as (w' & Hrun' & Hfs & _ & Hd).
  split; [exact Hfetch|]. exists w'. auto.
Defined.

(** C5 as stated fails: a version string that contains a line feed is read
    back cut at the line feed, and an empty cache token is read back as
    [None]. *)
Lemma save_then_read_multiline_version :
  let E := env_answering None in
  let version := "v2.1.0" +:+ String LF "rc1" in
  let w' := (save_local_version E site version "2024-04-30T10:00:00Z" (Some "")
               (world_with_record record_stale)).2 in
  ∃ d, fst (read_local_version E site w') = Ok (Some d)
       ∧ d !! "version" = Some (Some "v2.1.0")
       ∧ d !! "version" ≠ Some (Some version)
       ∧ d !! "Etag" ≠ Some (Some "").
Proof.
  cbv zeta. eexists. split; [vm_compute; reflexivity|].
  split; [vm_compute; reflexivity|].
  split; vm_compute; discriminate.
Qed.

(** C5, as the code has it, at an input. *)
Lemma save_then_read_witness :
  let E := env_answering None in
  ∃ w' d,
    save_local_version E site "v2.1.0" "2024-04-30T10:00:00Z" (Some "W/abc")
      (world_with_record record_stale) = (Ok tt, w')
    ∧ fst (read_local_version E site w') = Ok (Some d)
    ∧ d !! "version" = Some (Some "v2.1.0")
    ∧ d !! "last_modified" = Some (Some "2024-04-30T10:00:00Z")
    ∧ d !! "Etag" = Some (Some "W/abc")
    ∧ d !! "last_check" = Some (Some (isoformat noon))
    ∧ fromisoformat_ref (isoformat noon) = Some noon.
Proof.
  apply (save_then_read (env_answering None) site "v2.1.0" "2024-04-30T10:00:00Z"
           (Some "W/abc") (world_with_record record_stale)).
  - reflexivity.
  - reflexivity.
  - reflexivity.
  - vm_compute. reflexivity.
  - vm_compute. reflexivity.
  - vm_compute. reflexivity.
  - right. exists "W/abc". split; [reflexivity|].
    split; [discriminate | vm_compute; reflexivity].
Defined.

(** C6 as stated fails: the record exists, its last-check line parses (to a
    naive timestamp one hour before now), and no more than 24 hours can
    have elapsed, yet [should_check_update] answers [True]. *)
Lemma should_check_update_naive_timestamp :
  let E := env_answering None in
  let w := world_with_record record_naive in
  fst (should_check_update fromisoformat_ref E site w) = Ok true
  ∧ ¬ (fst (read_local_version E site w) = Ok None
       ∨ ∃ d s, fst (read_local_version E site w) = Ok (Some d)
                ∧ d !! "last_check" = Some (Some s)
                ∧ (fromisoformat_ref s = None
                   ∨ ∃ t elapsed, fromisoformat_ref s = Some t
                                  ∧ datetime_sub (utcnow E (clock w)) t = Ok elapsed
                                  ∧ CHECK_INTERVAL < elapsed)).
Proof.
  cbv zeta. split; [vm_compute; reflexivity|].
  assert (Hrec : fst (read_local_version (env_answering None) site
                        (world_with_record record_naive))
                 = Ok (Some (record_of_lines
                               ["v2.1.0"; "2024-04-30T10:00:00Z"; "2024-05-01T11:00:00"])))
    by (vm_compute; reflexivity).
  rewrite Hrec. intros [Hnone | (d & s & Hd & Hs & Hcond)]; [discriminate|].
  injection Hd as <-. rewrite record_of_lines_last_check in Hs.
  injection Hs as <-. simpl nth in Hcond.
  assert (Hparse : fromisoformat_ref "2024-05-01T11:00:00"
                   = Some (mkdatetime 2024 5 1 11 0 0 0 None))
    by (vm_compute; reflexivity).
  rewrite Hparse in Hcond.
  destruct Hcond as [Hnone | (t & elapsed & Ht & Hsub & _)]; [discriminate|].
  injection Ht as <-. vm_compute in Hsub. discriminate.
Qed.

(** The same input with the timestamp read as UTC: one hour has elapsed. *)
Example naive_timestamp_one_hour_old :
  datetime_sub noon (mkdatetime 2024 5 1 11 0 0 0 (Some 0)) = Ok (timedelta_hours 1).
Proof. reflexivity. Qed.

(** C7 at an input: a record checked one hour ago. *)
Lemma update_lib_throttled_witness :
  ∃ w', update_lib fromisoformat_ref (env_answering (Some resp_release)) site target
          false (world_with_record record_fresh) = (Ok true, w')
        ∧ fs w' = fs (world_with_record record_fresh)
        ∧ trace w' = trace (world_with_record record_fresh).
Proof.
  apply (update_lib_throttled fromisoformat_ref (env_answering (Some resp_release))
           site target (world_with_record record_fresh)).
  vm_compute. reflexivity.
Defined.

(** C8 at an input: the stored version is the fetched one and the check is
    due; nothing is downloaded and the record carries the new last check. *)
Lemma update_lib_same_version_witness :
  let E := env_answering (Some resp_release) in
  ∃ w', update_lib fromisoformat_ref E site target false
          (world_with_record record_stale) = (Ok true, w')
        ∧ downloads (trace w') = []
        ∧ fs w' = {[ version_path :=
                       record_text "v2.1.0" "2024-04-30T10:00:00Z"
                         "2024-05-01T12:00:00+00:00" (Some "W/abc") ]}.
Proof.
  cbv zeta.
  destruct (update_lib_same_version fromisoformat_ref
              (env_answering (Some resp_release)) site target
              (world_with_record record_stale) resp_release
              (record_of_lines ["v2.1.0"; "2024-04-30T10:00:00Z";
                                "2024-04-29T12:00:00+00:00"; "W/abc"]))
    as (n & w' & Hrun & Hd & _ & Hfs & _).
  - vm_compute. reflexivity.
  - reflexivity.
  - discriminate.
  - reflexivity.
  - discriminate.
  - vm_compute. reflexivity.
  - vm_compute. reflexivity.
  - reflexivity.
  - reflexivity.
  - exists w'. split; [exact Hrun|]. split; [exact Hd|].
    rewrite Hfs. vm_compute. reflexivity.
Defined.

(** C9 at an input: a forced run over three assets, two of which match; the
    first of the two is downloaded, and nothing else. *)
Lemma update_lib_first_matching_asset_witness :
  downloads (trace (update_lib fromisoformat_ref (env_answering (Some resp_release))
                      site target true (world_with_record record_stale)).2)
  = [("https://dl.invalid/linux-amd64", ∅, true)].
Proof.
  exact (update_lib_first_matching_asset fromisoformat_ref
           (env_answering (Some resp_release)) site target true
           (world_with_record record_stale) resp_release
           (or_introl eq_refl) eq_refl ltac:(discriminate) eq_refl
           ltac:(discriminate) (or_introl eq_refl) eq_refl).
Defined.

(** C10 at an input: a record of three lines, no token stored. *)
Lemma read_local_version_defines_Etag_witness :
  let E := env_answering None in
  let w := world_with_record record_naive in
  ∃ d, fst (read_local_version E site w) = Ok (Some d)
       ∧ d !! "Etag" = Some None
       ∧ ∃ headers,
           requests (trace (snd (get_latest_release E site w)))
           = [(GITHUB_API_URL, headers, false)]
           ∧ headers !! "If-None-Match" = Some None.
Proof.
  cbv zeta.
  destruct (read_local_version_defines_Etag (env_answering None) site
              (world_with_record record_naive) record_naive)
    as (d & Hread & _ & Hnone & headers & Hreq & Hhdr).
  - vm_compute. reflexivity.
  - reflexivity.
  - vm_compute. lia.
  - exists d. split; [exact Hread|].
    assert (HE : d !! "Etag" = Some None) by (apply Hnone; vm_compute; lia).
    split; [exact HE|]. exists headers. split; [exact Hreq|]. now rewrite Hhdr.
Defined.

(** A first installation, end to end: no record, no destination; the first
    matching asset is downloaded, its two chunks become the destination
    binary and the record is written. *)
Example update_lib_first_install :
  let run := update_lib fromisoformat_ref (env_answering (Some resp_release))
               site target false (mkworld ∅ 0 []) in
  run.1 = Ok true
  ∧ fs run.2 !! target_path = Some "NEW-BINARY"
  ∧ fs run.2 !! version_path
    = Some (record_text "v2.1.0" "2024-04-30T10:00:00Z" "2024-05-01T12:00:00+00:00"
              (Some "W/abc"))
  ∧ fs run.2 !! (target_path +:+ ".tmp") = None
  ∧ downloads (trace run.2) = [("https://dl.invalid/linux-amd64", ∅, true)].
Proof. cbv zeta. repeat split; vm_compute; reflexivity. Qed.

(** * Further properties *)

(** ** Which files an action can change *)

Lemma touches_mono {A} (paths paths' : list string) (m : M A) :
  (∀ q, q ∈ paths → q ∈ paths') → touches_only paths m → touches_only paths' m.
Proof. intros Hsub Hm w q Hq. apply Hm. intros Hin. apply Hq, Hsub, Hin. Qed.

Lemma touches_ret {A} paths (a : A) : touches_only paths (ret a).
Proof. intros w q _. reflexivity. Qed.

Lemma touches_raise {A} paths (e : exn) : touches_only paths (@raise A e).
Proof. intros w q _. reflexivity. Qed.

Lemma touches_lift {A} paths (o : outcome A) : touches_only paths (lift o).
Proof. intros w q _. reflexivity. Qed.

Lemma touches_bind {A B} paths (m : M A) (k : A → M B) :
  touches_only paths m → (∀ a, touches_only paths (k a)) →
  touches_only paths (bind m k).
Proof.
  intros Hm Hk w q Hq. unfold bind. specialize (Hm w q Hq).
  destruct (m w) as [[a|e] w1]; simpl in *; [|assumption].
  now rewrite (Hk a w1 q Hq).
Qed.

Lemma touches_try_except {A} paths (m : M A) catches (h : exn → M A) :
  touches_only paths m → (∀ e, touches_only paths (h e)) →
  touches_only paths (try_except m catches h).
Proof.
  intros Hm Hh w q Hq. unfold try_except. specialize (Hm w q Hq).
  destruct (m w) as [[a|e] w1]; simpl in *; [assumption|].
  destruct (catches e); [|assumption]. now rewrite (Hh e w1 q Hq).
Qed.

Lemma touches_if {A} paths (b : bool) (m1 m2 : M A) :
  touches_only paths m1 → touches_only paths m2 →
  touches_only paths (if b then m1 else m2).
Proof. now destruct b. Qed.

Section FileFacts.

Variable E : env.

Lemma touches_print paths (msg : message) : touches_only paths (print msg).
Proof. intros w q _. reflexivity. Qed.

Lemma touches_datetime_now paths : touches_only paths (datetime_now E).
Proof. intros w q _. reflexivity. Qed.

Lemma touches_session_get paths url headers stream :
  touches_only paths (session_get E url headers stream).
Proof. intros w q _. reflexivity. Qed.

Lemma touches_raise_for_status paths r : touches_only paths (raise_for_status r).
Proof.
  unfold raise_for_status. apply touches_if; [apply touches_raise | apply touches_ret].
Qed.

Lemma touches_os_path_exists paths p : touches_only paths (os_path_exists p).
Proof. intros w q _. reflexivity. Qed.

Lemma touches_io paths site : touches_only paths (io E site).
Proof. unfold io. apply touches_if; [apply touches_raise | apply touches_ret]. Qed.

Lemma touches_read_text paths site p : touches_only paths (read_text E site p).
Proof.
  apply touches_bind; [apply touches_io | intros _ w q _].
  now destruct (fs w !! p).
Qed.

Lemma touches_write_text paths site p text :
  p ∈ paths → touches_only paths (write_text E site p text).
Proof.
  intros Hp. apply touches_bind; [apply touches_io | intros _ w q Hq]. simpl.
  apply lookup_insert_ne. intros ->. contradiction.
Qed.

Lemma partly_written_other site dst c (f : gmap string string) q :
  q ≠ dst → partly_written E site dst c f !! q = f !! q.
Proof.
  intros Hq. unfold partly_written.
  destruct (io_written E site); [now apply lookup_insert_ne | reflexivity].
Qed.

Lemma touches_shutil_copy2 paths site src dst :
  dst ∈ paths → touches_only paths (shutil_copy2 E site src dst).
Proof.
  intros Hp w q Hq. unfold shutil_copy2.
  assert (Hne : q ≠ dst) by (intros ->; contradiction).
  destruct (fs w !! src); [|reflexivity].
  destruct (io_fault E site); simpl.
  - now apply partly_written_other.
  - now apply lookup_insert_ne.
Qed.

Lemma touches_shutil_move paths site src dst :
  src ∈ paths → dst ∈ paths → touches_only paths (shutil_move E site src dst).
Proof.
  intros Hs Hd w q Hq. unfold shutil_move.
  assert (Hne : q ≠ dst) by (intros ->; contradiction).
  destruct (fs w !! src); [|reflexivity].
  destruct (io_fault E site); simpl.
  - now apply partly_written_other.
  - rewrite lookup_insert_ne by (intros ->; contradiction).
    apply lookup_delete_ne. intros ->. contradiction.
Qed.

Lemma touches_os_makedirs paths p : touches_only paths (os_makedirs E p).
Proof. apply touches_io. Qed.

Lemma touches_os_remove paths site p :
  p ∈ paths → touches_only paths (os_remove E site p).
Proof.
  intros Hp. apply touches_bind; [apply touches_io | intros _ w q Hq].
  destruct (fs w !! p); [|reflexivity]. simpl.
  apply lookup_delete_ne. intros ->. contradiction.
Qed.

Lemma touches_open_wb paths site p :
  p ∈ paths → touches_only paths (open_wb E site p).
Proof.
  intros Hp. apply touches_bind; [apply touches_io | intros _ w q Hq]. simpl.
  apply lookup_insert_ne. intros ->. contradiction.
Qed.

Lemma touches_write_chunks paths p chunks broken :
  p ∈ paths → touches_only paths (write_chunks p chunks broken).
Proof.
  intros Hp. induction chunks as [|chunk rest IH]; simpl.
  - apply touches_if; [apply touches_raise | apply touches_ret].
  - apply touches_bind; [|intros _; exact IH].
    intros w q Hq. simpl. apply lookup_insert_ne. intros ->. contradiction.
Qed.

End FileFacts.

Ltac touches :=
  repeat first
    [ apply touches_ret | apply touches_raise | apply touches_lift
    | apply touches_print | apply touches_datetime_now
    | apply touches_session_get | apply touches_raise_for_status
    | apply touches_os_path_exists | apply touches_io | apply touches_os_makedirs
    | apply touches_read_text
    | apply touches_write_text | apply touches_shutil_copy2
    | apply touches_shutil_move | apply touches_os_remove | apply touches_open_wb
    | apply touches_write_chunks
    | apply touches_if | apply touches_bind | apply touches_try_except
    | match goal with |- ∀ _, _ => intro end
    | set_solver ].

Lemma download_file_touches (E : env) (url dest_path : string) :
  touches_only [dest_path; dest_path +:+ ".tmp"; dest_path +:+ ".backup"]
    (download_file E url dest_path).
Proof. unfold download_file. touches. Qed.

(** The installer changes no file but the destination and its two
    siblings, whatever the answer and the failures. *)
Theorem download_file_frame (E : env) (url dest_path q : string) (w : world) :
  q ≠ dest_path → q ≠ dest_path +:+ ".tmp" → q ≠ dest_path +:+ ".backup" →
  fs (download_file E url dest_path w).2 !! q = fs w !! q.
Proof.
  intros H1 H2 H3.
  assert (H : touches_only [dest_path; dest_path +:+ ".tmp"; dest_path +:+ ".backup"]
                (download_file E url dest_path))
    by (unfold download_file; touches).
  apply H. set_unfold. tauto.
Qed.

(** ** More runs of the artifact installer *)

Section InstallerFacts.

Variable E : env.

Lemma os_remove_ok site p c (w : world) :
  io_fault E site = false → fs w !! p = Some c →
  os_remove E site p w = (Ok tt, set_fs (delete p (fs w)) w).
Proof. intros Hf Hc. unfold os_remove, io, bind. rewrite Hf. simpl. now rewrite Hc. Qed.

Lemma os_remove_fault site p (w : world) :
  io_fault E site = true → os_remove E site p w = (Raise OSError, w).
Proof. intros Hf. unfold os_remove, io, bind. now rewrite Hf. Qed.

(** The open file receives the chunks in order. *)
Lemma write_chunks_content p chunks broken c0 (w : world) :
  fs w !! p = Some c0 →
  fs (write_chunks p chunks broken w).2 !! p = Some (c0 +:+ concat_chunks chunks).
Proof.
  revert c0 w. induction chunks as [|chunk rest IH]; intros c0 w Hc; simpl.
  - unfold concat_chunks. simpl. rewrite append_empty_r. now destruct broken.
  - unfold bind, write_chunk.
    rewrite (IH (c0 +:+ chunk)) by (simpl; rewrite Hc; apply lookup_insert_eq).
    unfold concat_chunks. simpl. now rewrite append_assoc.
Qed.

(** The handler of [download_file], run in a world with a backup file. *)
Lemma download_file_handler_restores (dest_path b : string) (e : exn) (w : world) :
  io_fault E RestoreBackup = false →
  fs w !! (dest_path +:+ ".backup") = Some b →
  (print (MsgErrorDownloading e) ;;
   backup_exists <- os_path_exists (dest_path +:+ ".backup") ;;
   (if backup_exists
    then shutil_move E RestoreBackup (dest_path +:+ ".backup") dest_path
    else ret tt) ;;
   ret false) w
  = (Ok false,
     set_fs (<[dest_path := b]> (delete (dest_path +:+ ".backup") (fs w)))
       (log (EvPrint (MsgErrorDownloading e)) w)).
Proof.
  intros Hrestore Hb. rewrite bind_print.
  erewrite bind_Ok; [|reflexivity].
  rewrite bool_decide_eq_true_2 by (simpl; eauto).
  erewrite bind_Ok; [|apply (shutil_move_ok _ _ _ _ b); [assumption | exact Hb]].
  reflexivity.
Qed.

(** The handler of [download_file], run in a world without backup file. *)
Lemma download_file_handler_idle (dest_path : string) (e : exn) (w : world) :
  fs w !! (dest_path +:+ ".backup") = None →
  (print (MsgErrorDownloading e) ;;
   backup_exists <- os_path_exists (dest_path +:+ ".backup") ;;
   (if backup_exists
    then shutil_move E RestoreBackup (dest_path +:+ ".backup") dest_path
    else ret tt) ;;
   ret false) w
  = (Ok false, log (EvPrint (MsgErrorDownloading e)) w).
Proof.
  intros Hb. rewrite bind_print.
  erewrite bind_Ok; [|reflexivity].
  rewrite bool_decide_eq_false_2 by (simpl; rewrite Hb; intros [? ?]; discriminate).
  reflexivity.
Qed.

Lemma download_file_installs_run (url dest_path : string) (resp : response)
    (w : world) :
  http_get E url ∅ = Some resp →
  (400 <=? status_code resp) && (status_code resp <? 600) = false →
  content_error resp = false →
  (∀ site, io_fault E site = false) →
  ∃ w', download_file E url dest_path w = (Ok true, w')
        ∧ fs w' !! dest_path = Some (concat_chunks (content_chunks resp))
        ∧ fs w' !! (dest_path +:+ ".tmp") = None
        ∧ fs w' !! (dest_path +:+ ".backup") = None.
Proof.
  intros Hget Hstatus Hwhole Hio.
  unfold download_file.
  set (backup := dest_path +:+ ".backup").
  set (temp := dest_path +:+ ".tmp").
  set (w0 := log (EvGet url ∅ true) w).
  (* the world after the optional backup copy *)
  assert (Hcopy : ∃ w1,
    (if bool_decide (is_Some (fs w0 !! dest_path))
     then shutil_copy2 E CopyBackup dest_path backup else ret tt) w0 = (Ok tt, w1)).
  { destruct (fs w0 !! dest_path) as [c|] eqn:Hdest.
    - rewrite bool_decide_eq_true_2 by eauto.
      erewrite shutil_copy2_ok by eauto. eauto.
    - rewrite bool_decide_eq_false_2 by (intros [? ?]; discriminate). eauto. }
  destruct Hcopy as (w1 & Hcopy).
  set (w2 := set_fs (<[temp := ""]> (fs w1)) w1).
  destruct (write_chunks_run temp (content_chunks resp) (content_error resp) w2)
    as (w3 & Hw & Hframe).
  pose proof (write_chunks_content temp (content_chunks resp) (content_error resp)
                "" w2 (lookup_insert_eq _ _ _)) as Hcontent.
  rewrite Hw in Hcontent. simpl in Hcontent. rewrite append_nil in Hcontent.
  rewrite Hwhole in Hw.
  set (w4 := set_fs (<[dest_path := concat_chunks (content_chunks resp)]>
                       (delete temp (fs w3))) w3).
  assert (Hbody : ∃ w5,
    (backup_exists <- os_path_exists backup ;;
     (if backup_exists then os_remove E RemoveBackup backup else ret tt) ;;
     ret true) w4 = (Ok true, w5)
    ∧ fs w5 = delete backup (fs w4)).
  { erewrite bind_Ok; [|reflexivity].
    destruct (fs w4 !! backup) as [b|] eqn:Hb.
    - rewrite bool_decide_eq_true_2 by eauto.
      erewrite bind_Ok; [|apply (os_remove_ok _ _ b); auto].
      eexists. split; reflexivity.
    - rewrite bool_decide_eq_false_2 by (intros [? ?]; discriminate).
      exists w4. split; [reflexivity|]. symmetry. now apply delete_id. }
  destruct Hbody as (w5 & Hbody & Hfs5).
  exists w5. split.
  - apply try_except_Ok.
    erewrite bind_Ok; [|unfold session_get; rewrite Hget; reflexivity].
    erewrite bind_Ok; [|unfold raise_for_status; rewrite Hstatus; reflexivity].
    erewrite bind_Ok; [|reflexivity].
    erewrite bind_Ok; [|exact Hcopy].
    erewrite bind_Ok; [|now apply open_wb_ok].
    rewrite Hwhole. erewrite bind_Ok; [|exact Hw].
    erewrite bind_Ok; [|apply (shutil_move_ok _ _ _ _ _ _ (Hio MoveTemp) Hcontent)].
    exact Hbody.
  - rewrite Hfs5. subst w4. simpl. repeat split.
    + rewrite lookup_delete_ne by apply backup_ne_dest. apply lookup_insert_eq.
    + rewrite lookup_delete_ne by apply backup_ne_temp.
      rewrite lookup_insert_ne by (apply not_eq_sym, temp_ne_dest).
      apply lookup_delete_eq.
    + apply lookup_delete_eq.
Qed.

(** When the request is answered with a body that arrives whole and no file
    operation fails, [download_file] returns [True]; the destination then
    holds the chunks of the body in order, whether or not it existed
    before, and neither the temporary file nor a backup file is left. *)
Theorem download_file_installs (url dest_path : string) (resp : response)
    (w : world) :
  http_get E url ∅ = Some resp →
  (400 <=? status_code resp) && (status_code resp <? 600) = false →
  content_error resp = false →
  (∀ site, io_fault E site = false) →
  ∃ w', download_file E url dest_path w = (Ok true, w')
        ∧ fs w' !! dest_path = Some (concat_chunks (content_chunks resp))
        ∧ fs w' !! (dest_path +:+ ".tmp") = None
        ∧ fs w' !! (dest_path +:+ ".backup") = None.
Proof.
  intros Hget Hstatus Hwhole Hio.
  destruct (download_file_installs_run url dest_path resp w Hget Hstatus Hwhole Hio)
    as (w' & Hrun & Hdest & Htemp & Hbackup).
  exists w'. auto.
Qed.

Lemma request_fails_body (url dest_path : string) (w : world)
    (rest : response → M bool) :
  request_fails (http_get E url ∅) →
  ∃ e, (response <- session_get E url ∅ true ;;
        raise_for_status response ;; rest response) w
       = (Raise e, log (EvGet url ∅ true) w).
Proof.
  unfold request_fails. intros Hfail. unfold bind at 1. unfold session_get.
  destruct (http_get E url ∅) as [r|]; [|eauto].
  unfold bind, raise_for_status. rewrite Hfail. eauto.
Qed.

(** When the request fails, or is answered with an error status, and no
    backup file is lying around, [download_file] returns [False] and has
    changed no file at all. *)
Theorem download_file_request_failure (url dest_path : string) (w : world) :
  request_fails (http_get E url ∅) →
  fs w !! (dest_path +:+ ".backup") = None →
  ∃ w', download_file E url dest_path w = (Ok false, w') ∧ fs w' = fs w.
Proof.
  intros Hfail Hbackup. unfold download_file.
  match goal with
  | |- context [try_except (bind _ (fun response => bind _ (fun _ => @?r response))) _ _] =>
      destruct (request_fails_body url dest_path w r Hfail) as [e Hbody]
  end.
  erewrite try_except_Raise; [|exact Hbody|reflexivity].
  rewrite download_file_handler_idle by exact Hbackup.
  eexists. split; reflexivity.
Qed.

(** When the request fails but a backup file was left behind by an earlier
    run, the handler moves that old backup over the destination:
    [download_file] returns [False] and the destination now holds the
    content of the stale backup. *)
Theorem download_file_request_failure_stale_backup (url dest_path b : string)
    (w : world) :
  request_fails (http_get E url ∅) →
  fs w !! (dest_path +:+ ".backup") = Some b →
  io_fault E RestoreBackup = false →
  ∃ w', download_file E url dest_path w = (Ok false, w')
        ∧ fs w' !! dest_path = Some b
        ∧ fs w' !! (dest_path +:+ ".backup") = None.
Proof.
  intros Hfail Hbackup Hrestore. unfold download_file.
  match goal with
  | |- context [try_except (bind _ (fun response => bind _ (fun _ => @?r response))) _ _] =>
      destruct (request_fails_body url dest_path w r Hfail) as [e Hbody]
  end.
  erewrite try_except_Raise; [|exact Hbody|reflexivity].
  rewrite (download_file_handler_restores dest_path b) by assumption.
  eexists. split; [reflexivity|]. simpl. split.
  - apply lookup_insert_eq.
  - rewrite lookup_insert_ne by (apply not_eq_sym, backup_ne_dest).
    apply lookup_delete_eq.
Qed.

(** The handler of [download_file] returns [False] when its restoring move
    does not fail. *)
Lemma download_file_handler_returns (dest_path : string) (e : exn) (w : world) :
  io_fault E RestoreBackup = false →
  ∃ w',
    (print (MsgErrorDownloading e) ;;
     backup_exists <- os_path_exists (dest_path +:+ ".backup") ;;
     (if backup_exists
      then shutil_move E RestoreBackup (dest_path +:+ ".backup") dest_path
      else ret tt) ;;
     ret false) w = (Ok false, w').
Proof.
  intros Hrestore.
  destruct (fs w !! (dest_path +:+ ".backup")) as [b|] eqn:Hb.
  - rewrite (download_file_handler_restores dest_path b) by assumption. eauto.
  - rewrite download_file_handler_idle by assumption. eauto.
Qed.

(** [download_file] raises only when the restoring move of its handler
    fails: otherwise it returns a boolean, whatever else goes wrong. *)
Theorem download_file_returns (url dest_path : string) (w : world) :
  io_fault E RestoreBackup = false →
  ∃ ok w', download_file E url dest_path w = (Ok ok, w').
Proof.
  intros Hrestore. unfold download_file.
  match goal with |- context [try_except ?m _ _] => set (body := m) end.
  unfold try_except. destruct (body w) as [[ok|e] w1]; [eauto|].
  unfold any_exception.
  destruct (download_file_handler_returns dest_path e w1 Hrestore) as (w' & ->).
  eauto.
Qed.

(** When everything succeeds up to the move into place but the backup
    cannot be removed afterwards, the handler rolls the installation back:
    [download_file] returns [False] and the destination holds its old
    content again; the downloaded body is lost. *)
Theorem download_file_remove_backup_failure (url dest_path c : string)
    (resp : response) (w : world) :
  fs w !! dest_path = Some c →
  http_get E url ∅ = Some resp →
  (400 <=? status_code resp) && (status_code resp <? 600) = false →
  content_error resp = false →
  io_fault E CopyBackup = false →
  io_fault E OpenTemp = false →
  io_fault E MoveTemp = false →
  io_fault E RemoveBackup = true →
  io_fault E RestoreBackup = false →
  ∃ w', download_file E url dest_path w = (Ok false, w')
        ∧ fs w' !! dest_path = Some c
        ∧ fs w' !! (dest_path +:+ ".tmp") = None
        ∧ fs w' !! (dest_path +:+ ".backup") = None.
Proof.
  intros Hdest Hget Hstatus Hwhole Hcopy Hopen Hmove Hremove Hrestore.
  unfold download_file.
  set (backup := dest_path +:+ ".backup").
  set (temp := dest_path +:+ ".tmp").
  set (w0 := log (EvGet url ∅ true) w).
  set (w1 := set_fs (<[backup := c]> (fs w0)) w0).
  set (w2 := set_fs (<[temp := ""]> (fs w1)) w1).
  destruct (write_chunks_run temp (content_chunks resp) (content_error resp) w2)
    as (w3 & Hw & Hframe).
  pose proof (write_chunks_content temp (content_chunks resp) (content_error resp)
                "" w2 (lookup_insert_eq _ _ _)) as Hcontent.
  rewrite Hw in Hcontent. simpl in Hcontent. rewrite Hwhole in Hw.
  assert (Hb3 : fs w3 !! backup = Some c).
  { rewrite Hframe by apply backup_ne_temp. subst w2. simpl.
    rewrite lookup_insert_ne by (apply not_eq_sym, backup_ne_temp).
    apply lookup_insert_eq. }
  set (w4 := set_fs (<[dest_path := "" +:+ concat_chunks (content_chunks resp)]>
                       (delete temp (fs w3))) w3).
  assert (Hb4 : fs w4 !! backup = Some c).
  { subst w4. simpl. rewrite lookup_insert_ne by (apply not_eq_sym, backup_ne_dest).
    rewrite lookup_delete_ne by (apply not_eq_sym, backup_ne_temp). exact Hb3. }
  erewrite try_except_Raise with (e := OSError) (w1 := w4); [| |reflexivity].
  2:{ erewrite bind_Ok; [|unfold session_get; rewrite Hget; reflexivity].
      erewrite bind_Ok; [|unfold raise_for_status; rewrite Hstatus; reflexivity].
      erewrite bind_Ok; [|reflexivity].
      rewrite bool_decide_eq_true_2 by (simpl; eauto).
      erewrite bind_Ok; [|apply (shutil_copy2_ok _ _ _ _ c); [assumption | exact Hdest]].
      erewrite bind_Ok; [|now apply open_wb_ok].
      rewrite Hwhole. erewrite bind_Ok; [|exact Hw].
      erewrite bind_Ok; [|apply (shutil_move_ok _ _ _ _ _ _ Hmove Hcontent)].
      erewrite bind_Ok; [|reflexivity].
      fold w4. rewrite bool_decide_eq_true_2 by eauto.
      erewrite bind_Raise; [|now apply os_remove_fault]. reflexivity. }
  rewrite (download_file_handler_restores dest_path c) by assumption.
  eexists. split; [reflexivity|]. simpl. repeat split.
  - apply lookup_insert_eq.
  - rewrite lookup_insert_ne by (apply not_eq_sym, temp_ne_dest).
    rewrite lookup_delete_ne by apply backup_ne_temp.
    rewrite lookup_insert_ne by (apply not_eq_sym, temp_ne_dest).
    apply lookup_delete_eq.
  - rewrite lookup_insert_ne by (apply not_eq_sym, backup_ne_dest).
    apply lookup_delete_eq.
Qed.

(** When the backup copy itself fails after it has written the first [n]
    bytes of the destination's content to the backup file, the handler
    finds that file and moves it over the destination, which was intact
    until then: [download_file] returns [False] and the destination is left
    with these first bytes only. *)
Theorem download_file_backup_failure_truncates (url dest_path c : string)
    (resp : response) (n : nat) (w : world) :
  fs w !! dest_path = Some c →
  http_get E url ∅ = Some resp →
  (400 <=? status_code resp) && (status_code resp <? 600) = false →
  io_fault E CopyBackup = true →
  io_written E CopyBackup = Some n →
  io_fault E RestoreBackup = false →
  ∃ w', download_file E url dest_path w = (Ok false, w')
        ∧ fs w' !! dest_path = Some (str_take n c)
        ∧ fs w' !! (dest_path +:+ ".backup") = None.
Proof.
  intros Hdest Hget Hstatus Hcopy Hwritten Hrestore.
  unfold download_file.
  set (backup := dest_path +:+ ".backup").
  set (w0 := log (EvGet url ∅ true) w).
  set (w1 := set_fs (<[backup := str_take n c]> (fs w0)) w0).
  erewrite try_except_Raise with (e := OSError) (w1 := w1); [| |reflexivity].
  2:{ erewrite bind_Ok; [|unfold session_get; rewrite Hget; reflexivity].
      erewrite bind_Ok; [|unfold raise_for_status; rewrite Hstatus; reflexivity].
      erewrite bind_Ok; [|reflexivity].
      rewrite bool_decide_eq_true_2 by (simpl; eauto).
      erewrite bind_Raise; [reflexivity|].
      unfold shutil_copy2, partly_written. fold w0.
      change (fs w0) with (fs w). now rewrite Hdest, Hcopy, Hwritten. }
  subst backup.
  rewrite (download_file_handler_restores dest_path (str_take n c))
    by (assumption || apply lookup_insert_eq).
  eexists. split; [reflexivity|]. simpl. split.
  - apply lookup_insert_eq.
  - rewrite lookup_insert_ne by (apply not_eq_sym, backup_ne_dest).
    apply lookup_delete_eq.
Qed.

(** Without a destination and without a backup file, a body that breaks
    off leaves the destination absent, but the temporary file stays behind
    with the chunks received so far; [download_file] returns [False]. *)
Theorem download_file_broken_stream_leaves_temp (url dest_path : string)
    (resp : response) (w : world) :
  fs w !! dest_path = None →
  fs w !! (dest_path +:+ ".backup") = None →
  http_get E url ∅ = Some resp →
  (400 <=? status_code resp) && (status_code resp <? 600) = false →
  io_fault E OpenTemp = false →
  content_error resp = true →
  ∃ w', download_file E url dest_path w = (Ok false, w')
        ∧ fs w' !! dest_path = None
        ∧ fs w' !! (dest_path +:+ ".tmp")
          = Some (concat_chunks (content_chunks resp)).
Proof.
  intros Hdest Hbackup Hget Hstatus Hopen Hbroken.
  unfold download_file.
  set (backup := dest_path +:+ ".backup").
  set (temp := dest_path +:+ ".tmp").
  set (w0 := log (EvGet url ∅ true) w).
  set (w2 := set_fs (<[temp := ""]> (fs w0)) w0).
  destruct (write_chunks_run temp (content_chunks resp) (content_error resp) w2)
    as (w3 & Hw & Hframe).
  pose proof (write_chunks_content temp (content_chunks resp) (content_error resp)
                "" w2 (lookup_insert_eq _ _ _)) as Hcontent.
  rewrite Hw in Hcontent. simpl in Hcontent. rewrite append_nil in Hcontent.
  rewrite Hbroken in Hw.
  erewrite try_except_Raise with (e := RequestException) (w1 := w3); [| |reflexivity].
  2:{ erewrite bind_Ok; [|unfold session_get; rewrite Hget; reflexivity].
      erewrite bind_Ok; [|unfold raise_for_status; rewrite Hstatus; reflexivity].
      erewrite bind_Ok; [|reflexivity].
      rewrite bool_decide_eq_false_2
        by (simpl; rewrite Hdest; intros [? ?]; discriminate).
      erewrite bind_Ok; [|reflexivity].
      erewrite bind_Ok; [|now apply open_wb_ok].
      rewrite Hbroken. erewrite bind_Raise; [|exact Hw]. reflexivity. }
  assert (Hb3 : fs w3 !! backup = None).
  { rewrite Hframe by apply backup_ne_temp. subst w2. simpl.
    rewrite lookup_insert_ne by (apply not_eq_sym, backup_ne_temp). exact Hbackup. }
  subst backup. rewrite (download_file_handler_idle dest_path RequestException w3 Hb3).
  eexists. split; [reflexivity|]. simpl. split; [|exact Hcontent].
  rewrite Hframe by (apply not_eq_sym, temp_ne_dest). subst w2. simpl.
  rewrite lookup_insert_ne by apply temp_ne_dest. exact Hdest.
Qed.

End InstallerFacts.

(** ** More about the version store *)

Lemma translate_newlines_CRLF (s r : string) :
  single_line s = true →
  translate_newlines (s +:+ String CR (String LF r))
  = s +:+ String LF (translate_newlines r).
Proof.
  intros Hs. now rewrite translate_newlines_line by assumption.
Qed.

(** Whatever the cache token, the text written by [save_local_version] for
    single-line [version] and [last_modified] starts with these two lines
    and the timestamp. *)
Lemma record_text_first_lines (version last_modified now : string)
    (etag : option string) :
  single_line version = true → single_line last_modified = true →
  single_line now = true → now ≠ "" →
  ∃ rest, splitlines (translate_newlines (record_text version last_modified now etag))
          = version :: last_modified :: now :: rest.
Proof.
  intros Hv Hm Hn Hne. unfold record_text. app_simpl.
  rewrite (translate_newlines_line version), translate_newlines_LF by assumption.
  rewrite (translate_newlines_line last_modified), translate_newlines_LF by assumption.
  rewrite (translate_newlines_line now) by assumption.
  rewrite (splitlines_line version), (splitlines_line last_modified) by assumption.
  destruct (truthy etag).
  - app_simpl. rewrite translate_newlines_LF, (splitlines_line now) by assumption.
    eauto.
  - simpl translate_newlines. rewrite append_empty_r, splitlines_single by assumption.
    eauto.
Qed.

Section VersionStoreFacts.

Variable fromisoformat : string -> option datetime.
Variable E : env.
Variable TLS_CLIENT_PATH : string.
Variable CURRENT_DEPENDENCY_FILENAME : string.

(** [read_local_version] never raises, and it returns [None] exactly when
    the record file is absent, cannot be read, or has fewer than three
    lines. *)
Theorem read_local_version_none_iff (w : world) :
  ∃ r, fst (read_local_version E TLS_CLIENT_PATH w) = Ok r
       ∧ (r = None ↔
          fs w !! LOCAL_VERSION_FILE TLS_CLIENT_PATH = None
          ∨ io_fault E ReadVersion = true
          ∨ ∃ text, fs w !! LOCAL_VERSION_FILE TLS_CLIENT_PATH = Some text
                    ∧ (length (splitlines (translate_newlines text)) < 3)%nat).
Proof.
  rewrite read_local_version_fst. eexists. split; [reflexivity|].
  unfold stored_record.
  destruct (fs w !! LOCAL_VERSION_FILE TLS_CLIENT_PATH) as [text|]; [|tauto].
  destruct (io_fault E ReadVersion); [tauto|]. cbv zeta.
  destruct (3 <=? length (splitlines (translate_newlines text)))%nat eqn:Hlen.
  - apply Nat.leb_le in Hlen. split; [discriminate|].
    intros [H | [H | (t & [= <-] & H)]]; try discriminate. lia.
  - apply Nat.leb_gt in Hlen. split; [|reflexivity]. intros _. right. right. eauto.
Qed.

(** A record file with CR LF line ends reads like one with LF line ends:
    three single-line fields separated and closed by CR LF give the record
    of these fields, without cache token. *)
Theorem read_local_version_crlf (version last_modified last_check : string)
    (w : world) :
  io_fault E ReadVersion = false →
  single_line version = true → single_line last_modified = true →
  single_line last_check = true →
  fs w !! LOCAL_VERSION_FILE TLS_CLIENT_PATH
  = Some (version +:+ String CR (String LF
           (last_modified +:+ String CR (String LF
             (last_check +:+ String CR (String LF "")))))) →
  ∃ d, fst (read_local_version E TLS_CLIENT_PATH w) = Ok (Some d)
       ∧ d !! "version" = Some (Some version)
       ∧ d !! "last_modified" = Some (Some last_modified)
       ∧ d !! "last_check" = Some (Some last_check)
       ∧ d !! "Etag" = Some None.
Proof.
  intros Hio Hv Hm Hc Hfile.
  rewrite read_local_version_fst. unfold stored_record. rewrite Hfile, Hio. cbv zeta.
  rewrite !translate_newlines_CRLF by assumption.
  rewrite !splitlines_line by assumption.
  change (translate_newlines "") with "". change (splitlines "") with (@nil string).
  eexists. split; [reflexivity|].
  rewrite record_of_lines_version, record_of_lines_last_check, record_of_lines_Etag.
  repeat split.
Qed.

(** [save_local_version] creates its directory before its [try]: when
    that fails, the [OSError] escapes, and nothing was read, written or
    printed.  When the directory is there and the record file cannot be
    opened for writing, the handler prints the error line and the function
    returns normally, with every file as it was. *)
Theorem save_local_version_write_failure (version last_modified : string)
    (etag : option string) (w : world) :
  (io_fault E MakeDirs = true →
   save_local_version E TLS_CLIENT_PATH version last_modified etag w
   = (Raise OSError, w))
  ∧ (io_fault E MakeDirs = false →
     io_fault E WriteVersion = true →
     ∃ w', save_local_version E TLS_CLIENT_PATH version last_modified etag w
           = (Ok tt, w')
           ∧ fs w' = fs w
           ∧ printed (trace w') = printed (trace w) ++ [MsgErrorSaving OSError]).
Proof.
  split.
  - intros Hdirs. unfold save_local_version.
    erewrite bind_Raise; [reflexivity | now apply os_makedirs_fault].
  - intros Hdirs Hio. unfold save_local_version.
    erewrite bind_Ok; [|now apply os_makedirs_ok].
    unfold_monad. msimpl. rewrite Hio. msimpl.
    eexists. split; [reflexivity|]. msimpl. split; [reflexivity|].
    unfold printed. now rewrite omap_app.
Qed.

(** The record is overwritten wholesale: when the record file can be
    written (its directory is there and it can be opened), after two writes
    the file system is what the second write alone would have produced at
    that clock reading. *)
Theorem save_local_version_twice (v1 m1 v2 m2 : string) (t1 t2 : option string)
    (w : world) :
  io_fault E MakeDirs = false →
  io_fault E WriteVersion = false →
  let w1 := (save_local_version E TLS_CLIENT_PATH v1 m1 t1 w).2 in
  let w2 := (save_local_version E TLS_CLIENT_PATH v2 m2 t2 w1).2 in
  fs w2 = <[LOCAL_VERSION_FILE TLS_CLIENT_PATH :=
              record_text v2 m2 (isoformat (utcnow E (S (clock w)))) t2]> (fs w).
Proof.
  intros Hdirs Hio w1 w2.
  destruct (save_local_version_run E TLS_CLIENT_PATH v1 m1 t1 w Hdirs)
    as (w1' & Hrun1 & Hck1 & _ & Hfs1).
  assert (Hw1 : w1 = w1') by (subst w1; now rewrite Hrun1).
  destruct (save_local_version_run E TLS_CLIENT_PATH v2 m2 t2 w1 Hdirs)
    as (w2' & Hrun2 & _ & _ & Hfs2).
  assert (Hw2 : w2 = w2') by (subst w2; now rewrite Hrun2).
  rewrite Hw2, Hfs2, Hio, Hw1, Hck1, Hfs1, Hio.
  apply insert_insert_eq.
Qed.

Lemma check_due_on_saved_record (version last_modified : string)
    (etag : option string) (t0 : datetime) (elapsed : Z) (w : world) :
  io_fault E ReadVersion = false →
  single_line version = true → single_line last_modified = true →
  fs w !! LOCAL_VERSION_FILE TLS_CLIENT_PATH
  = Some (record_text version last_modified (isoformat t0) etag) →
  fromisoformat (isoformat t0) = Some t0 →
  datetime_sub (utcnow E (clock w)) t0 = Ok elapsed →
  check_due fromisoformat (stored_record E TLS_CLIENT_PATH (fs w))
    (utcnow E (clock w)) = (CHECK_INTERVAL <? elapsed).
Proof.
  intros Hio Hv Hm Hfile Hparse Hsub.
  unfold stored_record. rewrite Hfile, Hio. cbv zeta.
  destruct (record_text_first_lines version last_modified (isoformat t0) etag)
    as (rest & ->); auto using single_line_isoformat, isoformat_nonempty.
  simpl length. simpl Nat.leb. cbv iota.
  unfold check_due. rewrite record_of_lines_last_check. simpl nth.
  now rewrite Hparse, Hsub.
Qed.

(** For a record written by [save_local_version] at the time [t0] (with
    single-line version and last-modified fields, and a parser that reads
    the text of [t0] back), [should_check_update] answers whether more than
    24 hours have elapsed since [t0]. *)
Theorem should_check_update_on_saved_record (version last_modified : string)
    (etag : option string) (t0 : datetime) (elapsed : Z) (w : world) :
  io_fault E ReadVersion = false →
  single_line version = true → single_line last_modified = true →
  fs w !! LOCAL_VERSION_FILE TLS_CLIENT_PATH
  = Some (record_text version last_modified (isoformat t0) etag) →
  fromisoformat (isoformat t0) = Some t0 →
  datetime_sub (utcnow E (clock w)) t0 = Ok elapsed →
  fst (should_check_update fromisoformat E TLS_CLIENT_PATH w)
  = Ok (CHECK_INTERVAL <? elapsed).
Proof.
  intros Hio Hv Hm Hfile Hparse Hsub.
  destruct (should_check_update_run fromisoformat E TLS_CLIENT_PATH w) as (w' & -> & _).
  simpl. f_equal. unfold stored_record. rewrite Hfile, Hio. cbv zeta.
  destruct (record_text_first_lines version last_modified (isoformat t0) etag)
    as (rest & ->); auto using single_line_isoformat, isoformat_nonempty.
  simpl length. simpl Nat.leb. cbv iota.
  unfold check_due. rewrite record_of_lines_last_check. simpl nth.
  now rewrite Hparse, Hsub.
Qed.

End VersionStoreFacts.

(** ** More about the release fetcher *)

Section FetcherFacts.

Variable fromisoformat : string -> option datetime.
Variable E : env.
Variable TLS_CLIENT_PATH : string.
Variable CURRENT_DEPENDENCY_FILENAME : string.

Lemma get_latest_release_request (w : world) :
  requests (trace (get_latest_release E TLS_CLIENT_PATH w).2)
  = requests (trace w)
    ++ [(GITHUB_API_URL,
         request_headers E (stored_record E TLS_CLIENT_PATH (fs w)), false)].
Proof.
  destruct (get_latest_release_run E TLS_CLIENT_PATH w) as (w' & Hrun & _ & _ & Hreq).
  cbv zeta in Hrun, Hreq. now rewrite Hrun.
Qed.

(** The request to the feed carries [Authorization: Bearer <token>] exactly
    when the environment variable holds a non-empty token; an unset or empty
    variable gives no such header. *)
Theorem get_latest_release_authorization (w : world) :
  ∃ headers,
    requests (trace (get_latest_release E TLS_CLIENT_PATH w).2)
    = requests (trace w) ++ [(GITHUB_API_URL, headers, false)]
    ∧ headers !! "Authorization"
      = match getenv_GITHUB_TOKEN E with
        | Some token =>
            if String.eqb token "" then None else Some (Some ("Bearer " +:+ token))
        | None => None
        end.
Proof.
  eexists. split; [apply get_latest_release_request|].
  unfold request_headers.
  assert (Hbase :
    (if truthy (getenv_GITHUB_TOKEN E)
     then ({[ "Authorization" := Some ("Bearer " +:+ default "" (getenv_GITHUB_TOKEN E)) ]}
           : gmap string (option string))
     else ∅) !! "Authorization"
    = match getenv_GITHUB_TOKEN E with
      | Some token =>
          if String.eqb token "" then None else Some (Some ("Bearer " +:+ token))
      | None => None
      end).
  { destruct (getenv_GITHUB_TOKEN E) as [token|]; simpl; [|apply lookup_empty].
    destruct (String.eqb token ""); simpl;
      [apply lookup_empty | apply lookup_singleton_eq]. }
  cbv zeta.
  destruct (stored_record E TLS_CLIENT_PATH (fs w)) as [d|]; [|exact Hbase].
  destruct (d !! "Etag") as [v|]; [|exact Hbase].
  destruct (dict_truthy (Some d)); [|exact Hbase].
  rewrite lookup_insert_ne by discriminate. exact Hbase.
Qed.

(** Without a stored record the request is unconditional: its headers have
    no ['If-None-Match'] entry. *)
Theorem get_latest_release_unconditional (w : world) :
  fst (read_local_version E TLS_CLIENT_PATH w) = Ok None →
  ∃ headers,
    requests (trace (get_latest_release E TLS_CLIENT_PATH w).2)
    = requests (trace w) ++ [(GITHUB_API_URL, headers, false)]
    ∧ headers !! "If-None-Match" = None.
Proof.
  rewrite read_local_version_fst. intros [= Hrec].
  eexists. split; [apply get_latest_release_request|].
  rewrite Hrec. unfold request_headers. cbv zeta.
  destruct (truthy (getenv_GITHUB_TOKEN E)); [|apply lookup_empty].
  apply lookup_singleton_ne. discriminate.
Qed.

(** With a stored cache token (a fourth line in the record file) the
    request is conditional on that token. *)
Theorem get_latest_release_sends_stored_token (w : world) (text : string) :
  fs w !! LOCAL_VERSION_FILE TLS_CLIENT_PATH = Some text →
  io_fault E ReadVersion = false →
  (4 <= length (splitlines (translate_newlines text)))%nat →
  ∃ headers,
    requests (trace (get_latest_release E TLS_CLIENT_PATH w).2)
    = requests (trace w) ++ [(GITHUB_API_URL, headers, false)]
    ∧ headers !! "If-None-Match"
      = Some (Some (nth 3 (splitlines (translate_newlines text)) "")).
Proof.
  intros Hfile Hio Hlen.
  eexists. split; [apply get_latest_release_request|].
  rewrite (stored_record_of_text E TLS_CLIENT_PATH _ text) by (auto; lia).
  unfold request_headers. rewrite record_of_lines_Etag. unfold dict_truthy.
  rewrite bool_decide_eq_false_2 by apply record_of_lines_nonempty.
  simpl negb. cbv iota zeta. rewrite lookup_insert_eq.
  apply Nat.leb_le in Hlen. now rewrite Hlen.
Qed.

Lemma request_fails_fetched (answer : option response) :
  request_fails answer → fetched answer = None.
Proof.
  unfold request_fails, fetched. destruct answer as [r|]; [|reflexivity].
  intros Hfail. rewrite Hfail. now destruct (status_code r =? 304).
Qed.

(** A request that fails, or is answered with a 4xx or 5xx status, makes
    the fetcher print its error line and return [None]; it does not raise,
    and [update_lib] (which gets to its fetch when its directory is there)
    then returns [True] without having changed any file or started a
    download. *)
Theorem update_lib_fetch_failure (force : bool) (w : world) :
  request_fails
    (http_get E GITHUB_API_URL
       (request_headers E (stored_record E TLS_CLIENT_PATH (fs w)))) →
  let fetch := get_latest_release E TLS_CLIENT_PATH w in
  fetch.1 = Ok None
  ∧ last (printed (trace fetch.2)) = Some (MsgErrorFetching RequestException)
  ∧ (io_fault E MakeDirs = false →
     ∃ w', update_lib fromisoformat E TLS_CLIENT_PATH CURRENT_DEPENDENCY_FILENAME
             force w = (Ok true, w')
           ∧ fs w' = fs w
           ∧ downloads (trace w') = downloads (trace w)).
Proof.
  intros Hfail fetch.
  assert (Hnone : fetched (http_get E GITHUB_API_URL
                    (request_headers E (stored_record E TLS_CLIENT_PATH (fs w)))) = None).
  { unfold request_fails in Hfail. unfold fetched.
    destruct (http_get E GITHUB_API_URL _) as [r|]; [|reflexivity].
    rewrite Hfail. now destruct (status_code r =? 304). }
  split; [|split].
  - subst fetch.
    destruct (get_latest_release_run E TLS_CLIENT_PATH w) as (w1 & Hrun & _).
    cbv zeta in Hrun. now rewrite Hrun, Hnone.
  - subst fetch. unfold get_latest_release.
    destruct (read_local_version_run E TLS_CLIENT_PATH w) as (w1 & Hr & _).
    unfold bind at 1. rewrite Hr.
    match goal with
    | |- context [session_get E GITHUB_API_URL ?h false] =>
        replace h with (request_headers E (stored_record E TLS_CLIENT_PATH (fs w)))
    end.
    2:{ unfold request_headers.
        destruct (truthy (getenv_GITHUB_TOKEN E)); reflexivity. }
    unfold request_fails in Hfail. unfold_monad. msimpl.
    destruct (http_get E GITHUB_API_URL _) as [r|]; msimpl.
    + destruct (status_code r =? 304) eqn:H304.
      { apply Z.eqb_eq in H304. rewrite H304 in Hfail. discriminate. }
      rewrite Hfail. msimpl. unfold printed. rewrite omap_app. apply last_snoc.
    + unfold printed. rewrite omap_app. apply last_snoc.
  - intros Hdirs. now apply update_lib_nothing_fetched.
Qed.

End FetcherFacts.

(** ** More about the orchestrator *)

Section MoreOrchestratorFacts.

Variable fromisoformat : string -> option datetime.
Variable E : env.
Variable TLS_CLIENT_PATH : string.
Variable CURRENT_DEPENDENCY_FILENAME : string.

Lemma update_lib_throttled_run (w : world) :
  fst (should_check_update fromisoformat E TLS_CLIENT_PATH w) = Ok false →
  ∃ w', update_lib fromisoformat E TLS_CLIENT_PATH CURRENT_DEPENDENCY_FILENAME false w
        = (Ok true, w')
        ∧ fs w' = fs w ∧ trace w' = trace w.
Proof.
  destruct (should_check_update_run fromisoformat E TLS_CLIENT_PATH w)
    as (w' & Hrun & Hfs & _ & _ & Htrace).
  rewrite Hrun. simpl. intros [= Hdue].
  exists w'. unfold update_lib. unfold bind at 1. unfold bind at 1.
  rewrite Hrun, Hdue. unfold_monad. simpl. auto.
Qed.

(** Whether the throttle lets a run through. *)
Lemma update_lib_throttle_cases (force : bool) (w : world) :
  (force = false
   ∧ fst (should_check_update fromisoformat E TLS_CLIENT_PATH w) = Ok false)
  ∨ (if force then true
     else check_due fromisoformat (stored_record E TLS_CLIENT_PATH (fs w))
            (utcnow E (clock w))) = true.
Proof.
  destruct force; [now right|].
  rewrite should_check_update_fst.
  destruct (check_due fromisoformat _ _); [now right | now left].
Qed.

(** A run that is let through and cannot create its directory raises
    before it has sent anything. *)
Lemma update_lib_no_directory (force : bool) (w : world) :
  (if force then true
   else check_due fromisoformat (stored_record E TLS_CLIENT_PATH (fs w))
          (utcnow E (clock w))) = true →
  io_fault E MakeDirs = true →
  ∃ w', update_lib fromisoformat E TLS_CLIENT_PATH CURRENT_DEPENDENCY_FILENAME force w
        = (Raise OSError, w')
        ∧ fs w' = fs w
        ∧ requests (trace w') = requests (trace w).
Proof.
  intros Hdue Hdirs. unfold update_lib.
  destruct (throttle_run fromisoformat E TLS_CLIENT_PATH force w)
    as (w1 & Hthr & Hfs1 & _ & Hreq1).
  erewrite bind_Ok; [|exact Hthr].
  replace (if force then false
           else negb (check_due fromisoformat (stored_record E TLS_CLIENT_PATH (fs w))
                        (utcnow E (clock w))))
    with false by (destruct force; [reflexivity | now rewrite Hdue]).
  erewrite bind_Raise; [|now apply os_makedirs_fault].
  exists w1. auto.
Qed.

(** A run that is let through and fetches nothing has sent its one
    request. *)
Lemma update_lib_nothing_fetched_requests (force : bool) (w : world) :
  io_fault E MakeDirs = false →
  (if force then true
   else check_due fromisoformat (stored_record E TLS_CLIENT_PATH (fs w))
          (utcnow E (clock w))) = true →
  fetched (http_get E GITHUB_API_URL
             (request_headers E (stored_record E TLS_CLIENT_PATH (fs w)))) = None →
  ∃ w', update_lib fromisoformat E TLS_CLIENT_PATH CURRENT_DEPENDENCY_FILENAME force w
        = (Ok true, w')
        ∧ fs w' = fs w
        ∧ requests (trace w')
          = requests (trace w)
            ++ [(GITHUB_API_URL,
                 request_headers E (stored_record E TLS_CLIENT_PATH (fs w)), false)].
Proof.
  intros Hdirs Hdue Hnone. unfold update_lib.
  destruct (throttle_run fromisoformat E TLS_CLIENT_PATH force w)
    as (w1 & Hthr & Hfs1 & _ & Hreq1).
  erewrite bind_Ok; [|exact Hthr].
  replace (if force then false
           else negb (check_due fromisoformat (stored_record E TLS_CLIENT_PATH (fs w))
                        (utcnow E (clock w))))
    with false by (destruct force; [reflexivity | now rewrite Hdue]).
  erewrite bind_Ok; [|now apply os_makedirs_ok].
  destruct (get_latest_release_run E TLS_CLIENT_PATH w1) as (w2 & Hget & Hfs2 & _ & Hreq2).
  cbv zeta in Hget, Hreq2. rewrite Hfs1 in Hget, Hreq2. rewrite Hnone in Hget.
  erewrite bind_Ok; [|exact Hget]. rewrite Hreq1 in Hreq2.
  destruct force.
  - rewrite bind_print. eexists. split; [reflexivity|]. simpl.
    split; [congruence|]. now rewrite requests_log_print.
  - exists w2. split; [reflexivity|]. split; [congruence | assumption].
Qed.

(** A run that fetched a release stands before its version test, having
    sent its one request. *)
Lemma update_lib_fetched_requests (force : bool) (w : world) (rel : release)
    (etag : option string) :
  io_fault E MakeDirs = false →
  (if force then true
   else check_due fromisoformat (stored_record E TLS_CLIENT_PATH (fs w))
          (utcnow E (clock w))) = true →
  fetched (http_get E GITHUB_API_URL
             (request_headers E (stored_record E TLS_CLIENT_PATH (fs w))))
  = Some (rel, etag) →
  ∃ n w3,
    (clock w <= n)%nat ∧ clock w3 = S n ∧ fs w3 = fs w
    ∧ requests (trace w3)
      = requests (trace w)
        ++ [(GITHUB_API_URL,
             request_headers E (stored_record E TLS_CLIENT_PATH (fs w)), false)]
    ∧ let last_modified := default (isoformat (utcnow E n)) (published_at rel) in
      update_lib fromisoformat E TLS_CLIENT_PATH CURRENT_DEPENDENCY_FILENAME force w
      = (if negb force && dict_truthy (stored_record E TLS_CLIENT_PATH (fs w))
            && bool_decide (Some (tag_name rel)
                            = default None (d ← stored_record E TLS_CLIENT_PATH (fs w);
                                            d !! "version"))
         then save_local_version E TLS_CLIENT_PATH (tag_name rel) last_modified etag ;;
              ret true
         else print (MsgNewVersion (tag_name rel)) ;;
              update_lib_assets E TLS_CLIENT_PATH CURRENT_DEPENDENCY_FILENAME
                (tag_name rel) last_modified etag (assets rel) (assets rel)) w3.
Proof.
  intros Hdirs Hdue Hfetched. unfold update_lib.
  destruct (throttle_run fromisoformat E TLS_CLIENT_PATH force w)
    as (w1 & Hthr & Hfs1 & Hck1 & Hreq1).
  erewrite bind_Ok; [|exact Hthr].
  replace (if force then false
           else negb (check_due fromisoformat (stored_record E TLS_CLIENT_PATH (fs w))
                        (utcnow E (clock w))))
    with false by (destruct force; [reflexivity | now rewrite Hdue]).
  erewrite bind_Ok; [|now apply os_makedirs_ok].
  destruct (get_latest_release_run E TLS_CLIENT_PATH w1) as (w2 & Hget & Hfs2 & Hck2 & Hreq2).
  cbv zeta in Hget, Hreq2. rewrite Hfs1 in Hget, Hreq2. rewrite Hfetched in Hget.
  erewrite bind_Ok; [|exact Hget]. cbv beta iota zeta.
  erewrite bind_Ok; [|reflexivity].
  destruct (read_local_version_run E TLS_CLIENT_PATH (tick w2))
    as (w3 & Hread & Hfs3 & Hck3 & Hreq3 & _).
  simpl in Hfs3, Hck3, Hreq3. rewrite Hfs2, Hfs1 in Hfs3.
  change (fs (tick w2)) with (fs w2) in Hread. rewrite Hfs2, Hfs1 in Hread.
  erewrite bind_Ok; [|exact Hread].
  exists (clock w2), w3. split; [lia|]. split; [assumption|]. split; [assumption|].
  split; [|reflexivity]. now rewrite Hreq3, Hreq2, Hreq1.
Qed.

(** The directory of the binaries is created outside every [try]: when a
    run gets past the throttle (it is forced, or a check is due) and
    [os.makedirs] fails, [update_lib] raises that [OSError]; no request has
    been sent and no file has changed. *)
Theorem update_lib_makedirs_failure (force : bool) (w : world) :
  (force = true
   ∨ fst (should_check_update fromisoformat E TLS_CLIENT_PATH w) = Ok true) →
  io_fault E MakeDirs = true →
  ∃ w', update_lib fromisoformat E TLS_CLIENT_PATH CURRENT_DEPENDENCY_FILENAME force w
        = (Raise OSError, w')
        ∧ fs w' = fs w
        ∧ requests (trace w') = requests (trace w).
Proof.
  intros Hdue Hdirs. rewrite should_check_update_fst in Hdue.
  apply update_lib_no_directory; [|exact Hdirs].
  destruct force; [reflexivity|]. destruct Hdue as [|[= ->]]; congruence.
Qed.

(** A run sends at most two requests: nothing, or the request to the feed,
    or that request followed by one streamed download. *)
Theorem update_lib_at_most_two_requests (force : bool) (w : world) :
  let api := (GITHUB_API_URL,
              request_headers E (stored_record E TLS_CLIENT_PATH (fs w)), false) in
  ∃ l, requests (trace (update_lib fromisoformat E TLS_CLIENT_PATH
                          CURRENT_DEPENDENCY_FILENAME force w).2)
       = requests (trace w) ++ l
       ∧ (l = [] ∨ l = [api] ∨ ∃ url, l = [api; (url, ∅, true)]).
Proof.
  intros api.
  destruct (update_lib_throttle_cases force w) as [[-> Hthr] | Hdue].
  { destruct (update_lib_throttled_run w Hthr) as (w' & Hrun & _ & Htrace).
    exists []. rewrite Hrun. simpl. rewrite Htrace, app_nil_r. auto. }
  destruct (io_fault E MakeDirs) eqn:Hdirs.
  { destruct (update_lib_no_directory force w Hdue Hdirs) as (w' & Hrun & _ & Hreq).
    exists []. rewrite Hrun. simpl. rewrite Hreq, app_nil_r. auto. }
  destruct (fetched (http_get E GITHUB_API_URL
              (request_headers E (stored_record E TLS_CLIENT_PATH (fs w)))))
    as [[rel etag]|] eqn:Hfetched.
  - destruct (update_lib_fetched_requests force w rel etag Hdirs Hdue Hfetched)
      as (n & w3 & _ & _ & _ & Hreq3 & Hrun).
    cbv zeta in Hrun. rewrite Hrun. fold api in Hreq3.
    match goal with |- context [if ?b then _ else _] => destruct b end.
    + destruct (save_local_version_run E TLS_CLIENT_PATH (tag_name rel)
                  (default (isoformat (utcnow E n)) (published_at rel)) etag w3 Hdirs)
        as (w4 & Hsave & _ & Hreq4 & _).
      erewrite bind_Ok; [|exact Hsave]. exists [api]. simpl.
      rewrite Hreq4, Hreq3. auto.
    + rewrite bind_print.
      pose proof (update_lib_assets_run E TLS_CLIENT_PATH CURRENT_DEPENDENCY_FILENAME
                    (tag_name rel)
                    (default (isoformat (utcnow E n)) (published_at rel)) etag
                    (assets rel) (assets rel)
                    (log (EvPrint (MsgNewVersion (tag_name rel))) w3)) as Hloop.
      cbv zeta in Hloop.
      destruct (List.find _ (assets rel)) as [a|].
      * exists [api; (browser_download_url a, ∅, true)].
        rewrite Hloop. simpl. rewrite requests_log_print, Hreq3.
        rewrite <- app_assoc. eauto.
      * exists [api]. rewrite Hloop. simpl.
        rewrite !requests_log_print, Hreq3. auto.
  - destruct (update_lib_nothing_fetched_requests force w Hdirs Hdue Hfetched)
      as (w' & Hrun & _ & Hreq).
    exists [api]. rewrite Hrun. simpl. auto.
Qed.

(** A forced run is never throttled: whatever the stored record says, once
    its directory is there its first request goes to the feed. *)
Theorem update_lib_force_sends_request (w : world) :
  io_fault E MakeDirs = false →
  ∃ l, requests (trace (update_lib fromisoformat E TLS_CLIENT_PATH
                          CURRENT_DEPENDENCY_FILENAME true w).2)
       = requests (trace w)
         ++ (GITHUB_API_URL,
             request_headers E (stored_record E TLS_CLIENT_PATH (fs w)), false) :: l.
Proof.
  intros Hdirs.
  destruct (fetched (http_get E GITHUB_API_URL
              (request_headers E (stored_record E TLS_CLIENT_PATH (fs w)))))
    as [[rel etag]|] eqn:Hfetched.
  - destruct (update_lib_fetched_requests true w rel etag Hdirs eq_refl Hfetched)
      as (n & w3 & _ & _ & _ & Hreq3 & Hrun).
    cbv zeta in Hrun. rewrite Hrun. cbn [negb andb]. rewrite bind_print.
    pose proof (update_lib_assets_run E TLS_CLIENT_PATH CURRENT_DEPENDENCY_FILENAME
                  (tag_name rel)
                  (default (isoformat (utcnow E n)) (published_at rel)) etag
                  (assets rel) (assets rel)
                  (log (EvPrint (MsgNewVersion (tag_name rel))) w3)) as Hloop.
    cbv zeta in Hloop.
    destruct (List.find _ (assets rel)) as [a|].
    + exists [(browser_download_url a, ∅, true)].
      rewrite Hloop. simpl. rewrite requests_log_print, Hreq3.
      now rewrite <- app_assoc.
    + exists []. rewrite Hloop. simpl. now rewrite !requests_log_print, Hreq3.
  - destruct (update_lib_nothing_fetched_requests true w Hdirs eq_refl Hfetched)
      as (w' & Hrun & _ & Hreq).
    exists []. now rewrite Hrun.
Qed.

Ltac touches_cases :=
  repeat (touches; cbv beta;
          try match goal with
              | |- touches_only _ (match ?x with _ => _ end) => destruct x
              end).

Lemma touches_read_local_version paths :
  touches_only paths (read_local_version E TLS_CLIENT_PATH).
Proof. unfold read_local_version. touches_cases. Qed.

Lemma touches_save_local_version paths version last_modified etag :
  LOCAL_VERSION_FILE TLS_CLIENT_PATH ∈ paths →
  touches_only paths
    (save_local_version E TLS_CLIENT_PATH version last_modified etag).
Proof. intros Hin. unfold save_local_version. touches_cases. Qed.

Lemma touches_should_check_update paths :
  touches_only paths (should_check_update fromisoformat E TLS_CLIENT_PATH).
Proof.
  unfold should_check_update.
  apply touches_bind; [apply touches_read_local_version|]. touches_cases.
Qed.

Lemma touches_get_latest_release paths :
  touches_only paths (get_latest_release E TLS_CLIENT_PATH).
Proof.
  unfold get_latest_release. cbv zeta.
  apply touches_bind; [apply touches_read_local_version|]. touches_cases.
Qed.

Lemma touches_update_lib_assets paths latest_version last_modified etag
    all_assets remaining :
  let dest := os_path_join (DEPENDENCIES_DIR TLS_CLIENT_PATH)
                CURRENT_DEPENDENCY_FILENAME in
  LOCAL_VERSION_FILE TLS_CLIENT_PATH ∈ paths →
  dest ∈ paths → dest +:+ ".tmp" ∈ paths → dest +:+ ".backup" ∈ paths →
  touches_only paths
    (update_lib_assets E TLS_CLIENT_PATH CURRENT_DEPENDENCY_FILENAME
       latest_version last_modified etag all_assets remaining).
Proof.
  intros dest Hv Hd Ht Hb.
  induction remaining as [|a rest IH]; cbn [update_lib_assets]; cbv zeta.
  - touches.
  - apply touches_if; [|exact IH].
    apply touches_bind; [apply touches_print|intros _].
    apply touches_bind.
    + apply (touches_mono [dest; dest +:+ ".tmp"; dest +:+ ".backup"]);
        [|apply download_file_touches].
      intros q Hq. apply list_elem_of_In in Hq. simpl in Hq.
      destruct Hq as [<- | [<- | [<- | []]]]; assumption.
    + intros [|]; touches_cases.
Qed.

(** A run changes no file but the record file, the destination binary and
    the installer's two temporary siblings of the destination. *)
Theorem update_lib_frame (force : bool) (w : world) (q : string) :
  let dest := os_path_join (DEPENDENCIES_DIR TLS_CLIENT_PATH)
                CURRENT_DEPENDENCY_FILENAME in
  q ≠ LOCAL_VERSION_FILE TLS_CLIENT_PATH →
  q ≠ dest → q ≠ dest +:+ ".tmp" → q ≠ dest +:+ ".backup" →
  fs (update_lib fromisoformat E TLS_CLIENT_PATH CURRENT_DEPENDENCY_FILENAME
        force w).2 !! q = fs w !! q.
Proof.
  intros dest H1 H2 H3 H4.
  set (paths := [LOCAL_VERSION_FILE TLS_CLIENT_PATH; dest; dest +:+ ".tmp";
                 dest +:+ ".backup"]).
  assert (H : touches_only paths
                (update_lib fromisoformat E TLS_CLIENT_PATH
                   CURRENT_DEPENDENCY_FILENAME force)).
  { unfold update_lib.
    apply touches_bind.
    { apply touches_if; [apply touches_ret|].
      apply touches_bind; [apply touches_should_check_update | intro; apply touches_ret]. }
    intros throttled. apply touches_if; [apply touches_ret|].
    apply touches_bind; [apply touches_os_makedirs | intros _].
    apply touches_bind; [apply touches_get_latest_release|].
    intros [[rel etag]|]; [|touches].
    apply touches_bind; [apply touches_datetime_now | intros now].
    apply touches_bind; [apply touches_read_local_version | intros info].
    apply touches_if.
    - apply touches_bind; [|intro; apply touches_ret].
      apply touches_save_local_version. subst paths. set_unfold. tauto.
    - apply touches_bind; [apply touches_print | intros _].
      apply touches_update_lib_assets; subst paths dest; set_unfold; tauto. }
  apply H. subst paths. set_unfold. tauto.
Qed.

(** The asset loop returns [False] only without having written the
    record. *)
Lemma update_lib_assets_false_keeps_record (latest_version last_modified : string)
    (etag : option string) (all_assets remaining : list asset) (w w' : world) :
  let dest := os_path_join (DEPENDENCIES_DIR TLS_CLIENT_PATH)
                CURRENT_DEPENDENCY_FILENAME in
  LOCAL_VERSION_FILE TLS_CLIENT_PATH ≠ dest →
  LOCAL_VERSION_FILE TLS_CLIENT_PATH ≠ dest +:+ ".tmp" →
  LOCAL_VERSION_FILE TLS_CLIENT_PATH ≠ dest +:+ ".backup" →
  update_lib_assets E TLS_CLIENT_PATH CURRENT_DEPENDENCY_FILENAME
    latest_version last_modified etag all_assets remaining w = (Ok false, w') →
  fs w' !! LOCAL_VERSION_FILE TLS_CLIENT_PATH
  = fs w !! LOCAL_VERSION_FILE TLS_CLIENT_PATH.
Proof.
  intros dest H1 H2 H3.
  induction remaining as [|a rest IH]; cbn [update_lib_assets]; cbv zeta.
  - intros [= <-]. reflexivity.
  - destruct (startswith (name a) (rsplit_dot_head CURRENT_DEPENDENCY_FILENAME));
      [|exact IH].
    rewrite bind_print. fold dest.
    set (w1 := log (EvPrint (MsgDownloading CURRENT_DEPENDENCY_FILENAME
                               (browser_download_url a))) w).
    assert (Hframe : fs (download_file E (browser_download_url a) dest w1).2
                     !! LOCAL_VERSION_FILE TLS_CLIENT_PATH
                     = fs w1 !! LOCAL_VERSION_FILE TLS_CLIENT_PATH).
    { apply download_file_touches. set_unfold. tauto. }
    unfold bind at 1.
    destruct (download_file E (browser_download_url a) dest w1) as [[[|]|e] w2];
      simpl in Hframe.
    + rewrite bind_print. unfold bind at 1.
      destruct (save_local_version E TLS_CLIENT_PATH latest_version last_modified etag _)
        as [[[]|e] w3]; [rewrite bind_print|]; discriminate.
    + rewrite bind_print. intros [= <-]. exact Hframe.
    + discriminate.
Qed.

(** Whenever [update_lib] returns [False] (no matching asset, or a failed
    download) the record file is as it was before the run, so that the next
    run meets the same stored version and the same last check. *)
Theorem update_lib_false_keeps_record (force : bool) (w w' : world) :
  let dest := os_path_join (DEPENDENCIES_DIR TLS_CLIENT_PATH)
                CURRENT_DEPENDENCY_FILENAME in
  LOCAL_VERSION_FILE TLS_CLIENT_PATH ≠ dest →
  LOCAL_VERSION_FILE TLS_CLIENT_PATH ≠ dest +:+ ".tmp" →
  LOCAL_VERSION_FILE TLS_CLIENT_PATH ≠ dest +:+ ".backup" →
  update_lib fromisoformat E TLS_CLIENT_PATH CURRENT_DEPENDENCY_FILENAME force w
  = (Ok false, w') →
  fs w' !! LOCAL_VERSION_FILE TLS_CLIENT_PATH
  = fs w !! LOCAL_VERSION_FILE TLS_CLIENT_PATH.
Proof.
  intros dest H1 H2 H3.
  destruct (update_lib_throttle_cases force w) as [[-> Hthr] | Hdue].
  { destruct (update_lib_throttled_run w Hthr) as (w1 & Hrun & _).
    rewrite Hrun. discriminate. }
  destruct (io_fault E MakeDirs) eqn:Hdirs.
  { destruct (update_lib_no_directory force w Hdue Hdirs) as (w1 & Hrun & _).
    rewrite Hrun. discriminate. }
  destruct (fetched (http_get E GITHUB_API_URL
              (request_headers E (stored_record E TLS_CLIENT_PATH (fs w)))))
    as [[rel etag]|] eqn:Hfetched.
  - destruct (update_lib_fetched_requests force w rel etag Hdirs Hdue Hfetched)
      as (n & w3 & _ & _ & Hfs3 & _ & Hrun).
    cbv zeta in Hrun. rewrite Hrun.
    match goal with |- context [if ?b then _ else _] => destruct b end.
    + destruct (save_local_version_run E TLS_CLIENT_PATH (tag_name rel)
                  (default (isoformat (utcnow E n)) (published_at rel)) etag w3 Hdirs)
        as (w4 & Hsave & _).
      erewrite bind_Ok; [|exact Hsave]. discriminate.
    + rewrite bind_print. intros Hloop.
      apply update_lib_assets_false_keeps_record in Hloop; try assumption.
      rewrite Hloop. simpl. now rewrite Hfs3.
  - destruct (update_lib_nothing_fetched_requests force w Hdirs Hdue Hfetched)
      as (w1 & Hrun & _).
    rewrite Hrun. discriminate.
Qed.

(** The asset loop on a list with a matching asset whose download goes
    through. *)
Lemma update_lib_assets_installs (latest_version last_modified : string)
    (etag : option string) (all_assets remaining : list asset) (a : asset)
    (dl : response) (w : world) :
  let dest := os_path_join (DEPENDENCIES_DIR TLS_CLIENT_PATH)
                CURRENT_DEPENDENCY_FILENAME in
  List.find (fun a => startswith (name a)
                        (rsplit_dot_head CURRENT_DEPENDENCY_FILENAME)) remaining
  = Some a →
  http_get E (browser_download_url a) ∅ = Some dl →
  (400 <=? status_code dl) && (status_code dl <? 600) = false →
  content_error dl = false →
  (∀ site, io_fault E site = false) →
  LOCAL_VERSION_FILE TLS_CLIENT_PATH ≠ dest →
  ∃ w', update_lib_assets E TLS_CLIENT_PATH CURRENT_DEPENDENCY_FILENAME
          latest_version last_modified etag all_assets remaining w = (Ok true, w')
        ∧ fs w' !! dest = Some (concat_chunks (content_chunks dl))
        ∧ fs w' !! LOCAL_VERSION_FILE TLS_CLIENT_PATH
          = Some (record_text latest_version last_modified
                    (isoformat (utcnow E (clock w))) etag).
Proof.
  intros dest Hfind Hget Hstatus Hwhole Hio Hne.
  induction remaining as [|a' rest IH]; [discriminate|].
  cbn [List.find update_lib_assets] in *. cbv zeta.
  destruct (startswith (name a') (rsplit_dot_head CURRENT_DEPENDENCY_FILENAME));
    [|now apply IH].
  injection Hfind as ->. rewrite bind_print. fold dest.
  set (w1 := log (EvPrint (MsgDownloading CURRENT_DEPENDENCY_FILENAME
                             (browser_download_url a))) w).
  destruct (download_file_installs_run E (browser_download_url a) dest dl w1
              Hget Hstatus Hwhole Hio) as (w2 & Hdl & Hdest & _).
  pose proof (download_file_requests E (browser_download_url a) dest w1) as [_ Hck].
  rewrite Hdl in Hck. simpl in Hck.
  erewrite bind_Ok; [|exact Hdl]. cbv beta iota. rewrite bind_print.
  destruct (save_local_version_run E TLS_CLIENT_PATH latest_version last_modified
              etag (log (EvPrint (MsgDownloaded CURRENT_DEPENDENCY_FILENAME)) w2)
              (Hio MakeDirs))
    as (w3 & Hsave & _ & _ & Hfs3).
  rewrite (Hio WriteVersion) in Hfs3. simpl in Hfs3. rewrite Hck in Hfs3.
  erewrite bind_Ok; [|exact Hsave]. rewrite bind_print.
  eexists. split; [reflexivity|]. simpl. rewrite Hfs3. split.
  - rewrite lookup_insert_ne by exact Hne. exact Hdest.
  - apply lookup_insert_eq.
Qed.

(** A complete update: when an update is attempted, an asset matches, its
    download arrives whole and no file operation fails, [update_lib] returns
    [True]; the destination binary then holds the downloaded body and the
    record file holds the new version, the publication time, the time of the
    write and the cache token of the feed's answer. *)
Theorem update_lib_installs (force : bool) (w : world) (resp dl : response)
    (a : asset) :
  let dest := os_path_join (DEPENDENCIES_DIR TLS_CLIENT_PATH)
                CURRENT_DEPENDENCY_FILENAME in
  (force = true
   ∨ fst (should_check_update fromisoformat E TLS_CLIENT_PATH w) = Ok true) →
  http_get E GITHUB_API_URL
    (request_headers E (stored_record E TLS_CLIENT_PATH (fs w))) = Some resp →
  status_code resp ≠ 304 →
  (400 <=? status_code resp) && (status_code resp <? 600) = false →
  (force = true
   ∨ ∀ d, fst (read_local_version E TLS_CLIENT_PATH w) = Ok (Some d) →
          d !! "version" ≠ Some (Some (tag_name (json resp)))) →
  List.find (fun a => startswith (name a)
                        (rsplit_dot_head CURRENT_DEPENDENCY_FILENAME))
    (assets (json resp)) = Some a →
  http_get E (browser_download_url a) ∅ = Some dl →
  (400 <=? status_code dl) && (status_code dl <? 600) = false →
  content_error dl = false →
  (∀ site, io_fault E site = false) →
  LOCAL_VERSION_FILE TLS_CLIENT_PATH ≠ dest →
  ∃ n w',
    update_lib fromisoformat E TLS_CLIENT_PATH CURRENT_DEPENDENCY_FILENAME force w
    = (Ok true, w')
    ∧ (clock w <= n)%nat
    ∧ fs w' !! dest = Some (concat_chunks (content_chunks dl))
    ∧ fs w' !! LOCAL_VERSION_FILE TLS_CLIENT_PATH
      = Some (record_text (tag_name (json resp))
                (default (isoformat (utcnow E n)) (published_at (json resp)))
                (isoformat (utcnow E (S n))) (header_Etag resp)).
Proof.
  intros dest Hdue Hget H304 Herr Hattempt Hfind Hgetdl Hstatus Hwhole Hio Hne.
  rewrite should_check_update_fst in Hdue.
  rewrite read_local_version_fst in Hattempt.
  assert (Hassets : assets (json resp) ≠ []).
  { intros Hnil. rewrite Hnil in Hfind. discriminate. }
  destruct (update_lib_fetched_requests force w (json resp) (header_Etag resp))
    as (n & w3 & Hn & Hck3 & Hfs3 & _ & Hrun).
  { exact (Hio MakeDirs). }
  { destruct force; [reflexivity|]. destruct Hdue as [|[= ->]]; congruence. }
  { rewrite Hget. now apply fetched_release. }
  cbv zeta in Hrun. rewrite Hrun. clear Hrun.
  assert (Htest : negb force && dict_truthy (stored_record E TLS_CLIENT_PATH (fs w))
            && bool_decide (Some (tag_name (json resp))
                            = default None (d0 ← stored_record E TLS_CLIENT_PATH (fs w);
                                            d0 !! "version"))
            = false).
  { destruct Hattempt as [-> | Hdiff]; [reflexivity|].
    destruct (stored_record E TLS_CLIENT_PATH (fs w)) as [d|];
      [|now rewrite andb_false_r].
    specialize (Hdiff d eq_refl). apply andb_false_iff. right.
    apply bool_decide_eq_false_2. simpl.
    destruct (d !! "version") as [[v|]|]; simpl; congruence. }
  rewrite Htest. rewrite bind_print.
  destruct (update_lib_assets_installs (tag_name (json resp))
              (default (isoformat (utcnow E n)) (published_at (json resp)))
              (header_Etag resp) (assets (json resp)) (assets (json resp)) a dl
              (log (EvPrint (MsgNewVersion (tag_name (json resp)))) w3)
              Hfind Hgetdl Hstatus Hwhole Hio Hne)
    as (w' & Hrun & Hdest & Hrecord).
  simpl in Hrecord. rewrite Hck3 in Hrecord.
  exists n, w'. auto.
Qed.

(** The script's exit status is 0 when the feed cannot be reached or
    answers with an error status (the run having got to its fetch): a
    failed check is not a failed run. *)
Theorem main_exit_status_fetch_failure (force : bool) (w : world) :
  request_fails
    (http_get E GITHUB_API_URL
       (request_headers E (stored_record E TLS_CLIENT_PATH (fs w)))) →
  io_fault E MakeDirs = false →
  (main fromisoformat E TLS_CLIENT_PATH CURRENT_DEPENDENCY_FILENAME force w).1 = 0.
Proof.
  intros Hfail%request_fails_fetched Hdirs.
  destruct (update_lib_nothing_fetched fromisoformat E TLS_CLIENT_PATH
              CURRENT_DEPENDENCY_FILENAME force w Hdirs Hfail) as (w' & Hrun & _).
  unfold main. now rewrite Hrun.
Qed.

(** The script's exit status is 1 when an update is attempted (the run got
    to its fetch) and the release has no asset for this platform. *)
Theorem main_exit_status_no_matching_asset (force : bool) (w : world)
    (resp : response) :
  (force = true
   ∨ fst (should_check_update fromisoformat E TLS_CLIENT_PATH w) = Ok true) →
  http_get E GITHUB_API_URL
    (request_headers E (stored_record E TLS_CLIENT_PATH (fs w))) = Some resp →
  status_code resp ≠ 304 →
  (400 <=? status_code resp) && (status_code resp <? 600) = false →
  assets (json resp) ≠ [] →
  (force = true
   ∨ ∀ d, fst (read_local_version E TLS_CLIENT_PATH w) = Ok (Some d) →
          d !! "version" ≠ Some (Some (tag_name (json resp)))) →
  List.find (fun a => startswith (name a)
                        (rsplit_dot_head CURRENT_DEPENDENCY_FILENAME))
    (assets (json resp)) = None →
  io_fault E MakeDirs = false →
  (main fromisoformat E TLS_CLIENT_PATH CURRENT_DEPENDENCY_FILENAME force w).1 = 1.
Proof.
  intros Hdue Hget H304 Herr Hassets Hattempt Hfind Hdirs.
  rewrite should_check_update_fst in Hdue.
  rewrite read_local_version_fst in Hattempt.
  destruct (update_lib_fetched_requests force w (json resp) (header_Etag resp))
    as (n & w3 & _ & _ & _ & _ & Hrun).
  { exact Hdirs. }
  { destruct force; [reflexivity|]. destruct Hdue as [|[= ->]]; congruence. }
  { rewrite Hget. now apply fetched_release. }
  cbv zeta in Hrun. unfold main. rewrite Hrun. clear Hrun.
  assert (Htest : negb force && dict_truthy (stored_record E TLS_CLIENT_PATH (fs w))
            && bool_decide (Some (tag_name (json resp))
                            = default None (d0 ← stored_record E TLS_CLIENT_PATH (fs w);
                                            d0 !! "version"))
            = false).
  { destruct Hattempt as [-> | Hdiff]; [reflexivity|].
    destruct (stored_record E TLS_CLIENT_PATH (fs w)) as [d|];
      [|now rewrite andb_false_r].
    specialize (Hdiff d eq_refl). apply andb_false_iff. right.
    apply bool_decide_eq_false_2. simpl.
    destruct (d !! "version") as [[v|]|]; simpl; congruence. }
  rewrite Htest, bind_print.
  pose proof (update_lib_assets_run E TLS_CLIENT_PATH CURRENT_DEPENDENCY_FILENAME
                (tag_name (json resp))
                (default (isoformat (utcnow E n)) (published_at (json resp)))
                (header_Etag resp) (assets (json resp)) (assets (json resp))
                (log (EvPrint (MsgNewVersion (tag_name (json resp)))) w3)) as Hloop.
  cbv zeta in Hloop. rewrite Hfind in Hloop. now rewrite Hloop.
Qed.

End MoreOrchestratorFacts.

(** ** The resolved file name and the record file *)

Lemma get_dependency_filename_range (platform_system platform_machine name : string) :
  get_dependency_filename platform_system platform_machine = Ok name →
  name ∈ ["tls-client-windows-amd64.dll"; "tls-client-windows-386.dll";
          "tls-client-linux-amd64.so"; "tls-client-linux-arm64.so";
          "tls-client-darwin-arm64.dylib"; "tls-client-darwin-amd64.dylib"].
Proof.
  unfold get_dependency_filename.
  repeat match goal with
         | |- context [if ?b then _ else _] => destruct b
         end;
    intros [= <-]; set_unfold; tauto.
Qed.

(** For every file name the resolver returns, the destination binary and
    the installer's temporary and backup files are all different from the
    record file, so that installing never overwrites the record. *)
Theorem resolved_paths_apart (platform_system platform_machine name : string)
    (TLS_CLIENT_PATH : string) :
  get_dependency_filename platform_system platform_machine = Ok name →
  let dest := os_path_join (DEPENDENCIES_DIR TLS_CLIENT_PATH) name in
  LOCAL_VERSION_FILE TLS_CLIENT_PATH ≠ dest
  ∧ LOCAL_VERSION_FILE TLS_CLIENT_PATH ≠ dest +:+ ".tmp"
  ∧ LOCAL_VERSION_FILE TLS_CLIENT_PATH ≠ dest +:+ ".backup".
Proof.
  intros Hname%get_dependency_filename_range. cbv zeta.
  unfold LOCAL_VERSION_FILE. generalize (DEPENDENCIES_DIR TLS_CLIENT_PATH) as dir.
  intros dir. unfold os_path_join.
  set_unfold.
  repeat match goal with
         | H : _ ∨ _ |- _ => destruct H as [-> | H]
         | H : False |- _ => destruct H
         end;
    change (startswith "version.txt" "/") with false;
    match goal with
    | |- context [startswith ?n "/"] => change (startswith n "/") with false
    end;
    cbv iota;
    destruct (String.eqb dir "" || endswith_char dir "/");
    rewrite ?append_assoc;
    repeat split; intros H; apply (inj (String.append dir)) in H;
    vm_compute in H; discriminate.
Qed.

(** A record written less than 24 hours ago throttles the next unforced
    run: it returns [True] at once, sends no request and changes no file. *)
Theorem update_lib_throttled_by_saved_record
    (fromisoformat : string → option datetime) (E : env)
    (TLS_CLIENT_PATH CURRENT_DEPENDENCY_FILENAME : string)
    (version last_modified : string) (etag : option string) (t0 : datetime)
    (elapsed : Z) (w : world) :
  io_fault E ReadVersion = false →
  single_line version = true → single_line last_modified = true →
  fs w !! LOCAL_VERSION_FILE TLS_CLIENT_PATH
  = Some (record_text version last_modified (isoformat t0) etag) →
  fromisoformat (isoformat t0) = Some t0 →
  datetime_sub (utcnow E (clock w)) t0 = Ok elapsed →
  elapsed <= CHECK_INTERVAL →
  ∃ w', update_lib fromisoformat E TLS_CLIENT_PATH CURRENT_DEPENDENCY_FILENAME
          false w = (Ok true, w')
        ∧ fs w' = fs w ∧ trace w' = trace w.
Proof.
  intros Hio Hv Hm Hfile Hparse Hsub Hle.
  apply update_lib_throttled_run.
  rewrite should_check_update_fst.
  rewrite (check_due_on_saved_record fromisoformat E TLS_CLIENT_PATH
             version last_modified etag t0 elapsed w) by assumption.
  f_equal. apply Z.ltb_ge. exact Hle.
Qed.

(** ** The further properties on explicit inputs *)

Ltac paths_differ := let H := fresh in intros H; vm_compute in H; discriminate H.

(** The move into place fails after it has overwritten the destination
    with the first two bytes of the new file; the handler puts ["OLD"]
    back. *)
Lemma download_file_restores_witness :
  let E := env_with_partial_copies (Some resp_release)
             (fun site => match site with MoveTemp => true | _ => false end) 2 in
  ∃ w', download_file E "https://dl.invalid/linux-amd64" target_path
          (world_with_target "OLD") = (Ok false, w')
        ∧ fs w' !! target_path = Some "OLD"
        ∧ fs w' !! (target_path +:+ ".backup") = None.
Proof.
  cbv zeta.
  apply (download_file_restores _ "https://dl.invalid/linux-amd64" target_path
           "OLD" resp_release (world_with_target "OLD")).
  - vm_compute. reflexivity.
  - reflexivity.
  - reflexivity.
  - reflexivity.
  - right. right. reflexivity.
  - reflexivity.
Defined.

(** What the failed move of that run leaves for the handler to undo. *)
Example shutil_move_partly_written :
  let E := env_with_partial_copies (Some resp_release)
             (fun site => match site with MoveTemp => true | _ => false end) 2 in
  let w := mkworld (<[ target_path +:+ ".tmp" := "NEW-BINARY" ]>
                      {[ target_path := "OLD" ]}) 0 [] in
  let run := shutil_move E MoveTemp (target_path +:+ ".tmp") target_path w in
  run.1 = Raise OSError
  ∧ fs run.2 !! target_path = Some "NE"
  ∧ fs run.2 !! (target_path +:+ ".tmp") = Some "NEW-BINARY".
Proof. cbv zeta. repeat split; vm_compute; reflexivity. Qed.

Lemma update_lib_not_modified_witness :
  let E := env_answering (Some resp_304) in
  let w := world_with_record record_stale in
  fst (get_latest_release E site w) = Ok None
  ∧ ∃ w', update_lib fromisoformat_ref E site target false w = (Ok true, w')
          ∧ fs w' = fs w
          ∧ fst (read_local_version E site w') = fst (read_local_version E site w)
          ∧ downloads (trace w') = downloads (trace w).
Proof.
  cbv zeta.
  apply (update_lib_not_modified fromisoformat_ref (env_answering (Some resp_304))
           site target false (world_with_record record_stale) resp_304).
  - reflexivity.
  - reflexivity.
  - reflexivity.
Defined.

Lemma download_file_installs_witness :
  ∃ w', download_file (env_answering (Some resp_release))
          "https://dl.invalid/linux-amd64" target_path (world_with_target "OLD")
        = (Ok true, w')
        ∧ fs w' !! target_path = Some (concat_chunks ["NEW-"; "BINARY"])
        ∧ fs w' !! (target_path +:+ ".tmp") = None
        ∧ fs w' !! (target_path +:+ ".backup") = None.
Proof.
  apply (download_file_installs (env_answering (Some resp_release))
           "https://dl.invalid/linux-amd64" target_path resp_release
           (world_with_target "OLD")).
  - reflexivity.
  - reflexivity.
  - reflexivity.
  - intros site. reflexivity.
Defined.

Lemma download_file_frame_witness :
  fs (download_file (env_answering (Some resp_broken))
        "https://dl.invalid/linux-amd64" target_path
        (world_with_record record_stale)).2 !! version_path
  = fs (world_with_record record_stale) !! version_path.
Proof.
  apply (download_file_frame (env_answering (Some resp_broken))
           "https://dl.invalid/linux-amd64" target_path version_path
           (world_with_record record_stale)); paths_differ.
Defined.

Lemma download_file_request_failure_witness :
  ∃ w', download_file (env_answering None) "https://dl.invalid/linux-amd64"
          target_path (world_with_target "OLD") = (Ok false, w')
        ∧ fs w' = fs (world_with_target "OLD").
Proof.
  apply (download_file_request_failure (env_answering None)
           "https://dl.invalid/linux-amd64" target_path (world_with_target "OLD")).
  - exact I.
  - vm_compute. reflexivity.
Defined.

Lemma download_file_request_failure_stale_backup_witness :
  ∃ w', download_file (env_answering None) "https://dl.invalid/linux-amd64"
          target_path (world_with_stale_backup "CURRENT" "STALE") = (Ok false, w')
        ∧ fs w' !! target_path = Some "STALE"
        ∧ fs w' !! (target_path +:+ ".backup") = None.
Proof.
  apply (download_file_request_failure_stale_backup (env_answering None)
           "https://dl.invalid/linux-amd64" target_path "STALE"
           (world_with_stale_backup "CURRENT" "STALE")).
  - exact I.
  - vm_compute. reflexivity.
  - reflexivity.
Defined.

Lemma download_file_returns_witness :
  ∃ ok w', download_file (env_answering (Some resp_broken))
             "https://dl.invalid/linux-amd64" target_path (world_with_target "OLD")
           = (Ok ok, w').
Proof.
  apply (download_file_returns (env_answering (Some resp_broken))
           "https://dl.invalid/linux-amd64" target_path (world_with_target "OLD")).
  reflexivity.
Defined.

Lemma download_file_remove_backup_failure_witness :
  let E := env_with_faults (Some resp_release)
             (fun site => match site with RemoveBackup => true | _ => false end) in
  ∃ w', download_file E "https://dl.invalid/linux-amd64" target_path
          (world_with_target "OLD") = (Ok false, w')
        ∧ fs w' !! target_path = Some "OLD"
        ∧ fs w' !! (target_path +:+ ".tmp") = None
        ∧ fs w' !! (target_path +:+ ".backup") = None.
Proof.
  cbv zeta.
  apply (download_file_remove_backup_failure _
           "https://dl.invalid/linux-amd64" target_path "OLD" resp_release
           (world_with_target "OLD")); reflexivity.
Defined.

Lemma download_file_backup_failure_truncates_witness :
  let E := env_with_partial_copies (Some resp_release)
             (fun site => match site with CopyBackup => true | _ => false end) 4 in
  ∃ w', download_file E "https://dl.invalid/linux-amd64" target_path
          (world_with_target "OLD-BINARY") = (Ok false, w')
        ∧ fs w' !! target_path = Some "OLD-"
        ∧ fs w' !! (target_path +:+ ".backup") = None.
Proof.
  cbv zeta.
  apply (download_file_backup_failure_truncates _ "https://dl.invalid/linux-amd64"
           target_path "OLD-BINARY" resp_release 4 (world_with_target "OLD-BINARY"));
    reflexivity.
Defined.

Lemma download_file_broken_stream_leaves_temp_witness :
  ∃ w', download_file (env_answering (Some resp_broken))
          "https://dl.invalid/linux-amd64" target_path (mkworld ∅ 0 [])
        = (Ok false, w')
        ∧ fs w' !! target_path = None
        ∧ fs w' !! (target_path +:+ ".tmp") = Some (concat_chunks ["NEW-"]).
Proof.
  apply (download_file_broken_stream_leaves_temp (env_answering (Some resp_broken))
           "https://dl.invalid/linux-amd64" target_path resp_broken
           (mkworld ∅ 0 [])); reflexivity.
Defined.

Lemma read_local_version_crlf_witness :
  ∃ d, fst (read_local_version (env_answering None) site
              (world_with_record record_crlf)) = Ok (Some d)
       ∧ d !! "version" = Some (Some "v2.1.0")
       ∧ d !! "last_modified" = Some (Some "2024-04-30T10:00:00Z")
       ∧ d !! "last_check" = Some (Some "2024-04-29T12:00:00+00:00")
       ∧ d !! "Etag" = Some None.
Proof.
  apply (read_local_version_crlf (env_answering None) site "v2.1.0"
           "2024-04-30T10:00:00Z" "2024-04-29T12:00:00+00:00"
           (world_with_record record_crlf)).
  - reflexivity.
  - vm_compute. reflexivity.
  - vm_compute. reflexivity.
  - vm_compute. reflexivity.
  - vm_compute. reflexivity.
Defined.

Lemma save_local_version_write_failure_witness :
  let no_directory := env_with_faults None
             (fun site => match site with MakeDirs => true | _ => false end) in
  let read_only := env_with_faults None
             (fun site => match site with WriteVersion => true | _ => false end) in
  let w := world_with_record record_stale in
  save_local_version no_directory site "v2.2.0" "2024-05-01T09:00:00Z" None w
  = (Raise OSError, w)
  ∧ ∃ w', save_local_version read_only site "v2.2.0" "2024-05-01T09:00:00Z" None w
          = (Ok tt, w')
          ∧ fs w' = fs w
          ∧ printed (trace w') = [MsgErrorSaving OSError].
Proof.
  cbv zeta. split.
  - apply (save_local_version_write_failure _ site "v2.2.0" "2024-05-01T09:00:00Z"
             None (world_with_record record_stale)).
    reflexivity.
  - apply (save_local_version_write_failure _ site "v2.2.0" "2024-05-01T09:00:00Z"
             None (world_with_record record_stale)); reflexivity.
Defined.

Lemma save_local_version_twice_witness :
  let E := env_answering None in
  let w := world_with_record record_stale in
  fs (save_local_version E site "v2.2.0" "2024-05-01T09:00:00Z" (Some "W/def")
        (save_local_version E site "v2.1.5" "2024-04-30T20:00:00Z" None w).2).2
  = <[version_path := record_text "v2.2.0" "2024-05-01T09:00:00Z"
                        (isoformat noon) (Some "W/def")]> (fs w).
Proof.
  exact (save_local_version_twice (env_answering None) site
           "v2.1.5" "2024-04-30T20:00:00Z" "v2.2.0" "2024-05-01T09:00:00Z"
           None (Some "W/def") (world_with_record record_stale) eq_refl eq_refl).
Defined.

Lemma should_check_update_on_saved_record_witness :
  fst (should_check_update fromisoformat_ref (env_answering None) site
         (world_with_record record_fresh)) = Ok false.
Proof.
  apply (should_check_update_on_saved_record fromisoformat_ref (env_answering None)
           site "v2.1.0" "2024-04-30T10:00:00Z" (Some "W/abc") eleven
           (timedelta_hours 1) (world_with_record record_fresh)).
  - reflexivity.
  - vm_compute. reflexivity.
  - vm_compute. reflexivity.
  - vm_compute. reflexivity.
  - vm_compute. reflexivity.
  - reflexivity.
Defined.

Lemma update_lib_throttled_by_saved_record_witness :
  ∃ w', update_lib fromisoformat_ref (env_answering (Some resp_release)) site target
          false (world_with_record record_fresh) = (Ok true, w')
        ∧ fs w' = fs (world_with_record record_fresh)
        ∧ trace w' = trace (world_with_record record_fresh).
Proof.
  apply (update_lib_throttled_by_saved_record fromisoformat_ref
           (env_answering (Some resp_release)) site target
           "v2.1.0" "2024-04-30T10:00:00Z" (Some "W/abc") eleven
           (timedelta_hours 1) (world_with_record record_fresh)).
  - reflexivity.
  - vm_compute. reflexivity.
  - vm_compute. reflexivity.
  - vm_compute. reflexivity.
  - vm_compute. reflexivity.
  - reflexivity.
  - vm_compute. discriminate.
Defined.

Lemma get_latest_release_unconditional_witness :
  ∃ headers,
    requests (trace (get_latest_release (env_answering None) site (mkworld ∅ 0 [])).2)
    = requests (trace (mkworld ∅ 0 [])) ++ [(GITHUB_API_URL, headers, false)]
    ∧ headers !! "If-None-Match" = None.
Proof.
  apply (get_latest_release_unconditional (env_answering None) site (mkworld ∅ 0 [])).
  vm_compute. reflexivity.
Defined.

Lemma get_latest_release_sends_stored_token_witness :
  ∃ headers,
    requests (trace (get_latest_release (env_answering None) site
                       (world_with_record record_stale)).2)
    = [(GITHUB_API_URL, headers, false)]
    ∧ headers !! "If-None-Match" = Some (Some "W/abc").
Proof.
  destruct (get_latest_release_sends_stored_token (env_answering None) site
              (world_with_record record_stale) record_stale)
    as (headers & Hreq & Hhdr).
  - vm_compute. reflexivity.
  - reflexivity.
  - vm_compute. lia.
  - exists headers. split; [exact Hreq|]. rewrite Hhdr. vm_compute. reflexivity.
Defined.

Lemma update_lib_fetch_failure_witness :
  let E := env_answering None in
  let w := world_with_record record_stale in
  (get_latest_release E site w).1 = Ok None
  ∧ last (printed (trace (get_latest_release E site w).2))
    = Some (MsgErrorFetching RequestException)
  ∧ ∃ w', update_lib fromisoformat_ref E site target true w = (Ok true, w')
          ∧ fs w' = fs w
          ∧ downloads (trace w') = downloads (trace w).
Proof.
  cbv zeta.
  destruct (update_lib_fetch_failure fromisoformat_ref (env_answering None) site target
              true (world_with_record record_stale) I) as (Hfetch & Hprinted & Hrun).
  split; [exact Hfetch|]. split; [exact Hprinted|]. exact (Hrun eq_refl).
Defined.

Lemma update_lib_makedirs_failure_witness :
  let E := env_with_faults (Some resp_release)
             (fun site => match site with MakeDirs => true | _ => false end) in
  ∃ w', update_lib fromisoformat_ref E site target true
          (world_with_record record_stale) = (Raise OSError, w')
        ∧ fs w' = fs (world_with_record record_stale)
        ∧ requests (trace w') = [].
Proof.
  cbv zeta.
  apply (update_lib_makedirs_failure fromisoformat_ref _ site target true
           (world_with_record record_stale)).
  - left. reflexivity.
  - reflexivity.
Defined.

Lemma update_lib_force_sends_request_witness :
  ∃ l, requests (trace (update_lib fromisoformat_ref (env_answering (Some resp_release))
                          site target true (world_with_record record_fresh)).2)
       = (GITHUB_API_URL, {[ "If-None-Match" := Some "W/abc" ]}, false) :: l.
Proof.
  destruct (update_lib_force_sends_request fromisoformat_ref
              (env_answering (Some resp_release)) site target
              (world_with_record record_fresh) eq_refl) as (l & Hreq).
  exists l. rewrite Hreq. vm_compute. reflexivity.
Defined.

Lemma update_lib_frame_witness :
  let w := mkworld {[ "/srv/notes.txt" := "keep" ]} 0 [] in
  fs (update_lib fromisoformat_ref (env_answering (Some resp_release)) site target
        false w).2 !! "/srv/notes.txt" = fs w !! "/srv/notes.txt".
Proof.
  cbv zeta.
  apply (update_lib_frame fromisoformat_ref (env_answering (Some resp_release))
           site target false _ "/srv/notes.txt"); paths_differ.
Defined.

Lemma update_lib_false_keeps_record_witness :
  let E := env_answering (Some resp_release) in
  let w := world_with_record record_stale in
  fs (update_lib fromisoformat_ref E site "tls-client-windows-386.dll" true w).2
    !! version_path
  = fs w !! version_path.
Proof.
  cbv zeta.
  apply (update_lib_false_keeps_record fromisoformat_ref
           (env_answering (Some resp_release)) site "tls-client-windows-386.dll"
           true (world_with_record record_stale)); try paths_differ.
  vm_compute. reflexivity.
Defined.

Lemma update_lib_installs_witness :
  ∃ n w', update_lib fromisoformat_ref (env_answering (Some resp_release)) site
            target true (world_with_record record_stale) = (Ok true, w')
          ∧ (0 <= n)%nat
          ∧ fs w' !! target_path = Some (concat_chunks ["NEW-"; "BINARY"])
          ∧ fs w' !! version_path
            = Some (record_text "v2.1.0" "2024-04-30T10:00:00Z" (isoformat noon)
                      (Some "W/abc")).
Proof.
  apply (update_lib_installs fromisoformat_ref (env_answering (Some resp_release))
           site target true (world_with_record record_stale) resp_release
           resp_release
           (mkasset "tls-client-linux-amd64-2.1.0.so" "https://dl.invalid/linux-amd64")).
  - left. reflexivity.
  - reflexivity.
  - discriminate.
  - reflexivity.
  - left. reflexivity.
  - vm_compute. reflexivity.
  - reflexivity.
  - reflexivity.
  - reflexivity.
  - intros site. reflexivity.
  - paths_differ.
Defined.

Lemma main_exit_status_fetch_failure_witness :
  (main fromisoformat_ref (env_answering None) site target false
     (world_with_record record_stale)).1 = 0.
Proof.
  exact (main_exit_status_fetch_failure fromisoformat_ref (env_answering None) site
           target false (world_with_record record_stale) I eq_refl).
Defined.

Lemma main_exit_status_no_matching_asset_witness :
  (main fromisoformat_ref (env_answering (Some resp_release)) site
     "tls-client-windows-386.dll" true (world_with_record record_stale)).1 = 1.
Proof.
  apply (main_exit_status_no_matching_asset fromisoformat_ref
           (env_answering (Some resp_release)) site "tls-client-windows-386.dll"
           true (world_with_record record_stale) resp_release).
  - left. reflexivity.
  - reflexivity.
  - discriminate.
  - reflexivity.
  - discriminate.
  - left. reflexivity.
  - vm_compute. reflexivity.
  - reflexivity.
Defined.

Lemma resolved_paths_apart_witness :
  version_path ≠ target_path
  ∧ version_path ≠ target_path +:+ ".tmp"
  ∧ version_path ≠ target_path +:+ ".backup".
Proof.
  exact (resolved_paths_apart "Linux" "x86_64" target site eq_refl).
Defined.
